(** * CodeProof: change classifier, snapshot engine, chain store,
      replay recorder and flag analyzer

    A shallow embedding of the TypeScript sources: the data model
    ([Snapshot], [Session], [Flag]), [ChangeDetector], [SnapshotEngine],
    [SnapshotStorage] (snapshot/storage.ts), [ReplayRecorder]
    (snapshot/replay-recorder.ts) and [FlagAnalyzer] (flags/analyzer.ts).

    Conventions.  A JavaScript [number] that only ever holds an integer
    (lengths, counters, line counts, epoch milliseconds) is a [Z]; the
    result of [Date.getTime()] is an [option Z] whose [None] is [NaN];
    ratios are exact rationals [Q].  A JavaScript string is a [string],
    read as its sequence of code units, so that [String.length] is
    [.length].  A [Map] whose iteration order is observable is an
    association list in insertion order; a [Map] that is only looked up
    is a [gmap]. *)

From Stdlib Require Import ZArith QArith List String Ascii Bool Lia.
From Stdlib Require Import Sorting.Sorted Sorting.Permutation.
From stdpp Require Import gmap strings list fin_maps.

Local Open Scope string_scope.
Local Open Scope list_scope.
Local Open Scope Z_scope.

(** ** The data model (types.ts) *)

Inductive ChangeType := Typing | Paste | Delete | Refactor.

Inductive FlagSeverity := high | medium | low | info.

Inductive FlagCategory :=
| large_paste
| rapid_completion
| fully_formed_code
| long_gap
| style_inconsistency
| no_debugging
| unusual_typing_speed.

Definition ChangeType_eqb (a b : ChangeType) : bool :=
match a, b with
| Typing, Typing | Paste, Paste | Delete, Delete | Refactor, Refactor => true
| _, _ => false
end.

Definition FlagCategory_eqb (a b : FlagCategory) : bool :=
match a, b with
| large_paste, large_paste
| rapid_completion, rapid_completion
| fully_formed_code, fully_formed_code
| long_gap, long_gap
| style_inconsistency, style_inconsistency
| no_debugging, no_debugging
| unusual_typing_speed, unusual_typing_speed => true
| _, _ => false
end.

Module Snapshot.
Record t := mk {
  id : string;
  timestamp : string;
  filename : string;
  content_hash : string;
  diff : string;
  lines_added : Z;
  lines_removed : Z;
  total_lines : Z;
  change_type : ChangeType;
  change_size : Z;
  chain_hash : string;
  session_id : string
}.
End Snapshot.
Abbreviation Snapshot := Snapshot.t.

Module Session.
Record t := mk {
  id : string;
  started_at : string;
  ended_at : string;
  project_name : string;
  files_touched : list string;
  total_snapshots : Z
}.
End Session.
Abbreviation Session := Session.t.

(** The [Flag] interface.  Its [id] (a fresh UUID) and the two templated
  texts [description] and [suggestedContext] carry no information that
  any rule reads back, and are left out of the record. *)
Module Flag.
Record t := mk {
  category : FlagCategory;
  severity : FlagSeverity;
  timestamp : string;
  filename : string;
  snapshotIds : list string
}.
End Flag.
Abbreviation Flag := Flag.t.

Inductive FlagStatus := acknowledged | dismissed | context_added.

(** [FlagWithContext], a row of the [flags] table, with every field of
    the interface. *)
Module FlagWithContext.
Record t := mk {
  id : string;
  category : FlagCategory;
  severity : FlagSeverity;
  timestamp : string;
  filename : string;
  description : string;
  snapshotIds : list string;
  suggestedContext : string;
  studentContext : string;
  status : FlagStatus
}.
End FlagWithContext.
Abbreviation FlagWithContext := FlagWithContext.t.

(** ** The editor's side of the interface (vscode) *)

Record Position := { line : Z; character : Z }.

Record Range := { range_start : Position; range_end : Position }.

Record Uri := { scheme : string; fsPath : string }.

Record TextDocument := {
uri : Uri;
getText : string;
lineCount : Z
}.

(** [TextDocumentContentChangeEvent] *)
Record ContentChange := {
range : Range;
rangeLength : Z;
text : string
}.

Record TextDocumentChangeEvent := {
document : TextDocument;
contentChanges : list ContentChange
}.

(** What the editor shows at the moment of a call. *)
Record Editor := {
textDocuments : list TextDocument;
workspaceFolders : list string
}.

(** [s.length] *)
Definition strlen (s : string) : Z := Z.of_nat (String.length s).

(** [xs.length] *)
Definition len {A} (xs : list A) : Z := Z.of_nat (length xs).

(** ** The change classifier (detector.ts) *)

Module ChangeDetector.

Definition DEFAULT_PASTE_CHAR_THRESHOLD : Z := 50.
Definition DELETE_CHAR_THRESHOLD : Z := 30.

(** The detector's only field is [pasteThreshold]; [detect] reads it. *)
Definition detect (pasteThreshold : Z) (event : TextDocumentChangeEvent)
  : ChangeType :=
  let changes := contentChanges event in
  if len changes =? 0 then Typing
  else if len changes >? 1 then Refactor
  else
    match changes with
    | [] => Typing
    | change :: _ =>
        let charsAdded := strlen (text change) in
        let charsRemoved := rangeLength change in
        if charsAdded >=? pasteThreshold then Paste
        else if (charsRemoved >=? DELETE_CHAR_THRESHOLD) && (charsAdded =? 0)
             then Delete
             else Typing
    end.

End ChangeDetector.

(** ** External collaborators

    The primitives the sources call but do not define.  Every theorem
    below holds for any [Platform]. *)

Record Platform := {
  (** [crypto.createHash('sha256').update(s).digest('hex')] *)
  sha256 : string -> string;
  (** [Diff.createPatch(name, old, new, '', '')]; [inr e] when it throws *)
  createPatch : string -> string -> string -> string + string;
  (** [minimatch(path, pattern)] *)
  minimatch : string -> string -> bool;
  (** [vscode.workspace.asRelativePath(uri, false)] *)
  asRelativePath : Uri -> string;
  (** [new Date().toISOString()], at the n-th reading of a source of
      time or randomness *)
  toISOString : nat -> string;
  (** [crypto.randomUUID()], likewise *)
  randomUUID : nat -> string;
  (** [new Date(s).getTime()]; [None] is [NaN] *)
  getTime : string -> option Z
}.

(** ** Completions: a call returns normally or throws *)

Inductive Completion (A : Type) :=
  | Normal (a : A)
  | Throw (e : string).
Arguments Normal {A} a.
Arguments Throw {A} e.

(** A computation over a mutable state [S] that may throw; the state
    reached when the exception is raised is kept. *)
Definition M (S A : Type) : Type := S -> Completion A * S.

Definition ret {S A} (a : A) : M S A := fun s => (Normal a, s).

Definition throw {S A} (e : string) : M S A := fun s => (Throw e, s).

Definition bind {S A B} (c : M S A) (k : A -> M S B) : M S B :=
  fun s =>
    match c s with
    | (Normal a, s') => k a s'
    | (Throw e, s') => (Throw e, s')
    end.

(** [try { c } catch (error) { h error }] *)
Definition try_catch {S A} (c : M S A) (h : string -> M S A) : M S A :=
  fun s =>
    match c s with
    | (Normal a, s') => (Normal a, s')
    | (Throw e, s') => h e s'
    end.

Definition get {S} : M S S := fun s => (Normal s, s).

Definition modify {S} (f : S -> S) : M S unit := fun s => (Normal tt, f s).

(** [for (const x of xs) { body x }] *)
Fixpoint for_of {S A} (xs : list A) (body : A -> M S unit) : M S unit :=
  match xs with
  | [] => ret tt
  | x :: rest => bind (body x) (fun _ => for_of rest body)
  end.

Declare Scope js_scope.
Delimit Scope js_scope with js.
Notation "x <- c ;; k" := (bind c (fun x => k))
  (at level 100, c at next level, right associativity) : js_scope.
Notation "c ;; k" := (bind c (fun _ => k))
  (at level 100, right associativity) : js_scope.

(** ** snapshot/storage.ts *)

Module SnapshotStorage.

(** The database: the rows of the [snapshots] and [sessions] tables, in
    the order of their insertion (rowid order). *)
Record t := mk {
  snapshots : list Snapshot;
  sessions : list Session
}.

Definition empty : t := {| snapshots := []; sessions := [] |}.

(** [id TEXT PRIMARY KEY]: an INSERT of a present id makes
    [Statement.run] throw. *)
Definition saveSnapshot (snapshot : Snapshot) : M t unit :=
  fun db =>
    if existsb (fun row => String.eqb (Snapshot.id row) (Snapshot.id snapshot))
               (snapshots db)
    then (Throw "UNIQUE constraint failed: snapshots.id", db)
    else (Normal tt,
          {| snapshots := snapshots db ++ [snapshot];
             sessions := sessions db |}).

(** [ORDER BY timestamp ASC] over TEXT values: bytewise comparison, rows
    with equal timestamps stay in rowid order. *)
Fixpoint insertByTimestamp (row : Snapshot) (sorted : list Snapshot)
  : list Snapshot :=
  match sorted with
  | [] => [row]
  | other :: rest =>
      if String.leb (Snapshot.timestamp row) (Snapshot.timestamp other)
      then row :: other :: rest
      else other :: insertByTimestamp row rest
  end.

Definition orderByTimestamp (rows : list Snapshot) : list Snapshot :=
  foldr insertByTimestamp [] rows.

(** [getSnapshots()] without filters *)
Definition getSnapshots (db : t) : list Snapshot :=
  orderByTimestamp (snapshots db).

(** [getSnapshotCount()] *)
Definition getSnapshotCount (db : t) : Z := len (snapshots db).

(** [createSession(projectName)]; [uuid] and [now] are what
    [crypto.randomUUID()] and [new Date().toISOString()] return. *)
Definition createSession (projectName uuid now : string) : M t Session :=
  fun db =>
    let session :=
      {| Session.id := uuid;
         Session.started_at := now;
         Session.ended_at := "";
         Session.project_name := projectName;
         Session.files_touched := [];
         Session.total_snapshots := 0 |} in
    if existsb (fun row => String.eqb (Session.id row) uuid) (sessions db)
    then (Throw "UNIQUE constraint failed: sessions.id", db)
    else (Normal session,
          {| snapshots := snapshots db;
             sessions := sessions db ++ [session] |}).

(** [SELECT DISTINCT], in order of first occurrence *)
Fixpoint distinct (seen : list string) (names : list string) : list string :=
  match names with
  | [] => []
  | name :: rest =>
      if existsb (String.eqb name) seen then distinct seen rest
      else name :: distinct (name :: seen) rest
  end.

(** [UPDATE sessions SET ... WHERE id = @id] *)
Definition updateSession (sessionId : string) (f : Session -> Session)
  (rows : list Session) : list Session :=
  map (fun row => if String.eqb (Session.id row) sessionId then f row else row)
      rows.

(** [endSession(sessionId)] *)
Definition endSession (sessionId now : string) : M t unit :=
  fun db =>
    let ofSession :=
      List.filter (fun row => String.eqb (Snapshot.session_id row) sessionId)
                  (snapshots db) in
    let filesTouched := distinct [] (map Snapshot.filename ofSession) in
    let count := len ofSession in
    let close (row : Session) :=
      {| Session.id := Session.id row;
         Session.started_at := Session.started_at row;
         Session.ended_at := now;
         Session.project_name := Session.project_name row;
         Session.files_touched := filesTouched;
         Session.total_snapshots := count |} in
    (Normal tt,
     {| snapshots := snapshots db;
        sessions := updateSession sessionId close (sessions db) |}).

(** [SnapshotQueryOptions]; an absent field is [None]. *)
Module SnapshotQueryOptions.
Record t := mk {
  filename : option string;
  after : option string;
  before : option string;
  sessionId : option string
}.
End SnapshotQueryOptions.
Abbreviation SnapshotQueryOptions := SnapshotQueryOptions.t.




(** [getDistinctFileCount()] *)
Definition getDistinctFileCount (db : t) : Z :=
  len (distinct [] (map Snapshot.filename (snapshots db))).

(** [ORDER BY key ASC] over the rows of any table, rows with equal keys
    in rowid order. *)
Fixpoint insertByKey {A} (key : A -> string) (row : A) (sorted : list A)
  : list A :=
  match sorted with
  | [] => [row]
  | other :: rest =>
      if String.leb (key row) (key other) then row :: other :: rest
      else other :: insertByKey key row rest
  end.

Definition orderByKey {A} (key : A -> string) (rows : list A) : list A :=
  foldr (insertByKey key) [] rows.

(** [getSessions()] *)
Definition getSessions (db : t) : list Session :=
  orderByKey Session.started_at (sessions db).

(** The row that [ORDER BY started_at DESC LIMIT 1] returns: a row of
    greatest [started_at]; among several, the one met first. *)
Fixpoint latestStarted (best : Session) (rows : list Session) : Session :=
  match rows with
  | [] => best
  | row :: rest =>
      if String.ltb (Session.started_at best) (Session.started_at row)
      then latestStarted row rest
      else latestStarted best rest
  end.

(** [getCurrentSession()]; [None] is [null]. *)
Definition getCurrentSession (db : t) : option Session :=
  match List.filter (fun row => String.eqb (Session.ended_at row) "")
                    (sessions db) with
  | [] => None
  | first :: rest => Some (latestStarted first rest)
  end.

(** The [flags] table, a third table of the same database, kept beside
    the two above: its rows in rowid order. *)
Definition FlagTable : Type := list FlagWithContext.

(** [saveFlag(flag)]: INSERT OR REPLACE removes the row of the same id
    and inserts the new one.  The list of snapshot ids is stored as
    JSON text and read back as the same list. *)
Definition saveFlag (flag : FlagWithContext) (table : FlagTable) : FlagTable :=
  List.filter
    (fun row => negb (String.eqb (FlagWithContext.id row)
                                 (FlagWithContext.id flag)))
    table
  ++ [flag].

(** [getFlags(sessionId)]; an absent session id is [None]. *)
Definition getFlags (sessionId : option string) (db : t) (table : FlagTable)
  : list FlagWithContext :=
  let allFlags := orderByKey FlagWithContext.timestamp table in
  match sessionId with
  | Some sessionId' =>
      if String.eqb sessionId' "" then allFlags
      else
        let snapshotIdSet :=
          map Snapshot.id
            (List.filter
               (fun row => String.eqb (Snapshot.session_id row) sessionId')
               (snapshots db)) in
        List.filter
          (fun row =>
             existsb
               (fun flagId => existsb (String.eqb flagId) snapshotIdSet)
               (FlagWithContext.snapshotIds row))
          allFlags
  | None => allFlags
  end.

Section WithPlatform.
Variable P : Platform.

(** The loop of [verifyHashChain] over the rows the query returned. *)
Fixpoint verifyRows (previousChainHash : string) (rows : list Snapshot)
  : bool :=
  match rows with
  | [] => true
  | snapshot :: rest =>
      let expectedHash :=
        sha256 P (previousChainHash +:+ Snapshot.content_hash snapshot
                                    +:+ Snapshot.timestamp snapshot) in
      if negb (String.eqb expectedHash (Snapshot.chain_hash snapshot))
      then false
      else verifyRows (Snapshot.chain_hash snapshot) rest
  end.

Definition verifyHashChain (db : t) : bool :=
  verifyRows "" (orderByTimestamp (snapshots db)).

End WithPlatform.

End SnapshotStorage.

(** ** A [Map] iterated in insertion order *)

Module OrderedMap.

Definition t (V : Type) : Type := list (string * V).

(** [m.get(k)] *)
Fixpoint get {V} (k : string) (m : t V) : option V :=
  match m with
  | [] => None
  | (k', v) :: rest => if String.eqb k' k then Some v else get k rest
  end.

(** [m.set(k, v)]: a present key keeps its place, a new one goes last. *)
Fixpoint set {V} (k : string) (v : V) (m : t V) : t V :=
  match m with
  | [] => [(k, v)]
  | (k', v') :: rest =>
      if String.eqb k' k then (k', v) :: rest else (k', v') :: set k v rest
  end.

End OrderedMap.

(** ** The snapshot engine *)

Definition CHANGE_TYPE_PRIORITY (c : ChangeType) : Z :=
  match c with
  | Typing => 0
  | Delete => 1
  | Refactor => 2
  | Paste => 3
  end.

(** Accumulated change data for a file between snapshots *)
Module PendingChange.
Record t := mk {
  changeType : ChangeType;
  charsAdded : Z;
  charsRemoved : Z
}.
End PendingChange.
Abbreviation PendingChange := PendingChange.t.

Record SnapshotEngine := mkEngine {
  (** Previous snapshot content per file (keyed by fsPath) *)
  fileContents : gmap string string;
  (** Files with changes since last snapshot interval *)
  pendingChanges : OrderedMap.t PendingChange;
  (** whether the periodic timer is armed *)
  intervalHandle : bool;
  (** whether the document change listener is registered *)
  changeListener : bool;
  isRunning : bool;
  isPaused : bool;
  sessionId : string;
  snapshotCount : Z;
  lastChainHash : string;
  excludePatterns : list string;
  (** the detector's threshold *)
  pasteThreshold : Z;
  storage : option SnapshotStorage.t;
  (** what [snapshotEmitter.fire] has delivered, oldest first *)
  fired : list Snapshot;
  (** what [console.error] has printed, oldest first *)
  consoleErrors : list string;
  (** how many times time or randomness has been read *)
  readings : nat
}.

Definition set_fileContents (v : gmap string string) (this : SnapshotEngine)
  : SnapshotEngine :=
  {|
     fileContents := v;
     pendingChanges := pendingChanges this;
     intervalHandle := intervalHandle this;
     changeListener := changeListener this;
     isRunning := isRunning this;
     isPaused := isPaused this;
     sessionId := sessionId this;
     snapshotCount := snapshotCount this;
     lastChainHash := lastChainHash this;
     excludePatterns := excludePatterns this;
     pasteThreshold := pasteThreshold this;
     storage := storage this;
     fired := fired this;
     consoleErrors := consoleErrors this;
     readings := readings this |}.

Definition set_pendingChanges (v : OrderedMap.t PendingChange)
  (this : SnapshotEngine) : SnapshotEngine :=
  {|
     fileContents := fileContents this;
     pendingChanges := v;
     intervalHandle := intervalHandle this;
     changeListener := changeListener this;
     isRunning := isRunning this;
     isPaused := isPaused this;
     sessionId := sessionId this;
     snapshotCount := snapshotCount this;
     lastChainHash := lastChainHash this;
     excludePatterns := excludePatterns this;
     pasteThreshold := pasteThreshold this;
     storage := storage this;
     fired := fired this;
     consoleErrors := consoleErrors this;
     readings := readings this |}.

Definition set_intervalHandle (v : bool) (this : SnapshotEngine)
  : SnapshotEngine :=
  {|
     fileContents := fileContents this;
     pendingChanges := pendingChanges this;
     intervalHandle := v;
     changeListener := changeListener this;
     isRunning := isRunning this;
     isPaused := isPaused this;
     sessionId := sessionId this;
     snapshotCount := snapshotCount this;
     lastChainHash := lastChainHash this;
     excludePatterns := excludePatterns this;
     pasteThreshold := pasteThreshold this;
     storage := storage this;
     fired := fired this;
     consoleErrors := consoleErrors this;
     readings := readings this |}.

Definition set_changeListener (v : bool) (this : SnapshotEngine)
  : SnapshotEngine :=
  {|
     fileContents := fileContents this;
     pendingChanges := pendingChanges this;
     intervalHandle := intervalHandle this;
     changeListener := v;
     isRunning := isRunning this;
     isPaused := isPaused this;
     sessionId := sessionId this;
     snapshotCount := snapshotCount this;
     lastChainHash := lastChainHash this;
     excludePatterns := excludePatterns this;
     pasteThreshold := pasteThreshold this;
     storage := storage this;
     fired := fired this;
     consoleErrors := consoleErrors this;
     readings := readings this |}.

Definition set_isRunning (v : bool) (this : SnapshotEngine)
  : SnapshotEngine :=
  {|
     fileContents := fileContents this;
     pendingChanges := pendingChanges this;
     intervalHandle := intervalHandle this;
     changeListener := changeListener this;
     isRunning := v;
     isPaused := isPaused this;
     sessionId := sessionId this;
     snapshotCount := snapshotCount this;
     lastChainHash := lastChainHash this;
     excludePatterns := excludePatterns this;
     pasteThreshold := pasteThreshold this;
     storage := storage this;
     fired := fired this;
     consoleErrors := consoleErrors this;
     readings := readings this |}.

Definition set_isPaused (v : bool) (this : SnapshotEngine)
  : SnapshotEngine :=
  {|
     fileContents := fileContents this;
     pendingChanges := pendingChanges this;
     intervalHandle := intervalHandle this;
     changeListener := changeListener this;
     isRunning := isRunning this;
     isPaused := v;
     sessionId := sessionId this;
     snapshotCount := snapshotCount this;
     lastChainHash := lastChainHash this;
     excludePatterns := excludePatterns this;
     pasteThreshold := pasteThreshold this;
     storage := storage this;
     fired := fired this;
     consoleErrors := consoleErrors this;
     readings := readings this |}.

Definition set_sessionId (v : string) (this : SnapshotEngine)
  : SnapshotEngine :=
  {|
     fileContents := fileContents this;
     pendingChanges := pendingChanges this;
     intervalHandle := intervalHandle this;
     changeListener := changeListener this;
     isRunning := isRunning this;
     isPaused := isPaused this;
     sessionId := v;
     snapshotCount := snapshotCount this;
     lastChainHash := lastChainHash this;
     excludePatterns := excludePatterns this;
     pasteThreshold := pasteThreshold this;
     storage := storage this;
     fired := fired this;
     consoleErrors := consoleErrors this;
     readings := readings this |}.

Definition set_snapshotCount (v : Z) (this : SnapshotEngine)
  : SnapshotEngine :=
  {|
     fileContents := fileContents this;
     pendingChanges := pendingChanges this;
     intervalHandle := intervalHandle this;
     changeListener := changeListener this;
     isRunning := isRunning this;
     isPaused := isPaused this;
     sessionId := sessionId this;
     snapshotCount := v;
     lastChainHash := lastChainHash this;
     excludePatterns := excludePatterns this;
     pasteThreshold := pasteThreshold this;
     storage := storage this;
     fired := fired this;
     consoleErrors := consoleErrors this;
     readings := readings this |}.

Definition set_lastChainHash (v : string) (this : SnapshotEngine)
  : SnapshotEngine :=
  {|
     fileContents := fileContents this;
     pendingChanges := pendingChanges this;
     intervalHandle := intervalHandle this;
     changeListener := changeListener this;
     isRunning := isRunning this;
     isPaused := isPaused this;
     sessionId := sessionId this;
     snapshotCount := snapshotCount this;
     lastChainHash := v;
     excludePatterns := excludePatterns this;
     pasteThreshold := pasteThreshold this;
     storage := storage this;
     fired := fired this;
     consoleErrors := consoleErrors this;
     readings := readings this |}.

Definition set_pasteThreshold (v : Z) (this : SnapshotEngine)
  : SnapshotEngine :=
  {|
     fileContents := fileContents this;
     pendingChanges := pendingChanges this;
     intervalHandle := intervalHandle this;
     changeListener := changeListener this;
     isRunning := isRunning this;
     isPaused := isPaused this;
     sessionId := sessionId this;
     snapshotCount := snapshotCount this;
     lastChainHash := lastChainHash this;
     excludePatterns := excludePatterns this;
     pasteThreshold := v;
     storage := storage this;
     fired := fired this;
     consoleErrors := consoleErrors this;
     readings := readings this |}.

Definition set_storage (v : option SnapshotStorage.t) (this : SnapshotEngine)
  : SnapshotEngine :=
  {|
     fileContents := fileContents this;
     pendingChanges := pendingChanges this;
     intervalHandle := intervalHandle this;
     changeListener := changeListener this;
     isRunning := isRunning this;
     isPaused := isPaused this;
     sessionId := sessionId this;
     snapshotCount := snapshotCount this;
     lastChainHash := lastChainHash this;
     excludePatterns := excludePatterns this;
     pasteThreshold := pasteThreshold this;
     storage := v;
     fired := fired this;
     consoleErrors := consoleErrors this;
     readings := readings this |}.

Definition set_fired (v : list Snapshot) (this : SnapshotEngine)
  : SnapshotEngine :=
  {|
     fileContents := fileContents this;
     pendingChanges := pendingChanges this;
     intervalHandle := intervalHandle this;
     changeListener := changeListener this;
     isRunning := isRunning this;
     isPaused := isPaused this;
     sessionId := sessionId this;
     snapshotCount := snapshotCount this;
     lastChainHash := lastChainHash this;
     excludePatterns := excludePatterns this;
     pasteThreshold := pasteThreshold this;
     storage := storage this;
     fired := v;
     consoleErrors := consoleErrors this;
     readings := readings this |}.

Definition set_consoleErrors (v : list string) (this : SnapshotEngine)
  : SnapshotEngine :=
  {|
     fileContents := fileContents this;
     pendingChanges := pendingChanges this;
     intervalHandle := intervalHandle this;
     changeListener := changeListener this;
     isRunning := isRunning this;
     isPaused := isPaused this;
     sessionId := sessionId this;
     snapshotCount := snapshotCount this;
     lastChainHash := lastChainHash this;
     excludePatterns := excludePatterns this;
     pasteThreshold := pasteThreshold this;
     storage := storage this;
     fired := fired this;
     consoleErrors := v;
     readings := readings this |}.

Definition set_readings (v : nat) (this : SnapshotEngine)
  : SnapshotEngine :=
  {|
     fileContents := fileContents this;
     pendingChanges := pendingChanges this;
     intervalHandle := intervalHandle this;
     changeListener := changeListener this;
     isRunning := isRunning this;
     isPaused := isPaused this;
     sessionId := sessionId this;
     snapshotCount := snapshotCount this;
     lastChainHash := lastChainHash this;
     excludePatterns := excludePatterns this;
     pasteThreshold := pasteThreshold this;
     storage := storage this;
     fired := fired this;
     consoleErrors := consoleErrors this;
     readings := v |}.

(** [EngineStats] *)
Module EngineStats.
Record t := mk {
  isRunning : bool;
  isPaused : bool;
  sessionId : string;
  snapshotCount : Z;
  trackedFiles : Z;
  dirtyFiles : Z
}.
End EngineStats.

(** [s.split('\n')] *)
Fixpoint splitLines (s : string) : list string :=
  match s with
  | EmptyString => [""]
  | String c rest =>
      if Ascii.eqb c "010"%char then "" :: splitLines rest
      else match splitLines rest with
           | [] => [String c ""]
           | l :: ls => String c l :: ls
           end
  end.

(** [s.startsWith(p)] *)
Definition startsWith (s p : string) : bool := String.prefix p s.

Module Engine.

Local Open Scope js_scope.

Section WithPlatform.
Variable P : Platform.

(** [new SnapshotEngine(storage, configManager)], the configuration read
    once from the manager; the constructor draws a first session id. *)
Definition create (storage : option SnapshotStorage.t)
  (pasteThreshold : Z) (excludePatterns : list string) : SnapshotEngine :=
  {| fileContents := ∅;
     pendingChanges := [];
     intervalHandle := false;
     changeListener := false;
     isRunning := false;
     isPaused := false;
     sessionId := randomUUID P 0;
     snapshotCount := 0;
     lastChainHash := "";
     excludePatterns := excludePatterns;
     pasteThreshold := pasteThreshold;
     storage := storage;
     fired := [];
     consoleErrors := [];
     readings := 1 |}.

(** [new Date().toISOString()] *)
Definition readClock : M SnapshotEngine string :=
  fun this =>
    (Normal (toISOString P (readings this)),
     set_readings (S (readings this)) this).

(** [crypto.randomUUID()] *)
Definition generateUUID : M SnapshotEngine string :=
  fun this =>
    (Normal (randomUUID P (readings this)),
     set_readings (S (readings this)) this).

(** [console.error(message, error)] *)
Definition consoleError (message error : string) : M SnapshotEngine unit :=
  modify (fun this =>
    set_consoleErrors (consoleErrors this ++ [message +:+ " " +:+ error]) this).

(** A call of a method of [this.storage]. *)
Definition onStorage {A} (call : M SnapshotStorage.t A) : M SnapshotEngine A :=
  fun this =>
    match storage this with
    | Some db =>
        let (result, db') := call db in
        (result, set_storage (Some db') this)
    | None => (Throw "TypeError: this.storage is undefined", this)
    end.

(** An external call that may throw and touches no state of the engine. *)
Definition external {A} (result : A + string) : M SnapshotEngine A :=
  match result with
  | inl a => ret a
  | inr e => throw e
  end.

Definition pause (this : SnapshotEngine) : SnapshotEngine :=
  if negb (isRunning this) || isPaused this then this
  else set_isPaused true this.

Definition resume (this : SnapshotEngine) : SnapshotEngine :=
  if negb (isRunning this) || negb (isPaused this) then this
  else set_isPaused false this.

Definition isExcluded (relativePath : string) (this : SnapshotEngine) : bool :=
  existsb (fun pattern => minimatch P relativePath pattern)
          (excludePatterns this).

(** The characters one event adds and removes, over all its ranges. *)
Definition eventCharsAdded (event : TextDocumentChangeEvent) : Z :=
  fold_left (fun acc change => acc + strlen (text change))
            (contentChanges event) 0.

Definition eventCharsRemoved (event : TextDocumentChangeEvent) : Z :=
  fold_left (fun acc change => acc + rangeLength change)
            (contentChanges event) 0.

(** The handler neither throws nor reads anything but the event. *)
Definition handleDocumentChange (event : TextDocumentChangeEvent)
  (this : SnapshotEngine) : SnapshotEngine :=
  if len (contentChanges event) =? 0 then this
  else if negb (String.eqb (scheme (uri (document event))) "file") then this
  else
    let filePath := fsPath (uri (document event)) in
    let relativePath := asRelativePath P (uri (document event)) in
    if isExcluded relativePath this then this
    else
      let changeType := ChangeDetector.detect (pasteThreshold this) event in
      let charsAdded := eventCharsAdded event in
      let charsRemoved := eventCharsRemoved event in
      let this :=
        match fileContents this !! filePath with
        | Some _ => this
        | None => set_fileContents (<[filePath := ""]> (fileContents this)) this
        end in
      match OrderedMap.get filePath (pendingChanges this) with
      | Some existing =>
          let kept :=
            if CHANGE_TYPE_PRIORITY changeType
                 >? CHANGE_TYPE_PRIORITY ((PendingChange.changeType existing))
            then changeType else (PendingChange.changeType existing) in
          set_pendingChanges
            (OrderedMap.set filePath
               (PendingChange.mk kept
                  (PendingChange.charsAdded existing + charsAdded)
                  (PendingChange.charsRemoved existing + charsRemoved))
               (pendingChanges this))
            this
      | None =>
          set_pendingChanges
            (OrderedMap.set filePath
               (PendingChange.mk changeType charsAdded charsRemoved)
               (pendingChanges this))
            this
      end.

(** [getStats()] *)
Definition getStats (this : SnapshotEngine) : EngineStats.t :=
  {| EngineStats.isRunning := isRunning this;
     EngineStats.isPaused := isPaused this;
     EngineStats.sessionId := sessionId this;
     EngineStats.snapshotCount := snapshotCount this;
     EngineStats.trackedFiles := Z.of_nat (size (fileContents this));
     EngineStats.dirtyFiles := len (pendingChanges this) |}.

(** [countDiffLines(diff)] *)
Definition countDiffLines (diff : string) : Z * Z :=
  fold_left
    (fun '(linesAdded, linesRemoved) line =>
       if startsWith line "+" && negb (startsWith line "+++")
       then (linesAdded + 1, linesRemoved)
       else if startsWith line "-" && negb (startsWith line "---")
            then (linesAdded, linesRemoved + 1)
            else (linesAdded, linesRemoved))
    (splitLines diff) (0, 0).

(** [emitSnapshot(filePath, pending)] *)
Definition emitSnapshot (ed : Editor) (filePath : string)
  (pending : PendingChange) : M SnapshotEngine unit :=
  match List.find (fun doc => String.eqb (fsPath (uri doc)) filePath)
                  (textDocuments ed) with
  | None => ret tt
  | Some document =>
      this <- get;;
      let currentContent := getText document in
      let previousContent := default "" (fileContents this !! filePath) in
      if String.eqb currentContent previousContent then ret tt
      else
        let relativePath := asRelativePath P (uri document) in
        unifiedDiff <-
          external (createPatch P relativePath previousContent currentContent);;
        let '(linesAdded, linesRemoved) := countDiffLines unifiedDiff in
        let contentHash := sha256 P currentContent in
        timestamp <- readClock;;
        let chainHash :=
          sha256 P (lastChainHash this +:+ contentHash +:+ timestamp) in
        uuid <- generateUUID;;
        let snapshot :=
          {| Snapshot.id := uuid;
             Snapshot.timestamp := timestamp;
             Snapshot.filename := relativePath;
             Snapshot.content_hash := contentHash;
             Snapshot.diff := unifiedDiff;
             Snapshot.lines_added := linesAdded;
             Snapshot.lines_removed := linesRemoved;
             Snapshot.total_lines := lineCount document;
             Snapshot.change_type := PendingChange.changeType pending;
             Snapshot.change_size :=
               PendingChange.charsAdded pending
               + PendingChange.charsRemoved pending;
             Snapshot.chain_hash := chainHash;
             Snapshot.session_id := sessionId this |} in
        modify (set_lastChainHash chainHash);;
        modify (fun this =>
          set_fileContents (<[filePath := currentContent]> (fileContents this))
                           this);;
        modify (fun this => set_snapshotCount (snapshotCount this + 1) this);;
        (match storage this with
         | Some _ =>
             try_catch
               (onStorage (SnapshotStorage.saveSnapshot snapshot))
               (consoleError "[CodeProof] Error saving snapshot to storage:")
         | None => ret tt
         end);;
        modify (fun this => set_fired (fired this ++ [snapshot]) this)
  end.

(** [processSnapshots()], the body of a tick *)
Definition processSnapshots (ed : Editor) : M SnapshotEngine unit :=
  this <- get;;
  if isPaused this || (len (pendingChanges this) =? 0) then ret tt
  else
    for_of (pendingChanges this)
      (fun '(filePath, pending) =>
         try_catch
           (emitSnapshot ed filePath pending)
           (consoleError
              ("[CodeProof] Error processing snapshot for " +:+ filePath
                 +:+ ":")));;
    modify (set_pendingChanges []).

(** [start()] *)
Definition start (ed : Editor) : M SnapshotEngine unit :=
  this <- get;;
  if isRunning this then ret tt
  else
    modify (set_isRunning true);;
    modify (set_isPaused false);;
    modify (set_snapshotCount 0);;
    modify (set_lastChainHash "");;
    (match storage this with
     | Some _ =>
         let workspaceName := hd "unknown" (workspaceFolders ed) in
         uuid <- generateUUID;;
         now <- readClock;;
         session <-
           onStorage (SnapshotStorage.createSession workspaceName uuid now);;
         modify (set_sessionId (Session.id session))
     | None =>
         uuid <- generateUUID;;
         modify (set_sessionId uuid)
     end);;
    modify (set_changeListener true);;
    modify (set_intervalHandle true).

(** [stop()] *)
Definition stop (ed : Editor) : M SnapshotEngine unit :=
  this <- get;;
  if negb (isRunning this) then ret tt
  else
    processSnapshots ed;;
    (match storage this with
     | Some _ =>
         try_catch
           (now <- readClock;;
            onStorage (SnapshotStorage.endSession (sessionId this) now))
           (consoleError "[CodeProof] Error ending session in storage:")
     | None => ret tt
     end);;
    modify (set_isRunning false);;
    modify (set_isPaused false);;
    modify (set_intervalHandle false);;
    modify (set_changeListener false);;
    modify (set_fileContents ∅);;
    modify (set_pendingChanges []).

End WithPlatform.
End Engine.

(** ** snapshot/replay-recorder.ts *)

Module ReplayChange.
(** Modelled from the spec: the declaration of [ReplayChange] is not
    among the sources; a Change has a half-open range (start line/char,
    end line/char), inserted text, and the length of text it replaced.
    The field names are those [handleDocumentChange] writes. *)
Record t := mk {
  rangeStart : Position;
  rangeEnd : Position;
  text : string;
  rangeLength : Z
}.
End ReplayChange.
Abbreviation ReplayChange := ReplayChange.t.

Module ReplayEvent.
(** Modelled from the spec: the declaration of [ReplayEvent] is not
    among the sources; it has a timestamp, a filename and an ordered
    list of Changes.  The timestamp is what [Date.now()] returns. *)
Record t := mk {
  timestamp : Z;
  filename : string;
  changes : list ReplayChange
}.
End ReplayEvent.
Abbreviation ReplayEvent := ReplayEvent.t.

Module ReplayRecorder.

Definition FLUSH_INTERVAL_MS : Z := 5000.
Definition COALESCE_WINDOW_MS : Z := 500.

(** The recorder's fields that the change handler reads or writes. *)
Record t := mk {
  buffer : list ReplayEvent;
  isRecording : bool;
  excludePatterns : list string
}.

Definition set_buffer (v : list ReplayEvent) (this : t) : t :=
  {| buffer := v;
     isRecording := isRecording this;
     excludePatterns := excludePatterns this |}.

(** [tryCoalesce(newEvent)]: the returned boolean, and the buffer after
    the call.  The last buffered event is changed in place. *)
Definition tryCoalesce (newEvent : ReplayEvent) (buffer : list ReplayEvent)
  : bool * list ReplayEvent :=
  if len buffer =? 0 then (false, buffer)
  else
    match buffer !! (length buffer - 1)%nat with
    | None => (false, buffer)
    | Some lastEvent =>
        if negb (String.eqb (ReplayEvent.filename lastEvent)
                            (ReplayEvent.filename newEvent))
        then (false, buffer)
        else if ReplayEvent.timestamp newEvent - ReplayEvent.timestamp lastEvent
                  >? COALESCE_WINDOW_MS
        then (false, buffer)
        else if negb (len (ReplayEvent.changes lastEvent) =? 1)
                || negb (len (ReplayEvent.changes newEvent) =? 1)
        then (false, buffer)
        else
          match ReplayEvent.changes lastEvent, ReplayEvent.changes newEvent with
          | lastChange :: others, newChange :: _ =>
              if negb (ReplayChange.rangeLength lastChange =? 0)
                 || negb (ReplayChange.rangeLength newChange =? 0)
              then (false, buffer)
              else if negb (line (ReplayChange.rangeStart lastChange)
                              =? line (ReplayChange.rangeStart newChange))
              then (false, buffer)
              else
                let expectedChar :=
                  character (ReplayChange.rangeStart lastChange)
                  + strlen (ReplayChange.text lastChange) in
                if negb (character (ReplayChange.rangeStart newChange)
                           =? expectedChar)
                then (false, buffer)
                else if negb (strlen (ReplayChange.text newChange) =? 1)
                then (false, buffer)
                else
                  let coalesced :=
                    {| ReplayChange.rangeStart :=
                         ReplayChange.rangeStart lastChange;
                       ReplayChange.rangeEnd :=
                         {| line := line (ReplayChange.rangeEnd newChange);
                            character :=
                              character (ReplayChange.rangeEnd newChange) |};
                       ReplayChange.text :=
                         ReplayChange.text lastChange
                           +:+ ReplayChange.text newChange;
                       ReplayChange.rangeLength :=
                         ReplayChange.rangeLength lastChange |} in
                  let lastEvent' :=
                    {| ReplayEvent.timestamp := ReplayEvent.timestamp lastEvent;
                       ReplayEvent.filename := ReplayEvent.filename lastEvent;
                       ReplayEvent.changes := coalesced :: others |} in
                  (true, <[(length buffer - 1)%nat := lastEvent']> buffer)
          | _, _ => (false, buffer)
          end
    end.

Section WithPlatform.
Variable P : Platform.

Definition isExcluded (relativePath : string) (this : t) : bool :=
  existsb (fun pattern => minimatch P relativePath pattern)
          (excludePatterns this).

(** [handleDocumentChange(event)]; [now] is what [Date.now()] returns. *)
Definition handleDocumentChange (event : TextDocumentChangeEvent) (now : Z)
  (this : t) : t :=
  if len (contentChanges event) =? 0 then this
  else if negb (String.eqb (scheme (uri (document event))) "file") then this
  else
    let relativePath := asRelativePath P (uri (document event)) in
    if isExcluded relativePath this then this
    else
      let timestamp := now in
      let changes :=
        map (fun change =>
               {| ReplayChange.rangeStart :=
                    {| line := line (range_start (range change));
                       character := character (range_start (range change)) |};
                  ReplayChange.rangeEnd :=
                    {| line := line (range_end (range change));
                       character := character (range_end (range change)) |};
                  ReplayChange.text := text change;
                  ReplayChange.rangeLength := rangeLength change |})
            (contentChanges event) in
      let newEvent :=
        {| ReplayEvent.timestamp := timestamp;
           ReplayEvent.filename := relativePath;
           ReplayEvent.changes := changes |} in
      let (coalesced, buffer') := tryCoalesce newEvent (buffer this) in
      if coalesced then set_buffer buffer' this
      else set_buffer (buffer' ++ [newEvent]) this.

End WithPlatform.
End ReplayRecorder.

(** ** JavaScript numbers that may be [NaN] *)

Module Num.

Definition t : Type := option Z.

Definition add (a b : t) : t :=
  match a, b with Some x, Some y => Some (x + y) | _, _ => None end.

Definition sub (a b : t) : t :=
  match a, b with Some x, Some y => Some (x - y) | _, _ => None end.

(** A comparison with [NaN] is false. *)
Definition ltb (a b : t) : bool :=
  match a, b with Some x, Some y => x <? y | _, _ => false end.

Definition gtb (a b : t) : bool :=
  match a, b with Some x, Some y => x >? y | _, _ => false end.

Definition leb (a b : t) : bool :=
  match a, b with Some x, Some y => x <=? y | _, _ => false end.

End Num.

(** ** flags/analyzer.ts *)

Module FlagAnalyzer.

Definition LARGE_PASTE_THRESHOLD : Z := 30.
Definition FULLY_FORMED_LINE_THRESHOLD : Z := 50.
Definition LONG_GAP_MS : Z := 2 * 60 * 60 * 1000.
Definition POST_GAP_WINDOW_MS : Z := 30 * 60 * 1000.
Definition POST_GAP_LINE_THRESHOLD : Z := 30.
Definition NO_DEBUGGING_LINE_THRESHOLD : Z := 100.
Definition UNUSUAL_SPEED_CPM : Z := 200.
Definition SPEED_WINDOW_MS : Z := 5 * 60 * 1000.
Definition RAPID_COMPLETION_LINE_THRESHOLD : Z := 200.
Definition RAPID_COMPLETION_TIME_MS : Z := 60 * 60 * 1000.

(** [detectLargePaste] *)
Definition detectLargePaste (snapshots : list Snapshot) : list Flag :=
  flat_map
    (fun snapshot =>
       if (Snapshot.lines_added snapshot >=? LARGE_PASTE_THRESHOLD)
          && ChangeType_eqb (Snapshot.change_type snapshot) Paste
       then [ {| Flag.category := large_paste;
                 Flag.severity := medium;
                 Flag.timestamp := Snapshot.timestamp snapshot;
                 Flag.filename := Snapshot.filename snapshot;
                 Flag.snapshotIds := [Snapshot.id snapshot] |} ]
       else [])
    snapshots.

(** [detectFullyFormedCode]: the head of the list is [snapshots[i]], its
    tail is [snapshots[i+1 ..]], which the inner loop scans. *)
Fixpoint detectFullyFormedCode (snapshots : list Snapshot) : list Flag :=
  match snapshots with
  | [] => []
  | snapshot :: later =>
      (if Snapshot.lines_added snapshot <? FULLY_FORMED_LINE_THRESHOLD then []
       else
         let wasEditedAfter :=
           existsb (fun other => String.eqb (Snapshot.filename other)
                                            (Snapshot.filename snapshot))
                   later in
         if negb wasEditedAfter
         then [ {| Flag.category := fully_formed_code;
                   Flag.severity := high;
                   Flag.timestamp := Snapshot.timestamp snapshot;
                   Flag.filename := Snapshot.filename snapshot;
                   Flag.snapshotIds := [Snapshot.id snapshot] |} ]
         else [])
      ++ detectFullyFormedCode later
  end.

(** [/[a-z]/] and [/[A-Z]/] on one code unit *)
Definition isLower (c : ascii) : bool :=
  (97 <=? Z.of_nat (nat_of_ascii c)) && (Z.of_nat (nat_of_ascii c) <=? 122).

Definition isUpper (c : ascii) : bool :=
  (65 <=? Z.of_nat (nat_of_ascii c)) && (Z.of_nat (nat_of_ascii c) <=? 90).

(** [line.match(/[a-z][A-Z]/g)]: the number of matches, found left to
    right without overlap. *)
Fixpoint countCamel (s : string) : Z :=
  match s with
  | String a ((String b after) as rest) =>
      if isLower a && isUpper b then 1 + countCamel after
      else countCamel rest
  | _ => 0
  end.

(** [line.match(/[a-z]_[a-z]/g)], likewise *)
Fixpoint countSnake (s : string) : Z :=
  match s with
  | String a ((String b ((String c after) as rest2)) as rest) =>
      if isLower a && Ascii.eqb b "_"%char && isLower c
      then 1 + countSnake after
      else countSnake rest
  | _ => 0
  end.

Inductive NamingConvention := camelCase | snake_case.

Definition NamingConvention_eqb (a b : NamingConvention) : bool :=
  match a, b with
  | camelCase, camelCase | snake_case, snake_case => true
  | _, _ => false
  end.

Definition addedLines (diff : string) : list string :=
  List.filter (fun line => startsWith line "+" && negb (startsWith line "+++"))
              (splitLines diff).

(** [detectNamingConvention]: [None] is [{ dominant: null }].  The ratio
    and the two bounds are exact rationals. *)
Definition detectNamingConvention (snapshots : list Snapshot)
  : option NamingConvention :=
  let '(camelCount, snakeCount) :=
    fold_left
      (fun counts snapshot =>
         fold_left
           (fun '(camel, snake) line =>
              (camel + countCamel line, snake + countSnake line))
           (addedLines (Snapshot.diff snapshot)) counts)
      snapshots (0, 0) in
  let total := camelCount + snakeCount in
  if total <? 5 then None
  else
    let camelRatio := (inject_Z camelCount / inject_Z total)%Q in
    if negb (Qle_bool camelRatio (7 # 10)) then Some camelCase
    else if negb (Qle_bool (3 # 10) camelRatio) then Some snake_case
    else None.

(** The first loop of [detectStyleInconsistency]: snapshots by file. *)
Definition groupByFile (snapshots : list Snapshot)
  : OrderedMap.t (list Snapshot) :=
  fold_left
    (fun fileSnapshots snapshot =>
       match OrderedMap.get (Snapshot.filename snapshot) fileSnapshots with
       | Some existing =>
           OrderedMap.set (Snapshot.filename snapshot)
                          (existing ++ [snapshot]) fileSnapshots
       | None =>
           OrderedMap.set (Snapshot.filename snapshot) [snapshot] fileSnapshots
       end)
    snapshots [].

(** [Math.ceil(n / 2)] *)
Definition ceilHalf (n : nat) : nat := ((n + 1) / 2)%nat.

(** [detectStyleInconsistency].  With two snapshots or more the late
    half is not empty, so [lateSnaps[0]] is defined. *)
Definition detectStyleInconsistency (snapshots : list Snapshot) : list Flag :=
  flat_map
    (fun '(filename, fileSnaps) =>
       if len fileSnaps <? 2 then []
       else
         let earlySnaps := take (ceilHalf (length fileSnaps)) fileSnaps in
         let lateSnaps := drop (ceilHalf (length fileSnaps)) fileSnaps in
         match detectNamingConvention earlySnaps,
               detectNamingConvention lateSnaps,
               lateSnaps with
         | Some earlyStyle, Some lateStyle, firstLate :: _ =>
             if negb (NamingConvention_eqb earlyStyle lateStyle)
             then [ {| Flag.category := style_inconsistency;
                       Flag.severity := medium;
                       Flag.timestamp := Snapshot.timestamp firstLate;
                       Flag.filename := filename;
                       Flag.snapshotIds := map Snapshot.id fileSnaps |} ]
             else []
         | _, _, _ => []
         end)
    (groupByFile snapshots).

(** The per-file record of [detectNoDebugging]. *)
Record FileStats := {
  totalAdded : Z;
  totalRemoved : Z;
  snapshotIds : list string;
  firstTimestamp : string
}.

Definition collectFileStats (snapshots : list Snapshot)
  : OrderedMap.t FileStats :=
  fold_left
    (fun fileStats snapshot =>
       match OrderedMap.get (Snapshot.filename snapshot) fileStats with
       | Some existing =>
           OrderedMap.set (Snapshot.filename snapshot)
             {| totalAdded :=
                  totalAdded existing + Snapshot.lines_added snapshot;
                totalRemoved :=
                  totalRemoved existing + Snapshot.lines_removed snapshot;
                snapshotIds := snapshotIds existing ++ [Snapshot.id snapshot];
                firstTimestamp := firstTimestamp existing |}
             fileStats
       | None =>
           OrderedMap.set (Snapshot.filename snapshot)
             {| totalAdded := Snapshot.lines_added snapshot;
                totalRemoved := Snapshot.lines_removed snapshot;
                snapshotIds := [Snapshot.id snapshot];
                firstTimestamp := Snapshot.timestamp snapshot |}
             fileStats
       end)
    snapshots [].

(** [detectNoDebugging] *)
Definition detectNoDebugging (snapshots : list Snapshot) : list Flag :=
  flat_map
    (fun '(filename, stats) =>
       if (totalAdded stats >=? NO_DEBUGGING_LINE_THRESHOLD)
          && (totalRemoved stats =? 0)
       then [ {| Flag.category := no_debugging;
                 Flag.severity := low;
                 Flag.timestamp := firstTimestamp stats;
                 Flag.filename := filename;
                 Flag.snapshotIds := snapshotIds stats |} ]
       else [])
    (collectFileStats snapshots).

Section WithPlatform.
Variable P : Platform.

(** [new Date(snapshot.timestamp).getTime()] *)
Definition timeOf (snapshot : Snapshot) : Num.t :=
  getTime P (Snapshot.timestamp snapshot).

(** The inner loop of the two windowed rules: from [snapshots[j]] on,
    add up [weight] and collect ids until a snapshot lies after
    [windowEnd]. *)
Fixpoint scanWindow (windowEnd : Num.t) (weight : Snapshot -> Z)
  (snapshots : list Snapshot) : Z * list string :=
  match snapshots with
  | [] => (0, [])
  | snapshot :: rest =>
      if Num.gtb (timeOf snapshot) windowEnd then (0, [])
      else
        let '(total, ids) := scanWindow windowEnd weight rest in
        (weight snapshot + total, Snapshot.id snapshot :: ids)
  end.

(** The loop of [detectLongGapThenCompletion] from index [i]:
    [previous] is [snapshots[i-1]], the list is [snapshots[i ..]]. *)
Fixpoint longGapFrom (previous : Snapshot) (snapshots : list Snapshot)
  : list Flag :=
  match snapshots with
  | [] => []
  | current :: rest =>
      let prevTime := timeOf previous in
      let currTime := timeOf current in
      let gap := Num.sub currTime prevTime in
      (if Num.ltb gap (Some LONG_GAP_MS) then []
       else
         let windowEnd := Num.add currTime (Some POST_GAP_WINDOW_MS) in
         let '(linesAddedAfterGap, relevantSnapshotIds) :=
           scanWindow windowEnd Snapshot.lines_added (current :: rest) in
         if linesAddedAfterGap >=? POST_GAP_LINE_THRESHOLD
         then [ {| Flag.category := long_gap;
                   Flag.severity := medium;
                   Flag.timestamp := Snapshot.timestamp current;
                   Flag.filename := Snapshot.filename current;
                   Flag.snapshotIds := relevantSnapshotIds |} ]
         else [])
      ++ longGapFrom current rest
  end.

Definition detectLongGapThenCompletion (snapshots : list Snapshot)
  : list Flag :=
  match snapshots with
  | [] => []
  | first :: rest => longGapFrom first rest
  end.

(** The loop of [detectUnusualSpeed] from index [i], with the set of
    window keys flagged so far. *)
Fixpoint unusualSpeedFrom (flaggedWindows : gset string)
  (snapshots : list Snapshot) : list Flag :=
  match snapshots with
  | [] => []
  | start :: rest =>
      let windowStart := timeOf start in
      let windowEnd := Num.add windowStart (Some SPEED_WINDOW_MS) in
      let '(totalChars, windowSnapshotIds) :=
        scanWindow windowEnd Snapshot.change_size (start :: rest) in
      let windowDurationMinutes := (inject_Z SPEED_WINDOW_MS / 60000)%Q in
      let charsPerMinute := (inject_Z totalChars / windowDurationMinutes)%Q in
      if Qle_bool (inject_Z UNUSUAL_SPEED_CPM) charsPerMinute
         && (len windowSnapshotIds >=? 2)
      then
        let windowKey := Snapshot.id start in
        if bool_decide (windowKey ∈ flaggedWindows)
        then unusualSpeedFrom flaggedWindows rest
        else
          {| Flag.category := unusual_typing_speed;
             Flag.severity := low;
             Flag.timestamp := Snapshot.timestamp start;
             Flag.filename := Snapshot.filename start;
             Flag.snapshotIds := windowSnapshotIds |}
          :: unusualSpeedFrom ({[windowKey]} ∪ flaggedWindows) rest
      else unusualSpeedFrom flaggedWindows rest
  end.

Definition detectUnusualSpeed (snapshots : list Snapshot) : list Flag :=
  unusualSpeedFrom ∅ snapshots.

(** [detectRapidCompletion] *)
Definition detectRapidCompletion (snapshots : list Snapshot) : list Flag :=
  if len snapshots <? 2 then []
  else
    match snapshots !! 0%nat, snapshots !! (length snapshots - 1)%nat with
    | Some first, Some final =>
        let firstTime := timeOf first in
        let lastTime := timeOf final in
        let elapsed := Num.sub lastTime firstTime in
        let totalLinesAdded :=
          fold_left (fun sum snap => sum + Snapshot.lines_added snap)
                    snapshots 0 in
        if Num.leb elapsed (Some RAPID_COMPLETION_TIME_MS)
           && (totalLinesAdded >=? RAPID_COMPLETION_LINE_THRESHOLD)
        then [ {| Flag.category := rapid_completion;
                  Flag.severity := low;
                  Flag.timestamp := Snapshot.timestamp first;
                  Flag.filename := Snapshot.filename first;
                  Flag.snapshotIds := map Snapshot.id snapshots |} ]
        else []
    | _, _ => []
    end.

(** [analyze(snapshots)] *)
Definition analyze (snapshots : list Snapshot) : list Flag :=
  if len snapshots =? 0 then []
  else
    detectLargePaste snapshots
    ++ detectFullyFormedCode snapshots
    ++ detectLongGapThenCompletion snapshots
    ++ detectStyleInconsistency snapshots
    ++ detectNoDebugging snapshots
    ++ detectUnusualSpeed snapshots
    ++ detectRapidCompletion snapshots.

End WithPlatform.
End FlagAnalyzer.


(** ** An instance of the platform

    Used to run the model on concrete inputs. *)

(** SHA-256 (FIPS 180-4) over the code units of a string, in hex *)

Module SHA256.

Definition w32 (x : Z) : Z := x mod 2 ^ 32.

Definition add32 (x y : Z) : Z := w32 (x + y).

Definition rotr (n x : Z) : Z :=
  Z.lor (Z.shiftr x n) (w32 (Z.shiftl x (32 - n))).

Definition not32 (x : Z) : Z := 2 ^ 32 - 1 - x.

Definition Ch (x y z : Z) : Z := Z.lxor (Z.land x y) (Z.land (not32 x) z).

Definition Maj (x y z : Z) : Z :=
  Z.lxor (Z.lxor (Z.land x y) (Z.land x z)) (Z.land y z).

Definition Sigma0 (x : Z) : Z :=
  Z.lxor (Z.lxor (rotr 2 x) (rotr 13 x)) (rotr 22 x).

Definition Sigma1 (x : Z) : Z :=
  Z.lxor (Z.lxor (rotr 6 x) (rotr 11 x)) (rotr 25 x).

Definition sigma0 (x : Z) : Z :=
  Z.lxor (Z.lxor (rotr 7 x) (rotr 18 x)) (Z.shiftr x 3).

Definition sigma1 (x : Z) : Z :=
  Z.lxor (Z.lxor (rotr 17 x) (rotr 19 x)) (Z.shiftr x 10).

Definition primes : list Z :=
  [ 2; 3; 5; 7; 11; 13; 17; 19; 23; 29; 31; 37; 41; 43; 47; 53;
    59; 61; 67; 71; 73; 79; 83; 89; 97; 101; 103; 107; 109; 113; 127; 131;
    137; 139; 149; 151; 157; 163; 167; 173; 179; 181; 191; 193; 197; 199;
    211; 223; 227; 229; 233; 239; 241; 251; 257; 263; 269; 271; 277; 281;
    283; 293; 307; 311 ].

(** The integer cube root of [n], found bit by bit below [2 ^ bits]. *)
Fixpoint cubeRoot (bits : nat) (n root : Z) : Z :=
  match bits with
  | O => root
  | S lower =>
      let candidate := root + 2 ^ Z.of_nat lower in
      if candidate * candidate * candidate <=? n
      then cubeRoot lower n candidate
      else cubeRoot lower n root
  end.

(** The first 32 bits of the fractional parts of the cube roots of the
    first 64 primes. *)
Definition K : list Z :=
  map (fun p => w32 (cubeRoot 36 (p * 2 ^ 96) 0)) primes.

(** The first 32 bits of the fractional parts of the square roots of
    the first 8 primes. *)
Definition H0 : list Z :=
  map (fun p => w32 (Z.sqrt (p * 2 ^ 64))) (firstn 8 primes).

Definition bytesOf (s : string) : list Z :=
  map (fun c => Z.of_nat (nat_of_ascii c)) (list_ascii_of_string s).

(** Big-endian bytes of [x], [n] of them. *)
Fixpoint bigEndian (n : nat) (x : Z) : list Z :=
  match n with
  | O => []
  | S m => (Z.shiftr x (8 * Z.of_nat m)) mod 256 :: bigEndian m x
  end.

(** The message, a 1 bit, zeros up to 56 modulo 64, the bit length. *)
Definition pad (message : list Z) : list Z :=
  let l := Z.of_nat (length message) in
  let zeros := Z.to_nat ((55 - l) mod 64) in
  message ++ [128] ++ repeat 0 zeros ++ bigEndian 8 (8 * l).

Fixpoint wordsOf (n : nat) (bytes : list Z) : list Z :=
  match n, bytes with
  | S m, a :: b :: c :: d :: rest =>
      (a * 2 ^ 24 + b * 2 ^ 16 + c * 2 ^ 8 + d) :: wordsOf m rest
  | _, _ => []
  end.

(** The message schedule, latest word first; [n] more words to add. *)
Fixpoint schedule (n : nat) (rev_w : list Z) : list Z :=
  match n with
  | O => rev_w
  | S m =>
      let w :=
        add32 (add32 (sigma1 (nth 1 rev_w 0)) (nth 6 rev_w 0))
              (add32 (sigma0 (nth 14 rev_w 0)) (nth 15 rev_w 0)) in
      schedule m (w :: rev_w)
  end.

Definition round (state : list Z) (kw : Z * Z) : list Z :=
  match state with
  | [a; b; c; d; e; f; g; h] =>
      let t1 :=
        add32 (add32 (add32 h (Sigma1 e)) (Ch e f g))
              (add32 (fst kw) (snd kw)) in
      let t2 := add32 (Sigma0 a) (Maj a b c) in
      [add32 t1 t2; a; b; c; add32 d t1; e; f; g]
  | _ => state
  end.

Definition compress (hash : list Z) (block : list Z) : list Z :=
  let w := rev (schedule 48 (rev (wordsOf 16 block))) in
  let final := fold_left round (combine K w) hash in
  map (fun '(x, y) => add32 x y) (combine hash final).

(** The blocks of 64 bytes; [n] bounds their number. *)
Fixpoint blocks (n : nat) (hash : list Z) (bytes : list Z) : list Z :=
  match n, bytes with
  | S m, _ :: _ => blocks m (compress hash (firstn 64 bytes)) (skipn 64 bytes)
  | _, _ => hash
  end.

Definition hexDigit (x : Z) : ascii :=
  ascii_of_nat (Z.to_nat (if x <? 10 then 48 + x else 87 + x)).

Definition hexByte (x : Z) : string :=
  String (hexDigit (x / 16)) (String (hexDigit (x mod 16)) EmptyString).

Definition hex (hash : list Z) : string :=
  String.concat "" (map hexByte (flat_map (bigEndian 4) hash)).

Definition digestHex (s : string) : string :=
  let bytes := pad (bytesOf s) in
  hex (blocks (length bytes) H0 bytes).

End SHA256.

Module Demo.

Definition digit (c : ascii) : option Z :=
  let n := Z.of_nat (nat_of_ascii c) in
  if (48 <=? n) && (n <=? 57) then Some (n - 48) else None.

Fixpoint number (acc : Z) (s : string) : option Z :=
  match s with
  | EmptyString => Some acc
  | String c rest =>
      match digit c with
      | Some d => number (10 * acc + d) rest
      | None => None
      end
  end.

(** Days from 1970-01-01 to the given day of the proleptic Gregorian
    calendar. *)
Definition daysFromCivil (y m d : Z) : Z :=
  let y' := if m <=? 2 then y - 1 else y in
  let era := y' / 400 in
  let yoe := y' - era * 400 in
  let doy := (153 * (if m >? 2 then m - 3 else m + 9) + 2) / 5 + d - 1 in
  let doe := yoe * 365 + yoe / 4 - yoe / 100 + doy in
  era * 146097 + doe - 719468.

(** [new Date(s).getTime()] for the format [toISOString()] writes,
    [YYYY-MM-DDTHH:mm:ss.sssZ]; any other string is an invalid date. *)
Definition getTime (s : string) : option Z :=
  let field (from size : nat) := number 0 (String.substring from size s) in
  let mark (at_ : nat) (c : string) :=
    String.eqb (String.substring at_ 1 s) c in
  if (String.length s =? 24)%nat
     && mark 4%nat "-" && mark 7%nat "-" && mark 10%nat "T"
     && mark 13%nat ":" && mark 16%nat ":" && mark 19%nat "."
     && mark 23%nat "Z"
  then
    match field 0%nat 4%nat, field 5%nat 2%nat, field 8%nat 2%nat,
          field 11%nat 2%nat, field 14%nat 2%nat, field 17%nat 2%nat,
          field 20%nat 3%nat with
    | Some y, Some m, Some d, Some hh, Some mm, Some ss, Some ms =>
        if (1 <=? m) && (m <=? 12) && (1 <=? d) && (d <=? 31)
           && (hh <=? 23) && (mm <=? 59) && (ss <=? 59)
        then Some ((((daysFromCivil y m d * 24 + hh) * 60 + mm) * 60 + ss)
                   * 1000 + ms)
        else None
    | _, _, _, _, _, _, _ => None
    end
  else None.

(** Decimal digits of [x], [n] of them. *)
Fixpoint decimal (n : nat) (x : Z) : string :=
  match n with
  | O => ""
  | S m =>
      decimal m (x / 10)
        +:+ String (ascii_of_nat (Z.to_nat (48 + x mod 10))) ""
  end.

(** A clock that starts at noon and advances by one second a reading. *)
Definition toISOString (n : nat) : string :=
  let seconds := Z.of_nat n in
  "2026-01-01T12:" +:+ decimal 2 (seconds / 60 mod 60) +:+ ":"
    +:+ decimal 2 (seconds mod 60) +:+ ".000Z".

Definition randomUUID (n : nat) : string :=
  "00000000-0000-4000-8000-" +:+ decimal 12 (Z.of_nat n).

(** The lines of a text; the empty text has none. *)
Definition linesOf (content : string) : list string :=
  if String.eqb content "" then [] else splitLines content.

(** A diff primitive that reports every old line removed and every new
    line added, under the two file-header lines. *)
Definition createPatch (name old new : string) : string + string :=
  inl (String.concat (String "010"%char "")
         (["--- " +:+ name; "+++ " +:+ name]
          ++ map (fun l => "-" +:+ l) (linesOf old)
          ++ map (fun l => "+" +:+ l) (linesOf new))).

(** Patterns without wildcards. *)
Definition minimatch (path pattern : string) : bool := String.eqb path pattern.

(** The workspace root is [/workspace]. *)
Definition asRelativePath (u : Uri) : string :=
  if String.prefix "/workspace/" (fsPath u)
  then String.substring 11 (String.length (fsPath u) - 11) (fsPath u)
  else fsPath u.

Definition platform : Platform :=
  Build_Platform SHA256.digestHex createPatch minimatch asRelativePath
                 toISOString randomUUID getTime.

End Demo.


(** ** A recording of one file, on that platform *)

Module Scenario.
Import Demo.

Definition pathA : string := "/workspace/a.py".

Definition uriA : Uri := {| scheme := "file"; fsPath := pathA |}.

(** The document of [a.py] when its text is [content]. *)
Definition docA (content : string) : TextDocument :=
  {| uri := uriA; getText := content; lineCount := 1 |}.

Definition editor (content : string) : Editor :=
  {| textDocuments := [docA content]; workspaceFolders := ["coursework"] |}.

(** The insertion of [inserted] at a position, replacing nothing. *)
Definition insertion (l c : Z) (inserted : string) : ContentChange :=
  let at_ := {| line := l; character := c |} in
  {| range := {| range_start := at_; range_end := at_ |};
     rangeLength := 0;
     text := inserted |}.

(** An event of one range on [a.py], whose text has become [content]. *)
Definition edit (content : string) (change : ContentChange)
  : TextDocumentChangeEvent :=
  {| document := docA content; contentChanges := [change] |}.

(** [n] times the character [x] *)
Fixpoint replicate (n : nat) (s : string) : string :=
  match n with
  | O => ""
  | S m => s +:+ replicate m s
  end.

(** An engine over the store [db], started, that has seen [hello] typed
    into the empty [a.py]. *)
Definition started (db : SnapshotStorage.t) : SnapshotEngine :=
  snd (Engine.start platform (editor "")
         (Engine.create platform (Some db) 50 [])).

Definition recorded (db : SnapshotStorage.t) : SnapshotEngine :=
  Engine.handleDocumentChange platform
    (edit "hello" (insertion 0 0 "hello")) (started db).

(** The patch of [a.py] from the empty text to [hello]. *)
Definition patchA : string :=
  String.concat (String "010"%char "") ["--- a.py"; "+++ a.py"; "+hello"].

(** The entry that [recorded] holds for [a.py]. *)
Definition pendingA : PendingChange := PendingChange.mk Typing 5 0.

(** A row of an earlier recording, under the id that the next emission
    of [recorded] will draw. *)
Definition earlier : Snapshot :=
  {| Snapshot.id := randomUUID 4;
     Snapshot.timestamp := "2025-12-31T09:00:00.000Z";
     Snapshot.filename := "b.py";
     Snapshot.content_hash := SHA256.digestHex "old";
     Snapshot.diff := "";
     Snapshot.lines_added := 0;
     Snapshot.lines_removed := 0;
     Snapshot.total_lines := 1;
     Snapshot.change_type := Typing;
     Snapshot.change_size := 3;
     Snapshot.chain_hash :=
       SHA256.digestHex
         (SHA256.digestHex "old" +:+ "2025-12-31T09:00:00.000Z");
     Snapshot.session_id := "earlier" |}.

Definition dbTaken : SnapshotStorage.t :=
  {| SnapshotStorage.snapshots := [earlier]; SnapshotStorage.sessions := [] |}.

(** The same row with its chain hash overwritten. *)
Definition forged : Snapshot :=
  {| Snapshot.id := Snapshot.id earlier;
     Snapshot.timestamp := Snapshot.timestamp earlier;
     Snapshot.filename := Snapshot.filename earlier;
     Snapshot.content_hash := Snapshot.content_hash earlier;
     Snapshot.diff := Snapshot.diff earlier;
     Snapshot.lines_added := Snapshot.lines_added earlier;
     Snapshot.lines_removed := Snapshot.lines_removed earlier;
     Snapshot.total_lines := Snapshot.total_lines earlier;
     Snapshot.change_type := Snapshot.change_type earlier;
     Snapshot.change_size := Snapshot.change_size earlier;
     Snapshot.chain_hash := replicate 64 "0";
     Snapshot.session_id := Snapshot.session_id earlier |}.

Definition dbForged : SnapshotStorage.t :=
  {| SnapshotStorage.snapshots := [forged]; SnapshotStorage.sessions := [] |}.

(** A snapshot of [a.py] with the given change type and added lines. *)
Definition snapshotA (kind : ChangeType) (linesAdded : Z) : Snapshot :=
  {| Snapshot.id := randomUUID 7;
     Snapshot.timestamp := toISOString 0;
     Snapshot.filename := "a.py";
     Snapshot.content_hash := SHA256.digestHex "hello";
     Snapshot.diff := patchA;
     Snapshot.lines_added := linesAdded;
     Snapshot.lines_removed := 0;
     Snapshot.total_lines := linesAdded;
     Snapshot.change_type := kind;
     Snapshot.change_size := 5;
     Snapshot.chain_hash :=
       SHA256.digestHex (SHA256.digestHex "hello" +:+ toISOString 0);
     Snapshot.session_id := randomUUID 1 |}.

(** The replay event of the key [a] typed at the start of [a.py], at
    time 1000; a recorder that has just buffered it. *)
Definition keyChange : ReplayChange :=
  {| ReplayChange.rangeStart := {| line := 0; character := 0 |};
     ReplayChange.rangeEnd := {| line := 0; character := 0 |};
     ReplayChange.text := "a";
     ReplayChange.rangeLength := 0 |}.

Definition keyEvent : ReplayEvent :=
  {| ReplayEvent.timestamp := 1000;
     ReplayEvent.filename := "a.py";
     ReplayEvent.changes := [keyChange] |}.

Definition recorder : ReplayRecorder.t :=
  {| ReplayRecorder.buffer := [keyEvent];
     ReplayRecorder.isRecording := true;
     ReplayRecorder.excludePatterns := [] |}.

(** A snapshot of [a.py] drawn as the [n]-th id, with the given
    timestamp, added lines and changed characters. *)
Definition snapshotAt (n : nat) (time : string) (linesAdded changeSize : Z)
  : Snapshot :=
  {| Snapshot.id := randomUUID n;
     Snapshot.timestamp := time;
     Snapshot.filename := "a.py";
     Snapshot.content_hash := SHA256.digestHex "hello";
     Snapshot.diff := patchA;
     Snapshot.lines_added := linesAdded;
     Snapshot.lines_removed := 0;
     Snapshot.total_lines := linesAdded;
     Snapshot.change_type := Typing;
     Snapshot.change_size := changeSize;
     Snapshot.chain_hash := replicate 64 "0";
     Snapshot.session_id := randomUUID 1 |}.

(** The removal of [removed] characters from the start of a line. *)
Definition removal (removed : Z) : ContentChange :=
  {| range := {| range_start := {| line := 0; character := 0 |};
                 range_end := {| line := 0; character := removed |} |};
     rangeLength := removed;
     text := "" |}.

End Scenario.

(** * Specifications

    The properties the theorems below compare the code with, in the
    words of the specification. *)

(** The sum of a list of integers. *)
Definition sumZ (xs : list Z) : Z := fold_right Z.add 0 xs.

(** Ascending order of the rows of a table by a text column. *)
Definition keyLe {A} (key : A -> string) (a b : A) : Prop :=
  String.leb (key a) (key b) = true.

Module SnapshotStorageSpec.

(** Ascending timestamp order, as [ORDER BY timestamp ASC] compares. *)
Definition timestampLe (a b : Snapshot) : Prop :=
  String.leb (Snapshot.timestamp a) (Snapshot.timestamp b) = true.

Section WithPlatform.
Variable P : Platform.

(** In the specification's words: the hash that position [i] is chained to,
    the seed at position 0 and the stored chain hash of position
    [i - 1] after that. *)
Definition previousChainHash (seed : string) (rows : list Snapshot) (i : nat)
  : string :=
  match i with
  | O => seed
  | S j => default seed (Snapshot.chain_hash <$> rows !! j)
  end.

(** In the specification's words: every stored chain hash is the digest of the
    previous chain hash, the content hash and the timestamp. *)
Definition chainLinked (seed : string) (rows : list Snapshot) : Prop :=
  forall (i : nat) (row : Snapshot),
    rows !! i = Some row ->
    Snapshot.chain_hash row
    = sha256 P (previousChainHash seed rows i
                  +:+ Snapshot.content_hash row +:+ Snapshot.timestamp row).

End WithPlatform.
End SnapshotStorageSpec.

Module EngineSpec.

Section WithPlatform.
Variable P : Platform.

(** The document [emitSnapshot] finds open for a path. *)
Definition openDocument (ed : Editor) (filePath : string)
  : option TextDocument :=
  List.find (fun doc => String.eqb (fsPath (uri doc)) filePath)
            (textDocuments ed).

(** The snapshot of [document] that an emission started in state [this]
    builds, given the patch the diff primitive returned. *)
Definition snapshotOf (this : SnapshotEngine) (document : TextDocument)
  (filePath : string) (pending : PendingChange) (unifiedDiff : string)
  : Snapshot :=
  let contentHash := sha256 P (getText document) in
  let timestamp := toISOString P (readings this) in
  {| Snapshot.id := randomUUID P (S (readings this));
     Snapshot.timestamp := timestamp;
     Snapshot.filename := asRelativePath P (uri document);
     Snapshot.content_hash := contentHash;
     Snapshot.diff := unifiedDiff;
     Snapshot.lines_added := fst (Engine.countDiffLines unifiedDiff);
     Snapshot.lines_removed := snd (Engine.countDiffLines unifiedDiff);
     Snapshot.total_lines := lineCount document;
     Snapshot.change_type := PendingChange.changeType pending;
     Snapshot.change_size :=
       PendingChange.charsAdded pending + PendingChange.charsRemoved pending;
     Snapshot.chain_hash :=
       sha256 P (lastChainHash this +:+ contentHash +:+ timestamp);
     Snapshot.session_id := sessionId this |}.


(** The workspace-relative name of the document open for a path. *)
Definition relativeOf (ed : Editor) (filePath : string) : string :=
  match openDocument ed filePath with
  | Some document => asRelativePath P (uri document)
  | None => ""
  end.

(** Whether the emission for a pending path produces a snapshot in
    state [this]: its document is open, the text differs from the
    recorded baseline, and the diff primitive returns. *)
Definition produces (ed : Editor) (this : SnapshotEngine) (filePath : string)
  : bool :=
  match openDocument ed filePath with
  | Some document =>
      let previous := default "" (fileContents this !! filePath) in
      negb (String.eqb (getText document) previous)
      && match createPatch P (asRelativePath P (uri document)) previous
                           (getText document) with
         | inl _ => true
         | inr _ => false
         end
  | None => false
  end.

(** In the specification's words: when the append throws while a snapshot is
    being emitted, the error reaches the caller of [emitSnapshot]. *)
Definition saveFailurePropagates (ed : Editor) (filePath : string)
  (pending : PendingChange) (this : SnapshotEngine) : Prop :=
  forall (document : TextDocument) (unifiedDiff : string)
         (db db' : SnapshotStorage.t) (error : string),
    openDocument ed filePath = Some document ->
    getText document <> default "" (fileContents this !! filePath) ->
    createPatch P (asRelativePath P (uri document))
                (default "" (fileContents this !! filePath)) (getText document)
    = inl unifiedDiff ->
    storage this = Some db ->
    SnapshotStorage.saveSnapshot
      (snapshotOf this document filePath pending unifiedDiff) db
    = (Throw error, db') ->
    fst (Engine.emitSnapshot P ed filePath pending this) = Throw error.

(** An edit the change handler takes into account: it has a range, its
    document is a file, and its path is not excluded. *)
Definition delivered (this : SnapshotEngine) (event : TextDocumentChangeEvent)
  : bool :=
  negb (len (contentChanges event) =? 0)
  && String.eqb (scheme (uri (document event))) "file"
  && negb (Engine.isExcluded P (asRelativePath P (uri (document event))) this).

(** The edits of [events] delivered for one file, in order. *)
Definition editsOf (this : SnapshotEngine) (filePath : string)
  (events : list TextDocumentChangeEvent) : list TextDocumentChangeEvent :=
  List.filter
    (fun event =>
       delivered this event
       && String.eqb (fsPath (uri (document event))) filePath)
    events.

(** In the specification's words: the characters that an edit inserts,
    and the characters that it removes, over all its ranges. *)
Definition insertedChars (event : TextDocumentChangeEvent) : Z :=
  sumZ (map (fun change => strlen (text change)) (contentChanges event)).

Definition removedChars (event : TextDocumentChangeEvent) : Z :=
  sumZ (map rangeLength (contentChanges event)).

(** The engine after the handler has run on each event in turn. *)
Definition deliver (events : list TextDocumentChangeEvent)
  (this : SnapshotEngine) : SnapshotEngine :=
  fold_left (fun this event => Engine.handleDocumentChange P event this)
            events this.

(** The pending entry after one more delivered edit. *)
Definition accumulate (pasteThreshold : Z) (entry : option PendingChange)
  (event : TextDocumentChangeEvent) : option PendingChange :=
  let changeType := ChangeDetector.detect pasteThreshold event in
  match entry with
  | Some existing =>
      Some (PendingChange.mk
              (if CHANGE_TYPE_PRIORITY changeType
                    >? CHANGE_TYPE_PRIORITY (PendingChange.changeType existing)
               then changeType else PendingChange.changeType existing)
              (PendingChange.charsAdded existing
               + Engine.eventCharsAdded event)
              (PendingChange.charsRemoved existing
               + Engine.eventCharsRemoved event))
  | None =>
      Some (PendingChange.mk changeType (Engine.eventCharsAdded event)
                             (Engine.eventCharsRemoved event))
  end.

(** What can happen to an engine: a call of one of its public methods,
    a change event from the editor, or a firing of the interval timer. *)
Inductive Call :=
  | CallStart (ed : Editor)
  | CallStop (ed : Editor)
  | CallPause
  | CallResume
  | Change (event : TextDocumentChangeEvent)
  | Tick (ed : Editor).

(** The engine after one of them.  A change event reaches the handler
    only while the listener is registered, and the timer fires only
    while it is armed. *)
Definition step (this : SnapshotEngine) (call : Call) : SnapshotEngine :=
  match call with
  | CallStart ed => snd (Engine.start P ed this)
  | CallStop ed => snd (Engine.stop P ed this)
  | CallPause => Engine.pause this
  | CallResume => Engine.resume this
  | Change event =>
      if changeListener this then Engine.handleDocumentChange P event this
      else this
  | Tick ed =>
      if intervalHandle this then snd (Engine.processSnapshots P ed this)
      else this
  end.

Definition run (calls : list Call) (this : SnapshotEngine) : SnapshotEngine :=
  fold_left step calls this.

(** The calls that neither start nor stop. *)
Definition withinSession (call : Call) : bool :=
  match call with
  | CallStart _ | CallStop _ => false
  | _ => true
  end.

Definition isChange (call : Call) : bool :=
  match call with
  | Change _ => true
  | _ => false
  end.

Definition isChangeOrTick (call : Call) : bool :=
  match call with
  | Change _ | Tick _ => true
  | _ => false
  end.

(** Every pending path is listed once and has a baseline. *)
Definition pendingTracked (this : SnapshotEngine) : Prop :=
  List.NoDup (map fst (pendingChanges this))
  /\ forall path,
       In path (map fst (pendingChanges this)) ->
       is_Some (fileContents this !! path).

(** The chain hash the next snapshot is linked to, after [rows]. *)
Definition cursorAfter (rows : list Snapshot) : string :=
  match last rows with
  | Some row => Snapshot.chain_hash row
  | None => ""
  end.

(** The engine and its store agree: the store holds the snapshots fired
    so far, in the order fired; they are linked from the empty seed;
    the cursor is the chain hash of the last; the counter counts them. *)
Definition inStep (this : SnapshotEngine) : Prop :=
  option_map SnapshotStorage.snapshots (storage this) = Some (fired this)
  /\ SnapshotStorage.verifyRows P "" (fired this) = true
  /\ lastChainHash this = cursorAfter (fired this)
  /\ snapshotCount this = len (fired this).

(** The engine is recording the session [sid] over a store whose
    sessions table is [rows]: it is running under that id, and every
    snapshot fired so far carries the id. *)
Definition recording (rows : list Session) (sid : string)
  (this : SnapshotEngine) : Prop :=
  isRunning this = true
  /\ sessionId this = sid
  /\ option_map SnapshotStorage.sessions (storage this) = Some rows
  /\ Forall (fun snapshot => Snapshot.session_id snapshot = sid)
            (fired this).

End WithPlatform.

(** A line of a diff: a string without a line feed. *)
Fixpoint noNewline (s : string) : bool :=
  match s with
  | EmptyString => true
  | String c rest => negb (Ascii.eqb c "010"%char) && noNewline rest
  end.

(** The text whose lines are [lines], joined by line feeds. *)
Fixpoint joinLines (lines : list string) : string :=
  match lines with
  | [] => ""
  | [line] => line
  | line :: rest => line +:+ String "010"%char (joinLines rest)
  end.

End EngineSpec.

Module ReplaySpec.

(** The replay change recorded for one range of an editor event. *)
Definition changeOf (change : ContentChange) : ReplayChange :=
  {| ReplayChange.rangeStart := range_start (range change);
     ReplayChange.rangeEnd := range_end (range change);
     ReplayChange.text := text change;
     ReplayChange.rangeLength := rangeLength change |}.

(** In the specification's words: the buffered event with the new character
    appended to its text and its end position moved to the end of the
    new insertion. *)
Definition merged (lastEvent : ReplayEvent) (lastChange : ReplayChange)
  (change : ContentChange) : ReplayEvent :=
  {| ReplayEvent.timestamp := ReplayEvent.timestamp lastEvent;
     ReplayEvent.filename := ReplayEvent.filename lastEvent;
     ReplayEvent.changes :=
       [ {| ReplayChange.rangeStart := ReplayChange.rangeStart lastChange;
            ReplayChange.rangeEnd := range_end (range change);
            ReplayChange.text := ReplayChange.text lastChange +:+ text change;
            ReplayChange.rangeLength := 0 |} ] |}.

(** In the recorder's words, a sequential single-character insert on
    the same line within the window: the buffer ends with [lastEvent],
    a single pure insert [lastChange] of the same file, buffered at most
    500 ms before [now]; the editor event has the single change
    [change], which removes nothing and inserts exactly one character
    on the same line, right after the text of [lastChange]. *)
Definition adjacentKeystroke (P : Platform) (buffer : list ReplayEvent)
  (event : TextDocumentChangeEvent) (now : Z)
  (earlierEvents : list ReplayEvent) (lastEvent : ReplayEvent)
  (lastChange : ReplayChange) (change : ContentChange) : Prop :=
  buffer = earlierEvents ++ [lastEvent]
  /\ ReplayEvent.changes lastEvent = [lastChange]
  /\ contentChanges event = [change]
  /\ ReplayEvent.filename lastEvent = asRelativePath P (uri (document event))
  /\ now - ReplayEvent.timestamp lastEvent <= 500
  /\ ReplayChange.rangeLength lastChange = 0
  /\ rangeLength change = 0
  /\ line (ReplayChange.rangeStart lastChange)
     = line (range_start (range change))
  /\ character (range_start (range change))
     = character (ReplayChange.rangeStart lastChange)
       + strlen (ReplayChange.text lastChange)
  /\ strlen (text change) = 1.

(** The replay event recorded for an editor event at time [now]. *)
Definition eventOf (P : Platform) (event : TextDocumentChangeEvent) (now : Z)
  : ReplayEvent :=
  {| ReplayEvent.timestamp := now;
     ReplayEvent.filename := asRelativePath P (uri (document event));
     ReplayEvent.changes := map changeOf (contentChanges event) |}.

(** An event the replay handler takes into account: it has a range, its
    document is a file, and its path is not excluded. *)
Definition recorded (P : Platform) (this : ReplayRecorder.t)
  (event : TextDocumentChangeEvent) : bool :=
  negb (len (contentChanges event) =? 0)
  && String.eqb (scheme (uri (document event))) "file"
  && negb (ReplayRecorder.isExcluded P
             (asRelativePath P (uri (document event))) this).

(** The texts of a list of changes, one after the other. *)
Definition textOf (changes : list ReplayChange) : string :=
  fold_right String.append "" (map ReplayChange.text changes).

(** All text inserted by the buffered events, in order. *)
Definition insertedText (events : list ReplayEvent) : string :=
  textOf (flat_map ReplayEvent.changes events).

End ReplaySpec.

Module FlagAnalyzerSpec.

(** The flags of one category among [flags], in order. *)
Definition ofCategory (category : FlagCategory) (flags : list Flag)
  : list Flag :=
  List.filter (fun flag => FlagCategory_eqb (Flag.category flag) category)
              flags.

(** In the specification's words: some flag of this category and severity is
    keyed to exactly these snapshots. *)
Definition hasFlag (category : FlagCategory) (severity : FlagSeverity)
  (ids : list string) (flags : list Flag) : Prop :=
  exists flag,
    In flag flags
    /\ Flag.category flag = category
    /\ Flag.severity flag = severity
    /\ Flag.snapshotIds flag = ids.

(** The evidence of a flag is not empty and comes from the input. *)
Definition referencesInput (snapshots : list Snapshot) (flag : Flag) : Prop :=
  Flag.snapshotIds flag <> []
  /\ forall id, In id (Flag.snapshotIds flag) ->
        exists snapshot, In snapshot snapshots /\ Snapshot.id snapshot = id.

(** What a rule guarantees of each flag it returns. *)
Definition sound (category : FlagCategory) (snapshots : list Snapshot)
  (flag : Flag) : Prop :=
  Flag.category flag = category /\ referencesInput snapshots flag.

(** The snapshots of one file among [snapshots], in order. *)
Definition ofFile (filename : string) (snapshots : list Snapshot)
  : list Snapshot :=
  List.filter
    (fun snapshot => String.eqb (Snapshot.filename snapshot) filename)
    snapshots.

(** The severity each rule gives its flags. *)
Definition severityOf (category : FlagCategory) : FlagSeverity :=
  match category with
  | fully_formed_code => high
  | large_paste | long_gap | style_inconsistency => medium
  | _ => low
  end.

Section WithPlatform.
Variable P : Platform.

(** The snapshots from the head of [snapshots] up to, and without, the
    first one that is later than [windowEnd]. *)
Fixpoint window (windowEnd : Num.t) (snapshots : list Snapshot)
  : list Snapshot :=
  match snapshots with
  | [] => []
  | snapshot :: rest =>
      if Num.gtb (getTime P (Snapshot.timestamp snapshot)) windowEnd then []
      else snapshot :: window windowEnd rest
  end.

(** In the specification's words: the sequence is not empty, the time from its
    first to its last snapshot is at most one hour, and its snapshots
    add 200 lines or more in total. *)
Definition completedRapidly (snapshots : list Snapshot) : Prop :=
  exists first final t0 t1,
    head snapshots = Some first
    /\ last snapshots = Some final
    /\ getTime P (Snapshot.timestamp first) = Some t0
    /\ getTime P (Snapshot.timestamp final) = Some t1
    /\ t1 - t0 <= 60 * 60 * 1000
    /\ sumZ (map Snapshot.lines_added snapshots) >= 200.

(** In the specification's words: exactly one rapid-completion flag, of low
    severity, referencing all snapshots. *)
Definition oneRapidCompletionFlag (snapshots : list Snapshot) : Prop :=
  exists flag,
    ofCategory rapid_completion (FlagAnalyzer.analyze P snapshots) = [flag]
    /\ Flag.severity flag = low
    /\ Flag.snapshotIds flag = map Snapshot.id snapshots.

End WithPlatform.
End FlagAnalyzerSpec.
(** * Properties *)

(** ** The platform instance *)

(** The digest of the instance on the test vector of FIPS 180. *)
Lemma digestHex_abc :
  SHA256.digestHex "abc"
  = "ba7816bf8f01cfea414140de5dae2223b00361a396177a9cb410ff61f20015ad".
Proof. vm_compute. reflexivity. Qed.

(** ** The change classifier *)

Module ChangeDetectorProofs.
Import ChangeDetector.

Lemma len_single {A} (x : A) : len [x] = 1.
Proof. reflexivity. Qed.

Lemma detect_single (pasteThreshold : Z) (doc : TextDocument)
  (change : ContentChange) :
  detect pasteThreshold {| document := doc; contentChanges := [change] |}
  = if strlen (text change) >=? pasteThreshold then Paste
    else if (rangeLength change >=? DELETE_CHAR_THRESHOLD)
            && (strlen (text change) =? 0)
         then Delete else Typing.
Proof. reflexivity. Qed.

(** C5.  [detect] returns the first matching rule of: no range, typing;
    more than one range, refactor, whatever the sizes; one range whose
    inserted length reaches the paste threshold, paste; one range that
    removes 30 characters or more and inserts none, delete; otherwise
    typing.  At the default threshold 50 inserted characters are a
    paste and 49 are typing. *)
Theorem detect_first_matching_rule
  (pasteThreshold : Z) (doc : TextDocument) (changes : list ContentChange) :
  let event := {| document := doc; contentChanges := changes |} in
  (changes = [] -> detect pasteThreshold event = Typing)
  /\ ((length changes > 1)%nat -> detect pasteThreshold event = Refactor)
  /\ (forall change, changes = [change] ->
        (strlen (text change) >= pasteThreshold ->
           detect pasteThreshold event = Paste)
        /\ (strlen (text change) < pasteThreshold ->
            rangeLength change >= 30 -> strlen (text change) = 0 ->
              detect pasteThreshold event = Delete)
        /\ (strlen (text change) < pasteThreshold ->
            ~ (rangeLength change >= 30 /\ strlen (text change) = 0) ->
              detect pasteThreshold event = Typing)
        /\ (strlen (text change) = 50 ->
              detect DEFAULT_PASTE_CHAR_THRESHOLD event = Paste)
        /\ (strlen (text change) = 49 ->
              detect DEFAULT_PASTE_CHAR_THRESHOLD event = Typing)).
Proof.
  intros event. subst event. split; [|split].
  - intros ->. reflexivity.
  - intros Hlen. unfold detect, len. cbn [contentChanges].
    destruct (Z.eqb_spec (Z.of_nat (length changes)) 0) as [E|_]; [lia|].
    destruct (Z.gtb_spec (Z.of_nat (length changes)) 1) as [_|E];
      [reflexivity|lia].
  - intros change ->. rewrite !detect_single.
    unfold DELETE_CHAR_THRESHOLD, DEFAULT_PASTE_CHAR_THRESHOLD.
    repeat split.
    + intros H. destruct (Z.geb_spec (strlen (text change)) pasteThreshold);
        [reflexivity|lia].
    + intros H1 H2 H3.
      destruct (Z.geb_spec (strlen (text change)) pasteThreshold); [lia|].
      destruct (Z.geb_spec (rangeLength change) 30); [|lia].
      destruct (Z.eqb_spec (strlen (text change)) 0); [reflexivity|lia].
    + intros H1 H2.
      destruct (Z.geb_spec (strlen (text change)) pasteThreshold); [lia|].
      destruct (Z.geb_spec (rangeLength change) 30);
        destruct (Z.eqb_spec (strlen (text change)) 0);
        try reflexivity.
      exfalso. apply H2. lia.
    + intros ->. reflexivity.
    + intros ->. cbn. destruct (rangeLength change >=? 30); reflexivity.
Qed.

Lemma detect_first_matching_rule_witness :
  detect 50
    (Scenario.edit "" (Scenario.insertion 0 0 (Scenario.replicate 50 "x")))
  = Paste
  /\ detect 50
       (Scenario.edit "" (Scenario.insertion 0 0 (Scenario.replicate 49 "x")))
     = Typing.
Proof.
  split.
  - destruct (detect_first_matching_rule 50 (Scenario.docA "")
                [Scenario.insertion 0 0 (Scenario.replicate 50 "x")])
      as (_ & _ & H).
    destruct (H _ eq_refl) as (Hpaste & _).
    apply Hpaste. vm_compute. discriminate.
  - destruct (detect_first_matching_rule 50 (Scenario.docA "")
                [Scenario.insertion 0 0 (Scenario.replicate 49 "x")])
      as (_ & _ & H).
    destruct (H _ eq_refl) as (_ & _ & Htyping & _).
    apply Htyping.
    + vm_compute. reflexivity.
    + vm_compute. intros [_ E]. discriminate E.
Defined.

End ChangeDetectorProofs.

(** ** The chain store *)

Module SnapshotStorageProofs.
Import SnapshotStorage SnapshotStorageSpec.

Lemma timestampLe_trans (a b c : Snapshot) :
  timestampLe a b -> timestampLe b c -> timestampLe a c.
Proof.
  unfold timestampLe. intros H1 H2.
  apply Is_true_true. apply Is_true_true in H1, H2.
  exact (@transitivity _ String.le _ _ _ _ H1 H2).
Qed.

Lemma timestampLe_total (a b : Snapshot) : timestampLe a b \/ timestampLe b a.
Proof. apply String.leb_total. Qed.

Lemma insertByTimestamp_perm (row : Snapshot) (rows : list Snapshot) :
  Permutation (insertByTimestamp row rows) (row :: rows).
Proof.
  induction rows as [|other rest IH]; cbn; [reflexivity|].
  destruct (String.leb _ _); [reflexivity|].
  rewrite IH. apply perm_swap.
Qed.

Lemma orderByTimestamp_perm (rows : list Snapshot) :
  Permutation (orderByTimestamp rows) rows.
Proof.
  induction rows as [|row rest IH]; cbn; [reflexivity|].
  rewrite insertByTimestamp_perm. by constructor.
Qed.

Lemma insertByTimestamp_sorted (row : Snapshot) (rows : list Snapshot) :
  StronglySorted timestampLe rows ->
  StronglySorted timestampLe (insertByTimestamp row rows).
Proof.
  induction 1 as [|other rest Hs IH Hall]; cbn.
  - repeat constructor.
  - destruct (String.leb (Snapshot.timestamp row) (Snapshot.timestamp other))
      eqn:E.
    + constructor; [by constructor|].
      constructor; [exact E|].
      eapply Forall_impl; [exact Hall|].
      intros c Hc. eapply timestampLe_trans; [exact E|exact Hc].
    + constructor; [exact IH|].
      rewrite insertByTimestamp_perm. constructor; [|exact Hall].
      destruct (timestampLe_total row other) as [H|H]; [|exact H].
      unfold timestampLe in H. congruence.
Qed.

Lemma orderByTimestamp_sorted (rows : list Snapshot) :
  StronglySorted timestampLe (orderByTimestamp rows).
Proof.
  induction rows as [|row rest IH]; cbn; [constructor|].
  by apply insertByTimestamp_sorted.
Qed.

Section WithPlatform.
Variable P : Platform.

Lemma previousChainHash_cons (seed : string) (row r : Snapshot)
  (rest : list Snapshot) (i : nat) :
  rest !! i = Some r ->
  previousChainHash seed (row :: rest) (S i)
  = previousChainHash (Snapshot.chain_hash row) rest i.
Proof.
  intros Hi. destruct i as [|j]; [reflexivity|]. cbn.
  destruct (rest !! j) eqn:Ej; [reflexivity|].
  apply lookup_ge_None in Ej. apply lookup_lt_Some in Hi. lia.
Qed.

Lemma verifyRows_linked (seed : string) (rows : list Snapshot) :
  verifyRows P seed rows = true <-> chainLinked P seed rows.
Proof.
  revert seed. induction rows as [|row rest IH]; intros seed; cbn.
  - split; [|reflexivity]. intros _ i row Hi. by destruct i.
  - destruct (String.eqb_spec
                (sha256 P (seed +:+ Snapshot.content_hash row
                                +:+ Snapshot.timestamp row))
                (Snapshot.chain_hash row)) as [E|E]; cbn.
    + rewrite IH. split.
      * intros H [|i] r Hi; cbn in Hi.
        -- injection Hi as <-. cbn. by rewrite E.
        -- rewrite (previousChainHash_cons _ _ r) by exact Hi. by apply H.
      * intros H i r Hi.
        rewrite <- (previousChainHash_cons seed row r) by exact Hi.
        by apply (H (S i)).
    + split; [discriminate|]. intros H. exfalso. apply E.
      symmetry. exact (H O row eq_refl).
Qed.

(** C1.  The rows [verifyHashChain] walks are the stored snapshots in
    ascending timestamp order; it returns [true] exactly when every
    stored chain hash is the digest of the previous stored chain hash
    (the empty string at the first row), the content hash and the
    timestamp; a mismatch at any one row makes it return [false]. *)
Theorem verifyHashChain_iff_chainLinked (db : SnapshotStorage.t) :
  let rows := getSnapshots db in
  Permutation rows (snapshots db)
  /\ StronglySorted timestampLe rows
  /\ (verifyHashChain P db = true <-> chainLinked P "" rows)
  /\ (forall (i : nat) (row : Snapshot),
        rows !! i = Some row ->
        Snapshot.chain_hash row
        <> sha256 P (previousChainHash "" rows i
                       +:+ Snapshot.content_hash row
                       +:+ Snapshot.timestamp row) ->
        verifyHashChain P db = false).
Proof.
  cbn. unfold getSnapshots, verifyHashChain.
  split; [apply orderByTimestamp_perm|].
  split; [apply orderByTimestamp_sorted|].
  split; [apply verifyRows_linked|].
  intros i row Hi Hne.
  destruct (verifyRows P "" (orderByTimestamp (snapshots db))) eqn:E;
    [|reflexivity].
  exfalso. apply Hne. apply verifyRows_linked in E. by apply E.
Qed.

End WithPlatform.

Lemma verifyHashChain_iff_chainLinked_witness :
  verifyHashChain Demo.platform Scenario.dbTaken = true
  /\ verifyHashChain Demo.platform Scenario.dbForged = false.
Proof.
  split.
  - apply (verifyHashChain_iff_chainLinked Demo.platform Scenario.dbTaken).
    intros [|[|i]] row Hrow; vm_compute in Hrow; try discriminate Hrow.
    injection Hrow as <-. vm_compute. reflexivity.
  - destruct (verifyHashChain_iff_chainLinked Demo.platform Scenario.dbForged)
      as (_ & _ & _ & Hbroken).
    apply (Hbroken 0%nat Scenario.forged).
    + reflexivity.
    + vm_compute. discriminate.
Defined.

End SnapshotStorageProofs.

(** ** Maps in insertion order *)

Module OrderedMapFacts.
Import OrderedMap.

Lemma get_set_eq {V} (k : string) (v : V) (m : OrderedMap.t V) :
  get k (set k v m) = Some v.
Proof.
  induction m as [|[k' v'] rest IH]; cbn.
  - by rewrite String.eqb_refl.
  - destruct (String.eqb_spec k' k) as [->|Hne]; cbn.
    + by rewrite String.eqb_refl.
    + destruct (String.eqb_spec k' k); [contradiction|exact IH].
Qed.

Lemma get_set_ne {V} (k k' : string) (v : V) (m : OrderedMap.t V) :
  k <> k' -> get k' (set k v m) = get k' m.
Proof.
  intros Hne. induction m as [|[k0 v0] rest IH]; cbn.
  - destruct (String.eqb_spec k k'); [contradiction|reflexivity].
  - destruct (String.eqb_spec k0 k) as [->|H0]; cbn.
    + destruct (String.eqb_spec k k'); [contradiction|reflexivity].
    + destruct (String.eqb_spec k0 k'); [reflexivity|exact IH].
Qed.

Lemma get_In {V} (k : string) (v : V) (m : OrderedMap.t V) :
  get k m = Some v -> In (k, v) m.
Proof.
  induction m as [|[k' v'] rest IH]; cbn; [discriminate|].
  destruct (String.eqb_spec k' k) as [->|Hne].
  - intros [= ->]. by left.
  - intros H. right. by apply IH.
Qed.

Lemma in_set {V} (k k0 : string) (v v0 : V) (m : OrderedMap.t V) :
  In (k, v) (set k0 v0 m) -> v = v0 \/ In (k, v) m.
Proof.
  induction m as [|[k' v'] rest IH]; cbn.
  - intros [[= _ <-]|[]]. by left.
  - destruct (String.eqb k' k0); cbn.
    + intros [[= _ <-]|H]; [by left|by right; right].
    + intros [H|H]; [by right; left|].
      destruct (IH H) as [->|H']; [by left|by right; right].
Qed.

Lemma in_keys_set {V} (k k0 : string) (v0 : V) (m : OrderedMap.t V) :
  In k (map fst (set k0 v0 m)) -> k = k0 \/ In k (map fst m).
Proof.
  induction m as [|[k' v'] rest IH]; cbn.
  - intros [<-|[]]. by left.
  - destruct (String.eqb k' k0); cbn; [auto|].
    intros [H|H]; [by right; left|].
    destruct (IH H) as [->|H']; [by left|by right; right].
Qed.

(** [set] keeps the keys distinct. *)
Lemma set_NoDup {V} (k : string) (v : V) (m : OrderedMap.t V) :
  List.NoDup (map fst m) -> List.NoDup (map fst (set k v m)).
Proof.
  induction m as [|[k' v'] rest IH]; cbn; intros Hnodup.
  - constructor; [intros []|constructor].
  - destruct (String.eqb_spec k' k) as [->|Hne]; cbn; [exact Hnodup|].
    inversion Hnodup as [|? ? Hfresh Hrest]; subst.
    constructor; [|by apply IH].
    intros [->|Hin]%in_keys_set; [by apply Hne|by apply Hfresh].
Qed.

End OrderedMapFacts.

(** ** The snapshot engine *)

Module EngineProofs.
Import Engine EngineSpec.

Lemma len_cons_eqb {A} (x : A) (xs : list A) : (len (x :: xs) =? 0) = false.
Proof. unfold len. apply Z.eqb_neq. cbn [length]. lia. Qed.

Section WithPlatform.
Variable P : Platform.

Lemma emitSnapshot_same_content (ed : Editor) (filePath : string)
  (pending : PendingChange) (this : SnapshotEngine) (document : TextDocument) :
  openDocument ed filePath = Some document ->
  fileContents this !! filePath = Some (getText document) ->
  emitSnapshot P ed filePath pending this = (Normal tt, this).
Proof.
  unfold openDocument, emitSnapshot. intros -> Hprev.
  unfold bind, get. rewrite Hprev. cbn.
  by rewrite String.eqb_refl.
Qed.

(** C9.  When the live content of a tracked file equals the content last
    recorded for it, emitting for that file returns without any effect:
    no snapshot is fired or stored, and the chain cursor and the
    baseline content stay as they were; a tick whose only pending file
    is this one just clears the pending entry. *)
Theorem tick_skips_unchanged_content (ed : Editor) (filePath : string)
  (pending : PendingChange) (this : SnapshotEngine) (document : TextDocument) :
  openDocument ed filePath = Some document ->
  fileContents this !! filePath = Some (getText document) ->
  emitSnapshot P ed filePath pending this = (Normal tt, this)
  /\ (isPaused this = false ->
      pendingChanges this = [(filePath, pending)] ->
      let this' := snd (processSnapshots P ed this) in
      fired this' = fired this
      /\ storage this' = storage this
      /\ lastChainHash this' = lastChainHash this
      /\ fileContents this' = fileContents this
      /\ snapshotCount this' = snapshotCount this
      /\ pendingChanges this' = []).
Proof.
  intros Hdoc Hprev. split.
  - by apply emitSnapshot_same_content with document.
  - intros Hrun Hpend. unfold processSnapshots, bind, get.
    rewrite Hrun, Hpend, len_cons_eqb. cbn -[emitSnapshot].
    unfold try_catch, bind.
    rewrite (emitSnapshot_same_content ed filePath pending this document)
      by assumption.
    cbn. repeat split; reflexivity.
Qed.

(** What an emission does once the content has changed and the patch
    is computed: the state updates, then the save with its handler,
    then the fire. *)
Lemma emitSnapshot_changed (ed : Editor) (filePath : string)
  (pending : PendingChange) (this : SnapshotEngine) (document : TextDocument)
  (unifiedDiff : string) :
  openDocument ed filePath = Some document ->
  getText document <> default "" (fileContents this !! filePath) ->
  createPatch P (asRelativePath P (uri document))
              (default "" (fileContents this !! filePath)) (getText document)
  = inl unifiedDiff ->
  let snapshot := snapshotOf P this document filePath pending unifiedDiff in
  let updated :=
    set_snapshotCount (snapshotCount this + 1)
      (set_fileContents (<[filePath := getText document]> (fileContents this))
         (set_lastChainHash (Snapshot.chain_hash snapshot)
            (set_readings (S (S (readings this))) this))) in
  emitSnapshot P ed filePath pending this
  = (bind
       (match storage this with
        | Some _ =>
            try_catch
              (onStorage (SnapshotStorage.saveSnapshot snapshot))
              (consoleError "[CodeProof] Error saving snapshot to storage:")
        | None => ret tt
        end)
       (fun _ =>
          modify (fun this => set_fired (fired this ++ [snapshot]) this)))
      updated.
Proof.
  unfold openDocument, emitSnapshot. intros -> Hne Hpatch. cbn zeta.
  unfold bind at 1. unfold get at 1.
  destruct (String.eqb_spec (getText document)
              (default "" (fileContents this !! filePath))) as [E|_];
    [contradiction|].
  unfold bind at 1. rewrite Hpatch. cbn [external ret].
  unfold snapshotOf.
  destruct (countDiffLines unifiedDiff) as [linesAdded linesRemoved].
  reflexivity.
Qed.

(** C3, as the code has it.  When [saveSnapshot] throws during an
    emission, [emitSnapshot] catches the error and prints it with
    [console.error]; the call returns normally, with the chain cursor
    and the baseline advanced and the snapshot fired to the listeners,
    and the store left without the snapshot. *)
Theorem emitSnapshot_catches_save_failure (ed : Editor) (filePath : string)
  (pending : PendingChange) (this : SnapshotEngine) (document : TextDocument)
  (unifiedDiff : string) (db db' : SnapshotStorage.t) (error : string) :
  openDocument ed filePath = Some document ->
  getText document <> default "" (fileContents this !! filePath) ->
  createPatch P (asRelativePath P (uri document))
              (default "" (fileContents this !! filePath)) (getText document)
  = inl unifiedDiff ->
  storage this = Some db ->
  let snapshot := snapshotOf P this document filePath pending unifiedDiff in
  SnapshotStorage.saveSnapshot snapshot db = (Throw error, db') ->
  exists this',
    emitSnapshot P ed filePath pending this = (Normal tt, this')
    /\ consoleErrors this'
       = consoleErrors this
         ++ ["[CodeProof] Error saving snapshot to storage:" +:+ " " +:+ error]
    /\ fired this' = fired this ++ [snapshot]
    /\ lastChainHash this' = Snapshot.chain_hash snapshot
    /\ fileContents this' !! filePath = Some (getText document)
    /\ storage this' = Some db.
Proof.
  intros Hdoc Hne Hpatch Hdb snapshot Hsave.
  rewrite (emitSnapshot_changed ed filePath pending this document unifiedDiff)
    by assumption.
  rewrite Hdb. fold snapshot.
  unfold bind, try_catch, onStorage. cbn [storage set_snapshotCount
    set_fileContents set_lastChainHash set_readings].
  rewrite Hdb, Hsave.
  assert (db' = db) as ->.
  { unfold SnapshotStorage.saveSnapshot in Hsave.
    destruct (existsb _ _); congruence. }
  eexists. split; [reflexivity|]. cbn.
  repeat split; try reflexivity.
  apply lookup_insert_eq.
Qed.

(** The catch handlers never throw, so neither does a tick. *)
Lemma for_of_normal {S A} (xs : list A) (body : A -> M S unit) :
  (forall x s, fst (body x s) = Normal tt) ->
  forall s, fst (for_of xs body s) = Normal tt.
Proof.
  intros Hbody. induction xs as [|x rest IH]; intros s; [reflexivity|].
  cbn [for_of]. unfold bind. specialize (Hbody x s).
  destruct (body x s) as [[[]|e] s']; cbn in Hbody; [apply IH|discriminate].
Qed.

Lemma try_catch_logged (c : M SnapshotEngine unit) (message : string)
  (this : SnapshotEngine) :
  fst (try_catch c (consoleError message) this) = Normal tt.
Proof.
  unfold try_catch. destruct (c this) as [[[]|e] s']; reflexivity.
Qed.

Lemma processSnapshots_returns (ed : Editor) (this : SnapshotEngine) :
  fst (processSnapshots P ed this) = Normal tt.
Proof.
  unfold processSnapshots, bind, get.
  destruct (isPaused this || (len (pendingChanges this) =? 0)); [reflexivity|].
  match goal with
  | |- context [for_of ?xs ?b this] =>
      assert (fst (for_of xs b this) = Normal tt) as H
  end.
  { apply for_of_normal. intros [filePath pending] s. apply try_catch_logged. }
  destruct (for_of _ _ this) as [[[]|e] s']; cbn in H;
    [reflexivity|discriminate].
Qed.

(** *** Stopping *)

Lemma processSnapshots_paused (ed : Editor) (this : SnapshotEngine) :
  isPaused this = true -> processSnapshots P ed this = (Normal tt, this).
Proof. intros H. unfold processSnapshots, bind, get. by rewrite H. Qed.

(** After its tick, [stop] fires nothing more and leaves nothing
    pending. *)
Lemma stop_after_tick (ed : Editor) (this : SnapshotEngine) :
  isRunning this = true ->
  fired (snd (stop P ed this)) = fired (snd (processSnapshots P ed this))
  /\ pendingChanges (snd (stop P ed this)) = []
  /\ isRunning (snd (stop P ed this)) = false
  /\ option_map SnapshotStorage.snapshots (storage (snd (stop P ed this)))
     = option_map SnapshotStorage.snapshots
         (storage (snd (processSnapshots P ed this))).
Proof.
  intros Hrun.
  destruct (stop P ed this) as [c final] eqn:E. cbn [snd].
  unfold stop in E. unfold bind at 1 in E. unfold get at 1 in E.
  rewrite Hrun in E. cbn [negb] in E. unfold bind at 1 in E.
  pose proof (processSnapshots_returns ed this) as Hret.
  destruct (processSnapshots P ed this) as [r ticked]. cbn in Hret.
  subst r. cbn [snd].
  destruct (storage this) as [db0|].
  - unfold try_catch, bind, readClock, onStorage, modify in E.
    cbn [storage set_readings] in E.
    destruct (storage ticked) as [db|] eqn:Hdb; cbn in E;
      injection E as <- <-; cbn; rewrite ?Hdb; auto.
  - cbn in E. injection E as <- <-. cbn. auto.
Qed.

(** A paused engine that is stopped emits nothing and forgets what was
    pending. *)
Lemma stop_paused (ed : Editor) (this : SnapshotEngine) :
  isRunning this = true ->
  isPaused this = true ->
  fired (snd (stop P ed this)) = fired this
  /\ pendingChanges (snd (stop P ed this)) = []
  /\ option_map SnapshotStorage.snapshots (storage (snd (stop P ed this)))
     = option_map SnapshotStorage.snapshots (storage this).
Proof.
  intros Hrun Hpaused.
  destruct (stop_after_tick ed this Hrun) as (Hfired & Hpending & _ & Hdb).
  rewrite processSnapshots_paused in Hfired, Hdb by assumption.
  auto.
Qed.

Lemma produces_ext (ed : Editor) (this this' : SnapshotEngine)
  (filePath : string) :
  fileContents this' !! filePath = fileContents this !! filePath ->
  produces P ed this' filePath = produces P ed this filePath.
Proof. intros H. unfold produces. by rewrite H. Qed.

(** One turn of the loop of a tick. *)
Lemma emit_step (ed : Editor) (filePath : string) (pending : PendingChange)
  (message : string) (this : SnapshotEngine) :
  let this' :=
    snd (try_catch (emitSnapshot P ed filePath pending)
                   (consoleError message) this) in
  (exists emitted,
     fired this' = fired this ++ emitted
     /\ map Snapshot.filename emitted
        = if produces P ed this filePath then [relativeOf P ed filePath]
          else [])
  /\ forall other, other <> filePath ->
       fileContents this' !! other = fileContents this !! other.
Proof.
  cbv zeta. unfold produces, relativeOf.
  destruct (try_catch (emitSnapshot P ed filePath pending)
              (consoleError message) this) as [r this'] eqn:E.
  cbn [snd]. unfold try_catch in E.
  destruct (openDocument ed filePath) as [document|] eqn:Hdoc.
  2:{ unfold emitSnapshot in E. unfold openDocument in Hdoc.
      rewrite Hdoc in E. cbn in E. injection E as <- <-.
      split; [|auto]. exists []. by rewrite app_nil_r. }
  destruct (String.eqb_spec (getText document)
              (default "" (fileContents this !! filePath))) as [Heq|Hne].
  { unfold emitSnapshot in E. unfold openDocument in Hdoc.
    rewrite Hdoc in E. unfold bind, get in E.
    rewrite <- Heq, String.eqb_refl in E. cbn in E. injection E as <- <-.
    split; [|auto]. exists []. by rewrite app_nil_r. }
  cbn [negb andb].
  destruct (createPatch P (asRelativePath P (uri document))
              (default "" (fileContents this !! filePath)) (getText document))
    as [unifiedDiff|error] eqn:Hpatch.
  - rewrite (emitSnapshot_changed ed filePath pending this document
               unifiedDiff) in E by assumption.
    set (snapshot := snapshotOf P this document filePath pending unifiedDiff)
      in *.
    destruct (storage this) as [db|] eqn:Hdb.
    + unfold bind, try_catch, onStorage in E.
      cbn [storage set_snapshotCount set_fileContents set_lastChainHash
           set_readings] in E. rewrite Hdb in E.
      destruct (SnapshotStorage.saveSnapshot snapshot db) as [[[]|e] db'];
        cbn in E; injection E as <- <-; cbn;
        (split; [exists [snapshot]; split; reflexivity|]);
        intros other Hother; by apply lookup_insert_ne.
    + cbn in E. injection E as <- <-. cbn.
      split; [exists [snapshot]; split; reflexivity|].
      intros other Hother. by apply lookup_insert_ne.
  - unfold emitSnapshot in E. unfold openDocument in Hdoc.
    rewrite Hdoc in E. unfold bind, get in E.
    apply String.eqb_neq in Hne. rewrite Hne, Hpatch in E. cbn in E.
    injection E as <- <-. cbn.
    split; [|auto]. exists []. by rewrite app_nil_r.
Qed.

Lemma for_of_cons_normal {S A} (x : A) (rest : list A) (body : A -> M S unit)
  (s : S) :
  fst (body x s) = Normal tt ->
  for_of (x :: rest) body s = for_of rest body (snd (body x s)).
Proof.
  cbn [for_of]. unfold bind. destruct (body x s) as [[[]|e] s']; cbn;
    [reflexivity|discriminate].
Qed.

(** The loop of a tick emits one snapshot for each pending path that
    [produces] one, in the order of the pending entries. *)
Lemma tick_loop (ed : Editor) (entries : list (string * PendingChange))
  (this : SnapshotEngine) :
  List.NoDup (map fst entries) ->
  let this' :=
    snd (for_of entries
           (fun '(filePath, pending) =>
              try_catch (emitSnapshot P ed filePath pending)
                (consoleError
                   ("[CodeProof] Error processing snapshot for " +:+ filePath
                      +:+ ":")))
           this) in
  exists emitted,
    fired this' = fired this ++ emitted
    /\ map Snapshot.filename emitted
       = map (relativeOf P ed)
             (List.filter (produces P ed this) (map fst entries)).
Proof.
  revert this. induction entries as [|[filePath pending] rest IH];
    intros this Hnodup.
  - cbn. exists []. by rewrite app_nil_r.
  - cbn [map fst] in Hnodup.
    inversion Hnodup as [|? ? Hfresh Hnodup']; subst.
    clear Hnodup. rename Hnodup' into Hnodup.
    cbv zeta. rewrite for_of_cons_normal by apply try_catch_logged.
    destruct (emit_step ed filePath pending
                ("[CodeProof] Error processing snapshot for " +:+ filePath
                   +:+ ":") this)
      as ((first & Hfired & Hnames) & Hframe).
    set (next := snd (try_catch (emitSnapshot P ed filePath pending) _ this))
      in *.
    destruct (IH next Hnodup) as (more & Hfired' & Hnames').
    exists (first ++ more). split.
    + rewrite Hfired', Hfired. by rewrite app_assoc.
    + rewrite map_app, Hnames, Hnames'. cbn [map fst List.filter].
      assert (List.filter (produces P ed next) (map fst rest)
              = List.filter (produces P ed this) (map fst rest)) as ->.
      { apply List.filter_ext_in. intros other Hother.
        apply produces_ext, Hframe. intros ->. contradiction. }
      by destruct (produces P ed this filePath).
Qed.

(** Stopping an engine that is running and not paused emits one
    snapshot for each pending path whose open document differs from its
    baseline, once, and leaves nothing pending. *)
Lemma stop_flushes_once (ed : Editor) (this : SnapshotEngine) :
  isRunning this = true ->
  isPaused this = false ->
  List.NoDup (map fst (pendingChanges this)) ->
  exists emitted,
    fired (snd (stop P ed this)) = fired this ++ emitted
    /\ map Snapshot.filename emitted
       = map (relativeOf P ed)
             (List.filter (produces P ed this)
                          (map fst (pendingChanges this)))
    /\ pendingChanges (snd (stop P ed this)) = [].
Proof.
  intros Hrun Hpaused Hnodup.
  destruct (stop_after_tick ed this Hrun) as (Hfired & Hpending & _).
  rewrite Hfired. unfold processSnapshots, bind, get. rewrite Hpaused.
  cbn [orb].
  destruct (pendingChanges this) as [|entry rest] eqn:Hentries.
  { cbn. exists []. by rewrite app_nil_r. }
  rewrite len_cons_eqb.
  destruct (tick_loop ed (entry :: rest) this Hnodup)
    as (emitted & Hloop & Hnames).
  exists emitted. split; [|by split].
  match goal with
  | |- context [for_of ?xs ?b this] =>
      pose proof (for_of_normal xs b) as Hnormal;
      destruct (for_of xs b this) as [r looped] eqn:Hfor
  end.
  assert (r = Normal tt) as ->.
  { match type of Hnormal with
    | ?A -> _ =>
        assert (HA : A)
          by (intros [f p] s; apply try_catch_logged)
    end.
    specialize (Hnormal HA this). by rewrite Hfor in Hnormal. }
  cbn in Hloop |- *. exact Hloop.
Qed.

(** *** Aggregation *)

Lemma handleDocumentChange_config (event : TextDocumentChangeEvent)
  (this : SnapshotEngine) :
  excludePatterns (handleDocumentChange P event this) = excludePatterns this
  /\ pasteThreshold (handleDocumentChange P event this) = pasteThreshold this.
Proof.
  unfold handleDocumentChange.
  destruct (len (contentChanges event) =? 0); [done|].
  destruct (negb _); [done|].
  destruct (isExcluded _ _ _); [done|].
  destruct (fileContents this !! _); cbn;
    destruct (OrderedMap.get _ _); done.
Qed.

Lemma handleDocumentChange_pending (event : TextDocumentChangeEvent)
  (this : SnapshotEngine) (filePath : string) :
  OrderedMap.get filePath (pendingChanges (handleDocumentChange P event this))
  = if delivered P this event
       && String.eqb (fsPath (uri (document event))) filePath
    then accumulate (pasteThreshold this)
           (OrderedMap.get filePath (pendingChanges this)) event
    else OrderedMap.get filePath (pendingChanges this).
Proof.
  unfold handleDocumentChange, delivered.
  destruct (len (contentChanges event) =? 0); [reflexivity|].
  destruct (String.eqb (scheme (uri (document event))) "file");
    [|reflexivity].
  unfold isExcluded at 2.
  destruct (isExcluded P _ this) eqn:Hex.
  { unfold isExcluded in Hex. by rewrite Hex. }
  unfold isExcluded in Hex. rewrite Hex. cbn [negb andb].
  set (this1 := match fileContents this !! _ with
                | Some _ => this | None => _ end).
  assert (pendingChanges this1 = pendingChanges this
          /\ pasteThreshold this1 = pasteThreshold this) as [Hp Ht].
  { subst this1. by destruct (fileContents this !! _). }
  rewrite Hp.
  destruct (String.eqb_spec (fsPath (uri (document event))) filePath)
    as [<-|Hne].
  - unfold accumulate.
    destruct (OrderedMap.get _ (pendingChanges this)) as [existing|];
      cbn [pendingChanges set_pendingChanges];
      by rewrite OrderedMapFacts.get_set_eq.
  - destruct (OrderedMap.get (fsPath _) (pendingChanges this));
      cbn [pendingChanges set_pendingChanges];
      by rewrite OrderedMapFacts.get_set_ne.
Qed.

(** The pending paths stay distinct, as [stop_flushes_once] assumes. *)
Lemma handleDocumentChange_NoDup (event : TextDocumentChangeEvent)
  (this : SnapshotEngine) :
  List.NoDup (map fst (pendingChanges this)) ->
  List.NoDup (map fst (pendingChanges (handleDocumentChange P event this))).
Proof.
  intros Hnodup. unfold handleDocumentChange.
  destruct (len (contentChanges event) =? 0); [exact Hnodup|].
  destruct (negb _); [exact Hnodup|].
  destruct (isExcluded _ _ _); [exact Hnodup|].
  destruct (fileContents this !! _); cbn;
    destruct (OrderedMap.get _ _); cbn;
    by apply OrderedMapFacts.set_NoDup.
Qed.

Lemma deliver_pending (events : list TextDocumentChangeEvent)
  (this : SnapshotEngine) (filePath : string) :
  OrderedMap.get filePath (pendingChanges (deliver P events this))
  = fold_left (accumulate (pasteThreshold this))
              (editsOf P this filePath events)
              (OrderedMap.get filePath (pendingChanges this)).
Proof.
  revert this. induction events as [|event rest IH]; intros this;
    [reflexivity|].
  change (deliver P (event :: rest) this)
    with (deliver P rest (handleDocumentChange P event this)).
  rewrite IH, handleDocumentChange_pending.
  destruct (handleDocumentChange_config event this) as [Hex Hth].
  rewrite Hth.
  assert (editsOf P (handleDocumentChange P event this) filePath rest
          = editsOf P this filePath rest) as ->.
  { unfold editsOf, delivered, isExcluded. by rewrite Hex. }
  unfold editsOf at 2. cbn [List.filter]. fold (editsOf P this filePath rest).
  by destruct (delivered P this event && _).
Qed.

Lemma accumulate_from_entry (pasteThreshold : Z) (existing : PendingChange)
  (edits : list TextDocumentChangeEvent) :
  exists entry,
    fold_left (accumulate pasteThreshold) edits (Some existing) = Some entry
    /\ In (PendingChange.changeType entry)
          (PendingChange.changeType existing
             :: map (ChangeDetector.detect pasteThreshold) edits)
    /\ CHANGE_TYPE_PRIORITY (PendingChange.changeType existing)
       <= CHANGE_TYPE_PRIORITY (PendingChange.changeType entry)
    /\ (forall event, In event edits ->
          CHANGE_TYPE_PRIORITY (ChangeDetector.detect pasteThreshold event)
          <= CHANGE_TYPE_PRIORITY (PendingChange.changeType entry))
    /\ PendingChange.charsAdded entry
       = PendingChange.charsAdded existing + sumZ (map eventCharsAdded edits)
    /\ PendingChange.charsRemoved entry
       = PendingChange.charsRemoved existing
         + sumZ (map eventCharsRemoved edits).
Proof.
  revert existing. induction edits as [|event rest IH]; intros existing.
  - exists existing. cbn.
    split; [reflexivity|]. split; [by left|]. split; [lia|].
    split; [intros ? []|]. split; lia.
  - cbn [fold_left]; unfold accumulate at 1.
    destruct (IH (PendingChange.mk
                (if CHANGE_TYPE_PRIORITY
                      (ChangeDetector.detect pasteThreshold event)
                    >? CHANGE_TYPE_PRIORITY (PendingChange.changeType existing)
                 then ChangeDetector.detect pasteThreshold event
                 else PendingChange.changeType existing)
                (PendingChange.charsAdded existing + eventCharsAdded event)
                (PendingChange.charsRemoved existing + eventCharsRemoved event)))
      as (entry & Hfold & Hin & Hge & Hall & Ha & Hr).
    cbn [PendingChange.changeType PendingChange.charsAdded
         PendingChange.charsRemoved] in *.
    exists entry. split; [exact Hfold|].
    destruct (Z.gtb_spec
                (CHANGE_TYPE_PRIORITY (ChangeDetector.detect pasteThreshold event))
                (CHANGE_TYPE_PRIORITY (PendingChange.changeType existing)))
      as [Hgt|Hle].
    + repeat split.
      * cbn [map]. destruct Hin as [<-|Hin]; [right; by left|by do 2 right].
      * lia.
      * intros ev [<-|Hev]; [exact Hge|by apply Hall].
      * cbn [map sumZ fold_right]. fold (sumZ (map eventCharsAdded rest)). lia.
      * cbn [map sumZ fold_right]. fold (sumZ (map eventCharsRemoved rest)).
        lia.
    + repeat split.
      * cbn [map]. destruct Hin as [<-|Hin]; [by left|by do 2 right].
      * exact Hge.
      * intros ev [<-|Hev]; [lia|by apply Hall].
      * cbn [map sumZ fold_right]. fold (sumZ (map eventCharsAdded rest)). lia.
      * cbn [map sumZ fold_right]. fold (sumZ (map eventCharsRemoved rest)).
        lia.
Qed.

(** The two counters that the handler's loop computes for an event are
    the characters the event inserts and the characters it removes. *)
Lemma fold_left_add {A} (f : A -> Z) (xs : list A) (start : Z) :
  fold_left (fun acc x => acc + f x) xs start = start + sumZ (map f xs).
Proof.
  revert start. induction xs as [|x rest IH]; intros start.
  - cbn. lia.
  - cbn [fold_left map sumZ fold_right]. rewrite IH.
    fold (sumZ (map f rest)). lia.
Qed.

Lemma eventCharsAdded_inserted (event : TextDocumentChangeEvent) :
  eventCharsAdded event = insertedChars event.
Proof. unfold eventCharsAdded, insertedChars. rewrite fold_left_add. lia. Qed.

Lemma eventCharsRemoved_removed (event : TextDocumentChangeEvent) :
  eventCharsRemoved event = removedChars event.
Proof. unfold eventCharsRemoved, removedChars. rewrite fold_left_add. lia. Qed.

(** C6.  Starting with no pending entry for a file, after any sequence
    of events the pending entry of the file holds, over the edits that
    were delivered for it: a change type that one of them was
    classified as and that no other exceeds in the order
    typing < delete < refactor < paste, and, as its two counters, the
    sum of the characters that the edits inserted (the lengths of the
    texts of all their ranges) and the sum of the characters that they
    removed (the lengths of all the ranges replaced). *)
Theorem pending_entry_is_max_and_sums (this : SnapshotEngine)
  (events : list TextDocumentChangeEvent) (filePath : string) :
  OrderedMap.get filePath (pendingChanges this) = None ->
  let edits := editsOf P this filePath events in
  let classify := ChangeDetector.detect (pasteThreshold this) in
  edits <> [] ->
  CHANGE_TYPE_PRIORITY Typing < CHANGE_TYPE_PRIORITY Delete
    < CHANGE_TYPE_PRIORITY Refactor
  /\ CHANGE_TYPE_PRIORITY Refactor < CHANGE_TYPE_PRIORITY Paste
  /\ exists entry,
       OrderedMap.get filePath (pendingChanges (deliver P events this))
       = Some entry
       /\ In (PendingChange.changeType entry) (map classify edits)
       /\ (forall event, In event edits ->
             CHANGE_TYPE_PRIORITY (classify event)
             <= CHANGE_TYPE_PRIORITY (PendingChange.changeType entry))
       /\ PendingChange.charsAdded entry = sumZ (map insertedChars edits)
       /\ PendingChange.charsRemoved entry = sumZ (map removedChars edits).
Proof.
  intros Hnone edits classify Hedits.
  split; [cbn; lia|]. split; [cbn; lia|].
  rewrite deliver_pending, Hnone. fold edits.
  destruct edits as [|first rest]; [contradiction|].
  cbn [fold_left]; unfold accumulate at 1.
  destruct (accumulate_from_entry (pasteThreshold this)
              (PendingChange.mk (classify first) (eventCharsAdded first)
                                (eventCharsRemoved first)) rest)
    as (entry & Hfold & Hin & Hge & Hall & Ha & Hr).
  cbn [PendingChange.changeType PendingChange.charsAdded
       PendingChange.charsRemoved] in *.
  exists entry. split; [exact Hfold|].
  assert (Hinserted : map eventCharsAdded rest = map insertedChars rest)
    by (apply map_ext; intros; apply eventCharsAdded_inserted).
  assert (Hremoved : map eventCharsRemoved rest = map removedChars rest)
    by (apply map_ext; intros; apply eventCharsRemoved_removed).
  repeat split.
  - exact Hin.
  - intros ev [<-|Hev]; [exact Hge|by apply Hall].
  - cbn [map sumZ fold_right]. fold (sumZ (map insertedChars rest)).
    by rewrite Ha, Hinserted, eventCharsAdded_inserted.
  - cbn [map sumZ fold_right]. fold (sumZ (map removedChars rest)).
    by rewrite Hr, Hremoved, eventCharsRemoved_removed.
Qed.

End WithPlatform.

Import Demo Scenario.

Lemma tick_skips_unchanged_content_witness :
  let saved :=
    snd (processSnapshots platform (editor "hello")
           (recorded SnapshotStorage.empty)) in
  let touched :=
    handleDocumentChange platform (edit "hello" (insertion 0 5 "")) saved in
  emitSnapshot platform (editor "hello") pathA (PendingChange.mk Typing 0 0)
               touched
  = (Normal tt, touched).
Proof.
  cbv zeta.
  apply (tick_skips_unchanged_content platform (editor "hello") pathA
           (PendingChange.mk Typing 0 0) _ (docA "hello")).
  - reflexivity.
  - vm_compute. reflexivity.
Defined.

(** C3, as specified, fails: the store holds a row under the id
    of the snapshot being emitted, [saveSnapshot] throws, and
    [emitSnapshot] returns normally. *)
Lemma save_failure_does_not_propagate :
  ~ saveFailurePropagates platform (editor "hello") pathA pendingA
      (recorded dbTaken).
Proof.
  intros H.
  specialize (H (docA "hello") patchA
                (default dbTaken (storage (recorded dbTaken)))
                (default dbTaken (storage (recorded dbTaken)))
                "UNIQUE constraint failed: snapshots.id").
  vm_compute in H.
  specialize (H eq_refl ltac:(discriminate) eq_refl eq_refl eq_refl).
  discriminate H.
Qed.

Lemma emitSnapshot_catches_save_failure_witness :
  exists this',
    emitSnapshot platform (editor "hello") pathA pendingA (recorded dbTaken)
    = (Normal tt, this')
    /\ consoleErrors this'
       = ["[CodeProof] Error saving snapshot to storage: "
            +:+ "UNIQUE constraint failed: snapshots.id"]
    /\ map Snapshot.filename (fired this') = ["a.py"]
    /\ storage this'
       = Some {| SnapshotStorage.snapshots := [earlier];
                 SnapshotStorage.sessions :=
                   SnapshotStorage.sessions
                     (default dbTaken (storage (recorded dbTaken))) |}.
Proof.
  destruct (emitSnapshot_catches_save_failure platform (editor "hello") pathA
              pendingA (recorded dbTaken) (docA "hello")
              patchA
              (default dbTaken (storage (recorded dbTaken)))
              (default dbTaken (storage (recorded dbTaken)))
              "UNIQUE constraint failed: snapshots.id")
    as (this' & Hrun & Hlog & Hfired & _ & _ & Hdb).
  - reflexivity.
  - vm_compute. discriminate.
  - vm_compute. reflexivity.
  - vm_compute. reflexivity.
  - vm_compute. reflexivity.
  - exists this'. split; [exact Hrun|]. split; [exact Hlog|].
    split; [by rewrite Hfired|exact Hdb].
Defined.

(** C4 on the code.  One edit of [a.py] is pending.  Stopped as it is,
    the engine emits the snapshot of [a.py]; paused and then stopped, it
    emits nothing, stores nothing, and the pending entry is gone. *)
Theorem stop_while_paused_discards_pending :
  let this := recorded SnapshotStorage.empty in
  let stopped := snd (stop platform (editor "hello") this) in
  let stoppedPaused := snd (stop platform (editor "hello") (pause this)) in
  pendingChanges (pause this) = [(pathA, pendingA)]
  /\ map Snapshot.filename (fired stopped) = ["a.py"]
  /\ fired stoppedPaused = []
  /\ option_map SnapshotStorage.snapshots (storage stoppedPaused) = Some []
  /\ pendingChanges stoppedPaused = []
  /\ isRunning stoppedPaused = false.
Proof. vm_compute. repeat split; reflexivity. Qed.

Lemma pending_entry_is_max_and_sums_witness :
  let events :=
    [ edit "ab" (insertion 0 0 "ab");
      edit "ab" (insertion 0 2 (replicate 60 "x"));
      edit "ab" (removal 3) ] in
  map (ChangeDetector.detect 50) events = [Typing; Paste; Typing]
  /\ OrderedMap.get pathA
       (pendingChanges (deliver platform events (started SnapshotStorage.empty)))
     = Some (PendingChange.mk Paste 62 3).
Proof.
  cbv zeta. split; [reflexivity|].
  destruct (pending_entry_is_max_and_sums platform
              (started SnapshotStorage.empty)
              [ edit "ab" (insertion 0 0 "ab");
                edit "ab" (insertion 0 2 (replicate 60 "x"));
                edit "ab" (removal 3) ]
              pathA)
    as (_ & _ & entry & Hget & Hin & Hmax & Hadded & Hremoved).
  - reflexivity.
  - vm_compute. discriminate.
  - rewrite Hget. f_equal. destruct entry as [kind added removed].
    cbn [PendingChange.changeType PendingChange.charsAdded
         PendingChange.charsRemoved] in *.
    vm_compute in Hadded, Hremoved. subst added removed.
    f_equal.
    specialize (Hmax (edit "ab" (insertion 0 2 (replicate 60 "x")))).
    vm_compute in Hmax, Hin.
    destruct kind; try reflexivity; exfalso; apply Hmax; auto.
Defined.

End EngineProofs.

(** ** The replay recorder *)

Module ReplayProofs.
Import ReplayRecorder ReplaySpec.

Lemma lookup_last_snoc {A} (xs : list A) (x : A) :
  (xs ++ [x]) !! (length (xs ++ [x]) - 1)%nat = Some x.
Proof.
  rewrite length_app. cbn [length].
  replace (length xs + 1 - 1)%nat with (length xs) by lia.
  by apply list_lookup_middle.
Qed.

Lemma insert_last_snoc {A} (xs : list A) (x y : A) :
  <[(length (xs ++ [x]) - 1)%nat := y]> (xs ++ [x]) = xs ++ [y].
Proof.
  rewrite length_app. cbn [length].
  replace (length xs + 1 - 1)%nat with (length xs + 0)%nat by lia.
  by rewrite insert_app_r.
Qed.

Lemma len_snoc_eqb {A} (xs : list A) (x : A) : (len (xs ++ [x]) =? 0) = false.
Proof. unfold len. rewrite length_app. cbn [length]. apply Z.eqb_neq. lia. Qed.

Lemma position_eta (p : Position) :
  {| line := line p; character := character p |} = p.
Proof. by destruct p. Qed.

Section WithPlatform.
Variable P : Platform.

(** C8.  The last buffered event and the incoming one are each a single
    pure insert, of the same file and on the same line; the incoming
    insert starts where the buffered text ends and is one character
    long.  If the incoming event is at most 500 ms later, the buffer
    keeps one event in their place, with the concatenated text and the
    end position of the incoming insert; if it is more than 500 ms
    later, the incoming event is appended after the buffered one. *)
Theorem consecutive_inserts_coalesce_within_window
  (this : ReplayRecorder.t) (earlierEvents : list ReplayEvent)
  (lastEvent : ReplayEvent) (lastChange : ReplayChange)
  (event : TextDocumentChangeEvent) (change : ContentChange) (now : Z) :
  buffer this = earlierEvents ++ [lastEvent] ->
  ReplayEvent.changes lastEvent = [lastChange] ->
  contentChanges event = [change] ->
  scheme (uri (document event)) = "file" ->
  isExcluded P (asRelativePath P (uri (document event))) this = false ->
  ReplayEvent.filename lastEvent = asRelativePath P (uri (document event)) ->
  ReplayChange.rangeLength lastChange = 0 ->
  rangeLength change = 0 ->
  line (ReplayChange.rangeStart lastChange) = line (range_start (range change)) ->
  character (range_start (range change))
  = character (ReplayChange.rangeStart lastChange)
    + strlen (ReplayChange.text lastChange) ->
  strlen (text change) = 1 ->
  let newEvent :=
    {| ReplayEvent.timestamp := now;
       ReplayEvent.filename := asRelativePath P (uri (document event));
       ReplayEvent.changes := [changeOf change] |} in
  (now - ReplayEvent.timestamp lastEvent <= 500 ->
     buffer (handleDocumentChange P event now this)
     = earlierEvents ++ [merged lastEvent lastChange change])
  /\ (now - ReplayEvent.timestamp lastEvent > 500 ->
       buffer (handleDocumentChange P event now this)
       = earlierEvents ++ [lastEvent; newEvent]).
Proof.
  intros Hbuf Hlast Hone Hscheme Hex Hfile Hlen0 Hlen0' Hline Hchar Hsingle
         newEvent.
  assert (Hnew : handleDocumentChange P event now this
                 = let (coalesced, buffer') :=
                     tryCoalesce newEvent (buffer this) in
                   if coalesced then set_buffer buffer' this
                   else set_buffer (buffer' ++ [newEvent]) this).
  { unfold handleDocumentChange. rewrite Hone, Hscheme, Hex.
    cbn [map]. unfold newEvent, changeOf.
    rewrite !position_eta. reflexivity. }
  rewrite Hnew. clear Hnew.
  unfold tryCoalesce. rewrite Hbuf, len_snoc_eqb, lookup_last_snoc.
  cbn [ReplayEvent.filename ReplayEvent.timestamp ReplayEvent.changes newEvent].
  rewrite Hfile, String.eqb_refl. cbn [negb].
  unfold COALESCE_WINDOW_MS. split; intros Hwindow.
  - destruct (Z.gtb_spec (now - ReplayEvent.timestamp lastEvent) 500);
      [lia|].
    rewrite Hlast. cbn -[Z.add strlen insert].
    rewrite Hlen0, Hlen0', Hline, Hchar, Hsingle, !Z.eqb_refl.
    cbn -[Z.add strlen insert].
    rewrite insert_last_snoc, position_eta.
    unfold merged. by rewrite Hfile.
  - destruct (Z.gtb_spec (now - ReplayEvent.timestamp lastEvent) 500);
      [|lia].
    cbn [buffer set_buffer]. by rewrite <- app_assoc.
Qed.

End WithPlatform.

Import Demo Scenario.

Lemma consecutive_inserts_coalesce_within_window_witness :
  let next := edit "ab" (insertion 0 1 "b") in
  map ReplayEvent.changes
      (buffer (handleDocumentChange platform next 1100 recorder))
  = [[ {| ReplayChange.rangeStart := {| line := 0; character := 0 |};
          ReplayChange.rangeEnd := {| line := 0; character := 1 |};
          ReplayChange.text := "ab";
          ReplayChange.rangeLength := 0 |} ]]
  /\ map ReplayEvent.timestamp
         (buffer (handleDocumentChange platform next 1600 recorder))
     = [1000; 1600].
Proof.
  cbv zeta. split.
  - destruct (consecutive_inserts_coalesce_within_window platform recorder []
                keyEvent keyChange (edit "ab" (insertion 0 1 "b"))
                (insertion 0 1 "b") 1100
                eq_refl eq_refl eq_refl eq_refl eq_refl eq_refl
                eq_refl eq_refl eq_refl eq_refl eq_refl) as [Hmerge _].
    rewrite Hmerge; [reflexivity|]. vm_compute. discriminate.
  - destruct (consecutive_inserts_coalesce_within_window platform recorder []
                keyEvent keyChange (edit "ab" (insertion 0 1 "b"))
                (insertion 0 1 "b") 1600
                eq_refl eq_refl eq_refl eq_refl eq_refl eq_refl
                eq_refl eq_refl eq_refl eq_refl eq_refl) as [_ Hkeep].
    rewrite Hkeep; [reflexivity|]. vm_compute. reflexivity.
Defined.

End ReplayProofs.

(** ** The flag analyzer *)

Module FlagAnalyzerProofs.
Import FlagAnalyzer FlagAnalyzerSpec.

Lemma sound_weaken (category : FlagCategory) (smaller larger : list Snapshot)
  (flag : Flag) :
  incl smaller larger -> sound category smaller flag ->
  sound category larger flag.
Proof.
  intros Hincl (Hcat & Hne & Hids). split; [exact Hcat|].
  split; [exact Hne|]. intros id Hid.
  destruct (Hids id Hid) as (s & Hs & Hsid). exists s. auto.
Qed.

Lemma referencesInput_map (snapshots chosen : list Snapshot) (flag : Flag) :
  Flag.snapshotIds flag = map Snapshot.id chosen ->
  chosen <> [] -> incl chosen snapshots ->
  referencesInput snapshots flag.
Proof.
  intros Hids Hne Hincl. unfold referencesInput. rewrite Hids. split.
  - destruct chosen; [contradiction|discriminate].
  - intros id Hid. apply in_map_iff in Hid as (s & <- & Hs).
    exists s. auto.
Qed.

Lemma detectLargePaste_In (snapshots : list Snapshot) (flag : Flag) :
  In flag (detectLargePaste snapshots) <->
  exists snapshot,
    In snapshot snapshots
    /\ Snapshot.lines_added snapshot >= 30
    /\ Snapshot.change_type snapshot = Paste
    /\ flag = {| Flag.category := large_paste;
                 Flag.severity := medium;
                 Flag.timestamp := Snapshot.timestamp snapshot;
                 Flag.filename := Snapshot.filename snapshot;
                 Flag.snapshotIds := [Snapshot.id snapshot] |}.
Proof.
  unfold detectLargePaste, LARGE_PASTE_THRESHOLD. rewrite in_flat_map.
  split.
  - intros (s & Hs & Hflag).
    destruct (Z.geb_spec (Snapshot.lines_added s) 30); cbn in Hflag;
      [|contradiction].
    destruct (Snapshot.change_type s) eqn:Hct; cbn in Hflag; try contradiction.
    destruct Hflag as [<-|[]]. exists s. repeat split; auto. lia.
  - intros (s & Hs & Hge & Hct & ->). exists s. split; [exact Hs|].
    destruct (Z.geb_spec (Snapshot.lines_added s) 30); [|lia].
    rewrite Hct. cbn. by left.
Qed.

Lemma detectFullyFormedCode_In (snapshots : list Snapshot) (flag : Flag) :
  In flag (detectFullyFormedCode snapshots) ->
  exists snapshot,
    In snapshot snapshots
    /\ Snapshot.lines_added snapshot >= 50
    /\ flag = {| Flag.category := fully_formed_code;
                 Flag.severity := high;
                 Flag.timestamp := Snapshot.timestamp snapshot;
                 Flag.filename := Snapshot.filename snapshot;
                 Flag.snapshotIds := [Snapshot.id snapshot] |}.
Proof.
  unfold FULLY_FORMED_LINE_THRESHOLD.
  induction snapshots as [|s later IH]; cbn; [intros []|].
  rewrite in_app_iff. intros [H|H].
  - destruct (Z.ltb_spec (Snapshot.lines_added s) FULLY_FORMED_LINE_THRESHOLD)
      as [Hlt|Hge]; [destruct H|]. unfold FULLY_FORMED_LINE_THRESHOLD in Hge.
    destruct (existsb _ later); cbn in H; [destruct H|].
    destruct H as [<-|[]]. exists s. repeat split; auto. lia.
  - destruct (IH H) as (s' & Hs' & Hrest). exists s'. auto.
Qed.

Lemma detectLargePaste_sound (snapshots : list Snapshot) (flag : Flag) :
  In flag (detectLargePaste snapshots) -> sound large_paste snapshots flag.
Proof.
  intros (s & Hs & _ & _ & ->)%detectLargePaste_In.
  split; [reflexivity|].
  apply (referencesInput_map snapshots [s]); [reflexivity|discriminate|].
  intros ? [<-|[]]. exact Hs.
Qed.

Lemma detectFullyFormedCode_sound (snapshots : list Snapshot) (flag : Flag) :
  In flag (detectFullyFormedCode snapshots) ->
  sound fully_formed_code snapshots flag.
Proof.
  intros (s & Hs & _ & ->)%detectFullyFormedCode_In.
  split; [reflexivity|].
  apply (referencesInput_map snapshots [s]); [reflexivity|discriminate|].
  intros ? [<-|[]]. exact Hs.
Qed.

(** *** Grouping by file *)

Lemma fold_left_invariant {A B} (f : A -> B -> A) (Q : A -> Prop)
  (R : B -> Prop) (xs : list B) (acc : A) :
  (forall acc x, Q acc -> R x -> Q (f acc x)) ->
  Q acc -> Forall R xs -> Q (fold_left f xs acc).
Proof.
  intros Hstep. revert acc.
  induction xs as [|x rest IH]; intros acc Hacc Hall; [exact Hacc|].
  cbn. apply Forall_cons_1 in Hall as [Hx Hrest]. apply IH; auto.
Qed.

Lemma groupByFile_values (snapshots : list Snapshot) (filename : string)
  (fileSnaps : list Snapshot) :
  In (filename, fileSnaps) (groupByFile snapshots) -> incl fileSnaps snapshots.
Proof.
  unfold groupByFile.
  pose (Q := fun m : OrderedMap.t (list Snapshot) =>
               forall k v, In (k, v) m -> incl v snapshots).
  assert (HQ : Q (fold_left
    (fun fileSnapshots snapshot =>
       match OrderedMap.get (Snapshot.filename snapshot) fileSnapshots with
       | Some existing =>
           OrderedMap.set (Snapshot.filename snapshot)
                          (existing ++ [snapshot]) fileSnapshots
       | None =>
           OrderedMap.set (Snapshot.filename snapshot) [snapshot] fileSnapshots
       end) snapshots [])).
  { apply (fold_left_invariant _ Q (fun s => In s snapshots)).
    - intros acc s Hacc Hs k v Hin.
      destruct (OrderedMap.get (Snapshot.filename s) acc) as [existing|] eqn:E.
      + apply OrderedMapFacts.in_set in Hin as [->|Hin]; [|by eapply Hacc].
        apply OrderedMapFacts.get_In in E. apply incl_app; [by eapply Hacc|].
        intros ? [<-|[]]. exact Hs.
      + apply OrderedMapFacts.in_set in Hin as [->|Hin]; [|by eapply Hacc].
        intros ? [<-|[]]. exact Hs.
    - intros k v [].
    - apply List.Forall_forall. auto. }
  intros Hin. exact (HQ _ _ Hin).
Qed.

Lemma detectStyleInconsistency_sound (snapshots : list Snapshot)
  (flag : Flag) :
  In flag (detectStyleInconsistency snapshots) ->
  sound style_inconsistency snapshots flag.
Proof.
  unfold detectStyleInconsistency. rewrite in_flat_map.
  intros ([filename fileSnaps] & Hgroup & Hflag).
  destruct (Z.ltb_spec (len fileSnaps) 2) as [|Hlen]; [destruct Hflag|].
  destruct (detectNamingConvention (take _ fileSnaps)); [|destruct Hflag].
  destruct (detectNamingConvention (drop _ fileSnaps)); [|destruct Hflag].
  destruct (drop _ fileSnaps) as [|firstLate ?]; [destruct Hflag|].
  destruct (negb _); [|destruct Hflag]. destruct Hflag as [<-|[]].
  split; [reflexivity|].
  apply (referencesInput_map snapshots fileSnaps); [reflexivity| |].
  - intros ->. unfold len in Hlen. cbn in Hlen. lia.
  - by apply groupByFile_values with filename.
Qed.

Lemma collectFileStats_values (snapshots : list Snapshot) (filename : string)
  (stats : FileStats) :
  In (filename, stats) (collectFileStats snapshots) ->
  snapshotIds stats <> []
  /\ incl (snapshotIds stats) (map Snapshot.id snapshots).
Proof.
  unfold collectFileStats.
  pose (Q := fun m : OrderedMap.t FileStats =>
               forall k v, In (k, v) m ->
                 snapshotIds v <> []
                 /\ incl (snapshotIds v) (map Snapshot.id snapshots)).
  assert (HQ : Q (fold_left
    (fun fileStats snapshot =>
       match OrderedMap.get (Snapshot.filename snapshot) fileStats with
       | Some existing =>
           OrderedMap.set (Snapshot.filename snapshot)
             {| totalAdded :=
                  totalAdded existing + Snapshot.lines_added snapshot;
                totalRemoved :=
                  totalRemoved existing + Snapshot.lines_removed snapshot;
                snapshotIds := snapshotIds existing ++ [Snapshot.id snapshot];
                firstTimestamp := firstTimestamp existing |}
             fileStats
       | None =>
           OrderedMap.set (Snapshot.filename snapshot)
             {| totalAdded := Snapshot.lines_added snapshot;
                totalRemoved := Snapshot.lines_removed snapshot;
                snapshotIds := [Snapshot.id snapshot];
                firstTimestamp := Snapshot.timestamp snapshot |}
             fileStats
       end) snapshots [])).
  { apply (fold_left_invariant _ Q (fun s => In s snapshots)).
    - intros acc s Hacc Hs k v Hin.
      assert (Hid : In (Snapshot.id s) (map Snapshot.id snapshots))
        by (by apply in_map).
      destruct (OrderedMap.get (Snapshot.filename s) acc) as [existing|] eqn:E.
      + apply OrderedMapFacts.in_set in Hin as [->|Hin]; [|by eapply Hacc].
        apply OrderedMapFacts.get_In in E.
        destruct (Hacc _ _ E) as [_ Hincl]. cbn. split.
        * by destruct (snapshotIds existing).
        * apply incl_app; [exact Hincl|]. intros ? [<-|[]]. exact Hid.
      + apply OrderedMapFacts.in_set in Hin as [->|Hin]; [|by eapply Hacc].
        cbn. split; [discriminate|]. intros ? [<-|[]]. exact Hid.
    - intros k v [].
    - apply List.Forall_forall. auto. }
  intros Hin. exact (HQ _ _ Hin).
Qed.

Lemma detectNoDebugging_sound (snapshots : list Snapshot) (flag : Flag) :
  In flag (detectNoDebugging snapshots) -> sound no_debugging snapshots flag.
Proof.
  unfold detectNoDebugging. rewrite in_flat_map.
  intros ([filename stats] & Hstats & Hflag).
  destruct (_ && _); [|destruct Hflag]. destruct Hflag as [<-|[]].
  apply collectFileStats_values in Hstats as [Hne Hincl].
  split; [reflexivity|]. split; [exact Hne|].
  intros id Hid. apply Hincl, in_map_iff in Hid as (s & <- & Hs).
  exists s. auto.
Qed.

(** *** Windows *)

Section WithPlatform.
Variable P : Platform.

Lemma scanWindow_ids (windowEnd : Num.t) (weight : Snapshot -> Z)
  (snapshots : list Snapshot) :
  incl (snd (scanWindow P windowEnd weight snapshots))
       (map Snapshot.id snapshots).
Proof.
  induction snapshots as [|s rest IH]; cbn; [intros ? []|].
  destruct (Num.gtb (timeOf P s) windowEnd); cbn; [intros ? []|].
  destruct (scanWindow P windowEnd weight rest) as [total ids]. cbn in *.
  intros id [<-|Hid]; [by left|right; by apply IH].
Qed.

(** A window that opens at a snapshot contains that snapshot. *)
Lemma scanWindow_opening (opening : Snapshot) (size : Z)
  (weight : Snapshot -> Z) (rest : list Snapshot) :
  0 <= size ->
  snd (scanWindow P (Num.add (timeOf P opening) (Some size)) weight
         (opening :: rest))
  <> [].
Proof.
  intros Hsize. cbn.
  assert (Num.gtb (timeOf P opening) (Num.add (timeOf P opening) (Some size))
          = false) as ->.
  { destruct (timeOf P opening) as [t|]; cbn; [|reflexivity].
    destruct (Z.gtb_spec t (t + size)); [lia|reflexivity]. }
  destruct (scanWindow P _ weight rest). discriminate.
Qed.

Lemma ids_reference (snapshots : list Snapshot) (flag : Flag) :
  Flag.snapshotIds flag <> [] ->
  incl (Flag.snapshotIds flag) (map Snapshot.id snapshots) ->
  referencesInput snapshots flag.
Proof.
  intros Hne Hincl. split; [exact Hne|].
  intros id Hid. apply Hincl, in_map_iff in Hid as (s & <- & Hs).
  exists s. auto.
Qed.

Lemma longGapFrom_sound (previous : Snapshot) (snapshots : list Snapshot)
  (flag : Flag) :
  In flag (longGapFrom P previous snapshots) -> sound long_gap snapshots flag.
Proof.
  revert previous. induction snapshots as [|current rest IH];
    intros previous; [intros []|].
  cbn [longGapFrom]. rewrite in_app_iff. intros [H|H].
  - destruct (Num.ltb _ _); [destruct H|].
    pose proof (scanWindow_ids
                  (Num.add (timeOf P current) (Some POST_GAP_WINDOW_MS))
                  Snapshot.lines_added (current :: rest)) as Hincl.
    pose proof (scanWindow_opening current POST_GAP_WINDOW_MS
                  Snapshot.lines_added rest) as Hne.
    destruct (scanWindow P _ Snapshot.lines_added (current :: rest))
      as [linesAddedAfterGap relevantSnapshotIds].
    destruct (linesAddedAfterGap >=? POST_GAP_LINE_THRESHOLD);
      [|destruct H].
    destruct H as [<-|[]]. split; [reflexivity|].
    apply ids_reference; cbn [Flag.snapshotIds snd] in *; [|exact Hincl].
    apply Hne. unfold POST_GAP_WINDOW_MS. lia.
  - apply sound_weaken with rest; [apply incl_tl, incl_refl|]. by apply IH with current.
Qed.

Lemma detectLongGapThenCompletion_sound (snapshots : list Snapshot)
  (flag : Flag) :
  In flag (detectLongGapThenCompletion P snapshots) ->
  sound long_gap snapshots flag.
Proof.
  destruct snapshots as [|first rest]; [intros []|]. cbn. intros H.
  apply sound_weaken with rest; [apply incl_tl, incl_refl|].
  by apply longGapFrom_sound with first.
Qed.

Lemma unusualSpeedFrom_sound (flaggedWindows : gset string)
  (snapshots : list Snapshot) (flag : Flag) :
  In flag (unusualSpeedFrom P flaggedWindows snapshots) ->
  sound unusual_typing_speed snapshots flag.
Proof.
  revert flaggedWindows. induction snapshots as [|start rest IH];
    intros flaggedWindows; [intros []|].
  cbn [unusualSpeedFrom].
  pose proof (scanWindow_ids
                (Num.add (timeOf P start) (Some SPEED_WINDOW_MS))
                Snapshot.change_size (start :: rest)) as Hincl.
  destruct (scanWindow P _ Snapshot.change_size (start :: rest))
    as [totalChars windowSnapshotIds].
  assert (Hrest : forall flagged,
            In flag (unusualSpeedFrom P flagged rest) ->
            sound unusual_typing_speed (start :: rest) flag).
  { intros flagged H. apply sound_weaken with rest; [apply incl_tl, incl_refl|].
    by apply IH with flagged. }
  destruct (Qle_bool _ _); cbn [andb]; [|by apply Hrest].
  destruct (Z.geb_spec (len windowSnapshotIds) 2) as [Hlen|_];
    [|by apply Hrest].
  destruct (bool_decide _); [by apply Hrest|].
  intros [<-|H]; [|by eapply Hrest].
  split; [reflexivity|].
  apply ids_reference; cbn [Flag.snapshotIds snd] in *; [|exact Hincl].
  intros ->. unfold len in Hlen. cbn in Hlen. lia.
Qed.

Lemma detectRapidCompletion_sound (snapshots : list Snapshot) (flag : Flag) :
  In flag (detectRapidCompletion P snapshots) ->
  sound rapid_completion snapshots flag.
Proof.
  unfold detectRapidCompletion.
  destruct (Z.ltb_spec (len snapshots) 2) as [|Hlen]; [intros []|].
  destruct (snapshots !! 0%nat); [|intros []].
  destruct (snapshots !! _); [|intros []].
  destruct (_ && _); [|intros []]. intros [<-|[]].
  split; [reflexivity|].
  apply (referencesInput_map snapshots snapshots); [reflexivity| |].
  - intros ->. unfold len in Hlen. cbn in Hlen. lia.
  - by apply incl_refl.
Qed.

(** Every flag of [analyze] comes from one rule and is sound for it. *)
Lemma analyze_sound (snapshots : list Snapshot) (flag : Flag) :
  In flag (analyze P snapshots) ->
  exists category, sound category snapshots flag.
Proof.
  unfold analyze. destruct (len snapshots =? 0); [intros []|].
  rewrite !in_app_iff.
  intros [H|[H|[H|[H|[H|[H|H]]]]]]; eexists.
  - by apply detectLargePaste_sound.
  - by apply detectFullyFormedCode_sound.
  - by apply detectLongGapThenCompletion_sound.
  - by apply detectStyleInconsistency_sound.
  - by apply detectNoDebugging_sound.
  - by apply unusualSpeedFrom_sound with ∅.
  - by apply detectRapidCompletion_sound.
Qed.

(** C10.  Every flag [analyze] returns has a list of snapshot ids that is
    not empty, and each id in it is the id of a snapshot of the input. *)
Theorem analyze_flags_reference_input (snapshots : list Snapshot)
  (flag : Flag) :
  In flag (analyze P snapshots) ->
  Flag.snapshotIds flag <> []
  /\ forall id, In id (Flag.snapshotIds flag) ->
        exists snapshot, In snapshot snapshots /\ Snapshot.id snapshot = id.
Proof.
  intros H. destruct (analyze_sound snapshots flag H) as (category & _ & Href).
  exact Href.
Qed.

(** *** Categories *)

Lemma ofCategory_app (category : FlagCategory) (xs ys : list Flag) :
  ofCategory category (xs ++ ys)
  = ofCategory category xs ++ ofCategory category ys.
Proof. apply List.filter_app. Qed.

Lemma ofCategory_other (category other : FlagCategory)
  (snapshots : list Snapshot) (flags : list Flag) :
  (forall flag, In flag flags -> sound other snapshots flag) ->
  FlagCategory_eqb other category = false ->
  ofCategory category flags = [].
Proof.
  intros Hsound Hne. induction flags as [|flag rest IH]; [reflexivity|].
  cbn. destruct (Hsound flag (or_introl eq_refl)) as [-> _]. rewrite Hne.
  apply IH. intros f Hf. apply Hsound. by right.
Qed.

Lemma fold_left_sum {A} (f : A -> Z) (xs : list A) (start : Z) :
  fold_left (fun sum x => sum + f x) xs start = start + sumZ (map f xs).
Proof.
  revert start. induction xs as [|x rest IH]; intros start.
  - cbn. lia.
  - cbn [fold_left map sumZ fold_right]. rewrite IH.
    fold (sumZ (map f rest)). lia.
Qed.

Lemma ofCategory_rapid_completion (snapshots : list Snapshot) :
  ofCategory rapid_completion (analyze P snapshots)
  = ofCategory rapid_completion (detectRapidCompletion P snapshots).
Proof.
  unfold analyze.
  destruct (Z.eqb_spec (len snapshots) 0) as [E|_].
  { destruct snapshots; [reflexivity|]. unfold len in E. cbn in E. lia. }
  rewrite !ofCategory_app.
  rewrite (ofCategory_other _ large_paste snapshots)
    by (auto using detectLargePaste_sound).
  rewrite (ofCategory_other _ fully_formed_code snapshots)
    by (auto using detectFullyFormedCode_sound).
  rewrite (ofCategory_other _ long_gap snapshots)
    by (auto using detectLongGapThenCompletion_sound).
  rewrite (ofCategory_other _ style_inconsistency snapshots)
    by (auto using detectStyleInconsistency_sound).
  rewrite (ofCategory_other _ no_debugging snapshots)
    by (auto using detectNoDebugging_sound).
  rewrite (ofCategory_other _ unusual_typing_speed snapshots)
    by (intros; try reflexivity; by apply unusualSpeedFrom_sound with ∅).
  reflexivity.
Qed.

(** C7, as the code has it.  Take a sequence in which the time from the
    first snapshot to the last is at most one hour and the lines added
    sum to 200 or more.  If it has two snapshots or more, [analyze]
    returns exactly one rapid-completion flag; it is of low severity
    and references every snapshot of the sequence.  If it has one
    snapshot, [analyze] returns no rapid-completion flag. *)
Theorem rapid_completion_needs_two_snapshots (snapshots : list Snapshot) :
  completedRapidly P snapshots ->
  ((2 <= length snapshots)%nat -> oneRapidCompletionFlag P snapshots)
  /\ ((length snapshots < 2)%nat ->
      ofCategory rapid_completion (analyze P snapshots) = []).
Proof.
  intros (first & final & t0 & t1 & Hfirst & Hfinal & Ht0 & Ht1
          & Helapsed & Htotal).
  split; intros Hlen.
  - unfold oneRapidCompletionFlag. rewrite ofCategory_rapid_completion.
    unfold detectRapidCompletion.
    destruct (Z.ltb_spec (len snapshots) 2) as [E|_]; [unfold len in E; lia|].
    rewrite head_lookup in Hfirst. rewrite last_lookup in Hfinal.
    rewrite Hfirst.
    replace (length snapshots - 1)%nat with (Init.Nat.pred (length snapshots))
      by lia.
    rewrite Hfinal. unfold timeOf. rewrite Ht0, Ht1. cbn [Num.sub Num.leb].
    rewrite fold_left_sum.
    unfold RAPID_COMPLETION_TIME_MS, RAPID_COMPLETION_LINE_THRESHOLD.
    destruct (Z.leb_spec (t1 - t0) (60 * 60 * 1000)); [|lia].
    destruct (Z.geb_spec (0 + sumZ (map Snapshot.lines_added snapshots)) 200);
      [|lia].
    cbn. eexists. split; [reflexivity|]. split; reflexivity.
  - rewrite ofCategory_rapid_completion. unfold detectRapidCompletion.
    destruct (Z.ltb_spec (len snapshots) 2) as [_|E]; [reflexivity|].
    unfold len in E. lia.
Qed.

Lemma analyze_fully_formed (snapshots : list Snapshot) (flag : Flag) :
  In flag (analyze P snapshots) ->
  Flag.category flag = fully_formed_code ->
  In flag (detectFullyFormedCode snapshots).
Proof.
  unfold analyze. destruct (len snapshots =? 0); [intros []|].
  rewrite !in_app_iff. intros H Hcat.
  assert (Hno : forall other, sound other snapshots flag ->
                  FlagCategory_eqb other fully_formed_code = false -> False).
  { intros other [Hc _] Hne. rewrite Hc in Hcat. subst other. discriminate. }
  destruct H as [H|[H|[H|[H|[H|[H|H]]]]]]; [exfalso|exact H|exfalso..].
  - by eapply Hno; [apply detectLargePaste_sound|].
  - by eapply Hno; [apply detectLongGapThenCompletion_sound|].
  - by eapply Hno; [apply detectStyleInconsistency_sound|].
  - by eapply Hno; [apply detectNoDebugging_sound|].
  - by eapply Hno; [apply unusualSpeedFrom_sound with ∅|].
  - by eapply Hno; [apply detectRapidCompletion_sound|].
Qed.

(** C2, as the code has it.  When a file receives one snapshot only, a
    paste that adds 42 lines, [analyze] returns a large-paste flag of
    medium severity keyed to that snapshot, and no fully-formed-code
    flag for that file. *)
Theorem paste_of_42_lines_is_large_paste_only
  (before after : list Snapshot) (snapshot : Snapshot) :
  Snapshot.change_type snapshot = Paste ->
  Snapshot.lines_added snapshot = 42 ->
  (forall other, In other (before ++ after) ->
     Snapshot.filename other <> Snapshot.filename snapshot) ->
  let flags := analyze P (before ++ snapshot :: after) in
  hasFlag large_paste medium [Snapshot.id snapshot] flags
  /\ forall flag, In flag flags ->
       Flag.category flag = fully_formed_code ->
       Flag.filename flag <> Snapshot.filename snapshot.
Proof.
  intros Hpaste Hlines Hother flags. split.
  - exists {| Flag.category := large_paste;
              Flag.severity := medium;
              Flag.timestamp := Snapshot.timestamp snapshot;
              Flag.filename := Snapshot.filename snapshot;
              Flag.snapshotIds := [Snapshot.id snapshot] |}.
    split; [|repeat split].
    subst flags. unfold analyze.
    destruct (Z.eqb_spec (len (before ++ snapshot :: after)) 0) as [E|_].
    { unfold len in E. rewrite length_app in E. cbn in E. lia. }
    apply in_app_iff. left. apply detectLargePaste_In.
    exists snapshot. split; [apply in_elt|]. split; [lia|]. split; [exact Hpaste|].
    reflexivity.
  - intros flag Hflag Hcat Hname.
    apply analyze_fully_formed in Hflag; [|exact Hcat].
    apply detectFullyFormedCode_In in Hflag as (s & Hs & Hge & ->).
    cbn in Hname. apply in_app_iff in Hs as [Hs|[<-|Hs]].
    + apply (Hother s); [apply in_app_iff; by left|exact Hname].
    + lia.
    + apply (Hother s); [apply in_app_iff; by right|exact Hname].
Qed.

End WithPlatform.
End FlagAnalyzerProofs.

Module FlagAnalyzerExamples.
Import FlagAnalyzer FlagAnalyzerSpec FlagAnalyzerProofs Demo Scenario.

(** C2, as specified, fails: the one snapshot is a paste of 42
    lines, and no flag of [analyze] is a fully-formed-code flag. *)
Lemma paste_of_42_lines_is_not_fully_formed :
  let pasted := snapshotA Paste 42 in
  let flags := analyze platform [pasted] in
  ~ (hasFlag large_paste medium [Snapshot.id pasted] flags
     /\ hasFlag fully_formed_code high [Snapshot.id pasted] flags).
Proof.
  cbv zeta. intros [_ (flag & Hin & Hcat & _)].
  vm_compute in Hin. destruct Hin as [<-|[]]. discriminate Hcat.
Qed.

Lemma paste_of_42_lines_is_large_paste_only_witness :
  let pasted := snapshotA Paste 42 in
  hasFlag large_paste medium [Snapshot.id pasted] (analyze platform [pasted])
  /\ ofCategory fully_formed_code (analyze platform [pasted]) = [].
Proof.
  cbv zeta. split; [|reflexivity].
  apply (paste_of_42_lines_is_large_paste_only platform [] []
           (snapshotA Paste 42)).
  - reflexivity.
  - reflexivity.
  - intros other [].
Defined.

(** C7, as specified, fails: one snapshot that adds 200 lines is
    a sequence completed within the hour, and [analyze] returns no
    rapid-completion flag for it. *)
Lemma single_snapshot_is_not_rapid_completion :
  let bulk := snapshotA Typing 200 in
  completedRapidly platform [bulk]
  /\ ~ oneRapidCompletionFlag platform [bulk].
Proof.
  cbv zeta. split.
  - exists (snapshotA Typing 200), (snapshotA Typing 200).
    eexists. eexists. repeat split; try reflexivity; vm_compute; discriminate.
  - intros (flag & Hflags & _). vm_compute in Hflags. discriminate Hflags.
Qed.

Lemma rapid_completion_needs_two_snapshots_witness :
  oneRapidCompletionFlag platform [snapshotA Typing 150; snapshotA Paste 50].
Proof.
  apply (rapid_completion_needs_two_snapshots platform
           [snapshotA Typing 150; snapshotA Paste 50]).
  - exists (snapshotA Typing 150), (snapshotA Paste 50).
    eexists. eexists. repeat split; try reflexivity; vm_compute; discriminate.
  - cbn. lia.
Defined.

Lemma analyze_flags_reference_input_witness :
  let pasted := snapshotA Paste 42 in
  [Snapshot.id pasted] <> []
  /\ forall id,
       In id [Snapshot.id pasted] ->
       exists snapshot, In snapshot [pasted] /\ Snapshot.id snapshot = id.
Proof.
  cbv zeta.
  apply (analyze_flags_reference_input platform [snapshotA Paste 42]
           {| Flag.category := large_paste;
              Flag.severity := medium;
              Flag.timestamp := Snapshot.timestamp (snapshotA Paste 42);
              Flag.filename := "a.py";
              Flag.snapshotIds := [Snapshot.id (snapshotA Paste 42)] |}).
  vm_compute. by left.
Defined.

End FlagAnalyzerExamples.

(** * Further properties *)

(** ** The store: snapshots *)

Module StorageFacts.
Import SnapshotStorage SnapshotStorageSpec.

Lemma insertByKey_perm {A} (key : A -> string) (row : A) (rows : list A) :
  Permutation (insertByKey key row rows) (row :: rows).
Proof.
  induction rows as [|other rest IH]; cbn; [reflexivity|].
  destruct (String.leb _ _); [reflexivity|].
  rewrite IH. apply perm_swap.
Qed.

Lemma orderByKey_perm {A} (key : A -> string) (rows : list A) :
  Permutation (orderByKey key rows) rows.
Proof.
  induction rows as [|row rest IH]; cbn; [reflexivity|].
  rewrite insertByKey_perm. by constructor.
Qed.

Lemma keyLe_trans {A} (key : A -> string) (a b c : A) :
  keyLe key a b -> keyLe key b c -> keyLe key a c.
Proof.
  unfold keyLe. intros H1 H2.
  apply Is_true_true. apply Is_true_true in H1, H2.
  exact (@transitivity _ String.le _ _ _ _ H1 H2).
Qed.

Lemma insertByKey_sorted {A} (key : A -> string) (row : A) (rows : list A) :
  StronglySorted (keyLe key) rows ->
  StronglySorted (keyLe key) (insertByKey key row rows).
Proof.
  induction 1 as [|other rest Hs IH Hall]; cbn.
  - repeat constructor.
  - destruct (String.leb (key row) (key other)) eqn:E.
    + constructor; [by constructor|].
      constructor; [exact E|].
      eapply Forall_impl; [exact Hall|].
      intros c Hc. eapply keyLe_trans; [exact E|exact Hc].
    + constructor; [exact IH|].
      rewrite insertByKey_perm. constructor; [|exact Hall].
      destruct (String.leb_total (key row) (key other)) as [H|H];
        [congruence|exact H].
Qed.

Lemma orderByKey_sorted {A} (key : A -> string) (rows : list A) :
  StronglySorted (keyLe key) (orderByKey key rows).
Proof.
  induction rows as [|row rest IH]; cbn; [constructor|].
  by apply insertByKey_sorted.
Qed.

(** Rows that are in order already stay as they are. *)
Lemma orderByTimestamp_sorted_id (rows : list Snapshot) :
  StronglySorted timestampLe rows -> orderByTimestamp rows = rows.
Proof.
  induction 1 as [|row rest Hs IH Hall]; [reflexivity|].
  cbn. fold (orderByTimestamp rest). rewrite IH.
  destruct rest as [|other rest']; [reflexivity|].
  cbn. apply Forall_cons_1 in Hall as [Hle _].
  unfold timestampLe in Hle. by rewrite Hle.
Qed.


Lemma existsb_id_In (snapshot : Snapshot) (rows : list Snapshot) :
  existsb (fun row => String.eqb (Snapshot.id row) (Snapshot.id snapshot)) rows
  = true
  <-> In (Snapshot.id snapshot) (map Snapshot.id rows).
Proof.
  rewrite existsb_exists, in_map_iff. split.
  - intros (row & Hrow & E). apply String.eqb_eq in E. eauto.
  - intros (row & E & Hrow). exists row. split; [exact Hrow|].
    by apply String.eqb_eq.
Qed.

(** X1.  [saveSnapshot] throws exactly when the id is taken, and then
    leaves the database as it was.  Otherwise it returns, the new rows
    are the old ones and the snapshot, the count grows by one, the
    sessions are untouched, and the ids stay distinct. *)
Theorem saveSnapshot_inserts_or_rejects (snapshot : Snapshot)
  (db : SnapshotStorage.t) :
  let taken := In (Snapshot.id snapshot) (map Snapshot.id (snapshots db)) in
  let result := fst (saveSnapshot snapshot db) in
  let db' := snd (saveSnapshot snapshot db) in
  (taken -> (exists error, result = Throw error) /\ db' = db)
  /\ (~ taken ->
      result = Normal tt
      /\ Permutation (getSnapshots db') (snapshot :: getSnapshots db)
      /\ getSnapshotCount db' = getSnapshotCount db + 1
      /\ sessions db' = sessions db
      /\ (List.NoDup (map Snapshot.id (snapshots db)) ->
          List.NoDup (map Snapshot.id (snapshots db')))).
Proof.
  cbv zeta. unfold saveSnapshot.
  destruct (existsb _ (snapshots db)) eqn:E.
  - apply existsb_id_In in E. split; [|contradiction].
    intros _. cbn. eauto.
  - assert (Hfree : ~ In (Snapshot.id snapshot) (map Snapshot.id (snapshots db))).
    { intros H. apply existsb_id_In in H. congruence. }
    split; [contradiction|]. intros _. cbn.
    split; [reflexivity|]. split; [|split; [|split; [reflexivity|]]].
    + unfold getSnapshots. cbn.
      rewrite !SnapshotStorageProofs.orderByTimestamp_perm.
      rewrite Permutation_app_comm. reflexivity.
    + unfold getSnapshotCount, len. cbn. rewrite length_app. cbn. lia.
    + intros Hnodup. rewrite map_app. cbn.
      apply NoDup_ListNoDup, NoDup_app. apply NoDup_ListNoDup in Hnodup.
      split; [exact Hnodup|]. split; [|apply NoDup_singleton].
      intros id Hid ->%list_elem_of_singleton.
      apply Hfree. by apply list_elem_of_In.
Qed.

Lemma orderByTimestamp_as_key (rows : list Snapshot) :
  orderByTimestamp rows = orderByKey Snapshot.timestamp rows.
Proof.
  unfold orderByTimestamp, orderByKey.
  induction rows as [|row rest IH]; [reflexivity|]. cbn. rewrite IH.
  generalize (foldr (insertByKey Snapshot.timestamp) [] rest) as sorted.
  induction sorted as [|other more IHs]; [reflexivity|].
  cbn. by rewrite IHs.
Qed.


Lemma filter_sorted {A} (R : A -> A -> Prop) (f : A -> bool) (xs : list A) :
  StronglySorted R xs -> StronglySorted R (List.filter f xs).
Proof.
  induction 1 as [|x rest Hs IH Hall]; cbn; [constructor|].
  destruct (f x); [|exact IH]. constructor; [exact IH|].
  apply List.Forall_forall. intros y (Hy & _)%filter_In.
  rewrite List.Forall_forall in Hall. by apply Hall.
Qed.

Lemma ltb_irrefl (s : string) : String.ltb s s = false.
Proof.
  unfold String.ltb.
  assert (String.compare s s = Eq) as ->; [|reflexivity].
  induction s as [|c s IH]; [reflexivity|]. cbn.
  assert (Ascii.compare c c = Eq) as ->; [|exact IH].
  unfold Ascii.compare. apply N.compare_refl.
Qed.


(** *** Distinct names *)

Lemma existsb_eqb_In (name : string) (seen : list string) :
  existsb (String.eqb name) seen = true <-> In name seen.
Proof.
  rewrite existsb_exists. split.
  - intros (x & Hx & ->%String.eqb_eq). exact Hx.
  - intros H. exists name. split; [exact H|apply String.eqb_refl].
Qed.

Lemma distinct_In (seen names : list string) (name : string) :
  In name (distinct seen names) <-> In name names /\ ~ In name seen.
Proof.
  revert seen. induction names as [|first rest IH]; intros seen; cbn.
  - tauto.
  - destruct (existsb (String.eqb first) seen) eqn:E.
    + apply existsb_eqb_In in E. rewrite IH. split.
      * intros [H1 H2]. auto.
      * intros [[<-|H1] H2]; [contradiction|auto].
    + assert (Hfree : ~ In first seen).
      { intros H. apply existsb_eqb_In in H. congruence. }
      cbn. rewrite IH. cbn. split.
      * intros [<-|[H1 H2]]; [auto|]. split; [by right|]. tauto.
      * intros [[<-|H1] H2]; [by left|].
        destruct (String.eqb_spec first name) as [->|Hne]; [by left|].
        right. split; [exact H1|]. intros [E'|H]; [by apply Hne|by apply H2].
Qed.

Lemma distinct_NoDup (seen names : list string) :
  List.NoDup (distinct seen names).
Proof.
  revert seen. induction names as [|first rest IH]; intros seen; cbn.
  - constructor.
  - destruct (existsb (String.eqb first) seen); [apply IH|].
    constructor; [|apply IH].
    intros H. apply distinct_In in H as [_ H]. apply H. by left.
Qed.

Lemma distinct_length (seen names : list string) :
  (length (distinct seen names) <= length names)%nat.
Proof.
  revert seen. induction names as [|first rest IH]; intros seen; cbn; [lia|].
  destruct (existsb _ seen); cbn.
  - specialize (IH seen). lia.
  - specialize (IH (first :: seen)). lia.
Qed.

(** X3.  [getDistinctFileCount] is the number of different file names
    among the stored snapshots: the length of a list without
    repetition that holds exactly those names.  It is at most the
    snapshot count, and zero only for an empty table. *)
Theorem getDistinctFileCount_counts_names (db : SnapshotStorage.t) :
  (exists names,
     List.NoDup names
     /\ (forall name, In name names <->
           exists row, In row (snapshots db) /\ Snapshot.filename row = name)
     /\ getDistinctFileCount db = len names)
  /\ 0 <= getDistinctFileCount db <= getSnapshotCount db
  /\ (getDistinctFileCount db = 0 <-> snapshots db = []).
Proof.
  unfold getDistinctFileCount, getSnapshotCount. split; [|split].
  - exists (distinct [] (map Snapshot.filename (snapshots db))).
    split; [apply distinct_NoDup|]. split; [|reflexivity].
    intros name. rewrite distinct_In, in_map_iff. cbn.
    split; [intros [(row & E & H) _]; eauto|intros (row & H & E); eauto].
  - unfold len.
    pose proof (distinct_length [] (map Snapshot.filename (snapshots db))).
    rewrite length_map in H. lia.
  - destruct (snapshots db) as [|row rest]; cbn; [tauto|].
    unfold len. cbn. split; [lia|discriminate].
Qed.

(** *** Sessions *)

Lemma updateSession_other (sessionId : string) (f : Session -> Session)
  (rows : list Session) :
  (forall row, In row rows -> Session.id row <> sessionId) ->
  updateSession sessionId f rows = rows.
Proof.
  induction rows as [|row rest IH]; intros H; [reflexivity|]. cbn.
  destruct (String.eqb_spec (Session.id row) sessionId) as [E|_].
  - exfalso. apply (H row); [by left|exact E].
  - f_equal. apply IH. intros r Hr. apply H. by right.
Qed.

(** X4.  [endSession] never throws and leaves the snapshots as they
    are.  A session of another id is left as it is (so an unknown id
    changes nothing); each session of the given id gets the end time,
    the number of stored snapshots of the session, and their file
    names, each once. *)
Theorem endSession_recomputes_aggregates (sessionId now : string)
  (db : SnapshotStorage.t) :
  let db' := snd (endSession sessionId now db) in
  let ofSession row := Snapshot.session_id row = sessionId in
  fst (endSession sessionId now db) = Normal tt
  /\ snapshots db' = snapshots db
  /\ length (sessions db') = length (sessions db)
  /\ (forall i row,
        sessions db !! i = Some row ->
        Session.id row <> sessionId ->
        sessions db' !! i = Some row)
  /\ (forall i row,
        sessions db !! i = Some row ->
        Session.id row = sessionId ->
        exists closed,
          sessions db' !! i = Some closed
          /\ Session.id closed = sessionId
          /\ Session.started_at closed = Session.started_at row
          /\ Session.project_name closed = Session.project_name row
          /\ Session.ended_at closed = now
          /\ Session.total_snapshots closed
             = len (List.filter
                      (fun row => String.eqb (Snapshot.session_id row) sessionId)
                      (snapshots db))
          /\ List.NoDup (Session.files_touched closed)
          /\ (forall name, In name (Session.files_touched closed) <->
                exists snapshot,
                  In snapshot (snapshots db)
                  /\ ofSession snapshot
                  /\ Snapshot.filename snapshot = name))
  /\ ((forall row, In row (sessions db) -> Session.id row <> sessionId) ->
      db' = db).
Proof.
  cbv zeta. unfold endSession. cbn.
  split; [reflexivity|]. split; [reflexivity|].
  split; [unfold updateSession; by rewrite length_map|].
  split; [|split].
  - intros i row Hi Hne. unfold updateSession.
    rewrite list_lookup_fmap, Hi. cbn.
    by destruct (String.eqb_spec (Session.id row) sessionId).
  - intros i row Hi E. unfold updateSession.
    rewrite list_lookup_fmap, Hi. cbn.
    destruct (String.eqb_spec (Session.id row) sessionId); [|contradiction].
    eexists. split; [reflexivity|]. cbn.
    repeat split; try assumption; try reflexivity.
    + apply distinct_NoDup.
    + intros (Hname & _)%distinct_In. revert Hname. clear.
      intros (snapshot & E & (Hs & Hf)%filter_In)%in_map_iff.
      apply String.eqb_eq in Hf. eauto.
    + intros (snapshot & Hs & Hf & E'). apply distinct_In.
      split; [|intros []]. apply in_map_iff. exists snapshot.
      split; [exact E'|]. apply filter_In. split; [exact Hs|].
      by apply String.eqb_eq.
  - intros Hnone. rewrite updateSession_other by exact Hnone.
    by destruct db.
Qed.

Lemma ltb_leb (a b : string) : String.ltb a b = true -> String.leb a b = true.
Proof. unfold String.ltb, String.leb. by destruct (String.compare a b). Qed.

Lemma not_ltb_leb (a b : string) :
  String.ltb a b = false -> String.leb b a = true.
Proof.
  unfold String.ltb, String.leb. rewrite (String.compare_antisym b a).
  by destruct (String.compare a b).
Qed.

Lemma latestStarted_greatest (best : Session) (rows : list Session) :
  In (latestStarted best rows) (best :: rows)
  /\ forall row, In row (best :: rows) ->
       keyLe Session.started_at row (latestStarted best rows).
Proof.
  revert best. induction rows as [|row rest IH]; intros best; cbn.
  - split; [by left|]. intros r [<-|[]]. unfold keyLe.
    apply not_ltb_leb, ltb_irrefl.
  - destruct (String.ltb (Session.started_at best) (Session.started_at row))
      eqn:E; destruct (IH row) as [Hin1 Hmax1];
      destruct (IH best) as [Hin2 Hmax2].
    + split; [by right|]. intros r [<-|Hr]; [|by apply Hmax1].
      eapply keyLe_trans; [|apply Hmax1; by left].
      unfold keyLe. by apply ltb_leb.
    + split.
      * destruct Hin2 as [H|H]; [by left|by do 2 right].
      * intros r [<-|[<-|Hr]].
        -- apply Hmax2. by left.
        -- eapply keyLe_trans; [|apply Hmax2; by left].
           unfold keyLe. by apply not_ltb_leb.
        -- apply Hmax2. by right.
Qed.

(** X5.  [getCurrentSession] returns null exactly when no session is
    open; otherwise it returns an open session that no open session
    was started after.  Once [endSession] has closed a session at a
    time that is not the empty string, that session is no longer
    returned. *)
Theorem getCurrentSession_is_latest_open (db : SnapshotStorage.t)
  (sessionId now : string) :
  (getCurrentSession db = None <->
     forall row, In row (sessions db) -> Session.ended_at row <> "")
  /\ (forall current,
        getCurrentSession db = Some current ->
        In current (sessions db)
        /\ Session.ended_at current = ""
        /\ forall row,
             In row (sessions db) -> Session.ended_at row = "" ->
             keyLe Session.started_at row current)
  /\ (now <> "" ->
      forall current,
        getCurrentSession (snd (endSession sessionId now db)) = Some current ->
        Session.id current <> sessionId).
Proof.
  assert (Hopen : forall d row,
    In row (List.filter (fun row => String.eqb (Session.ended_at row) "")
                        (sessions d))
    <-> In row (sessions d) /\ Session.ended_at row = "").
  { intros d row. rewrite filter_In, String.eqb_eq. reflexivity. }
  assert (Hsome : forall d current,
    getCurrentSession d = Some current ->
    In current (sessions d)
    /\ Session.ended_at current = ""
    /\ forall row,
         In row (sessions d) -> Session.ended_at row = "" ->
         keyLe Session.started_at row current).
  { intros d current. unfold getCurrentSession.
    pose proof (Hopen d) as Hd.
    destruct (List.filter _ (sessions d)) as [|first rest]; [discriminate|].
    intros [= <-].
    destruct (latestStarted_greatest first rest) as [Hin Hmax].
    apply Hd in Hin as [Hin Hended]. split; [exact Hin|].
    split; [exact Hended|]. intros row Hrow Hrow'. apply Hmax.
    apply Hd. auto. }
  split; [|split].
  - unfold getCurrentSession. pose proof (Hopen db) as Hd.
    destruct (List.filter _ (sessions db)) as [|first rest].
    + split; [|reflexivity]. intros _ row Hrow E.
      apply (proj2 (Hd row)). auto.
    + split; [discriminate|]. intros Hnone. exfalso.
      destruct (proj1 (Hd first) (or_introl eq_refl)) as [Hin E].
      by apply (Hnone first).
  - apply Hsome.
  - intros Hnow current Hcurrent E.
    apply Hsome in Hcurrent as (Hin & Hended & _).
    unfold endSession in Hin. cbn in Hin. unfold updateSession in Hin.
    apply in_map_iff in Hin as (row & Hrow & _).
    destruct (String.eqb_spec (Session.id row) sessionId) as [_|Hne].
    + subst current. cbn in Hended. contradiction.
    + subst current. contradiction.
Qed.

End StorageFacts.

(** ** The store: flags *)

Module FlagTableFacts.
Import SnapshotStorage.

Lemma in_saveFlag (flag row : FlagWithContext) (table : FlagTable) :
  In row (saveFlag flag table) <->
  row = flag
  \/ (In row table /\ FlagWithContext.id row <> FlagWithContext.id flag).
Proof.
  unfold saveFlag. rewrite in_app_iff, filter_In, negb_true_iff. cbn.
  rewrite String.eqb_neq. split.
  - intros [H|[<-|[]]]; [by right|by left].
  - intros [->|H]; [right; by left|by left].
Qed.

(** X6.  [saveFlag] is an upsert by id: afterwards the table holds the
    flag, it is the only row of its id, and the rows of other ids are
    those that were there; saving the same id again replaces the row,
    so the last save wins and saving twice is saving once. *)
Theorem saveFlag_upserts (flag : FlagWithContext) (table : FlagTable) :
  In flag (saveFlag flag table)
  /\ (forall row,
        In row (saveFlag flag table) ->
        FlagWithContext.id row = FlagWithContext.id flag -> row = flag)
  /\ (forall row,
        FlagWithContext.id row <> FlagWithContext.id flag ->
        (In row (saveFlag flag table) <-> In row table))
  /\ length (List.filter
               (fun row => String.eqb (FlagWithContext.id row)
                                      (FlagWithContext.id flag))
               (saveFlag flag table)) = 1%nat
  /\ (forall earlier,
        FlagWithContext.id earlier = FlagWithContext.id flag ->
        saveFlag flag (saveFlag earlier table) = saveFlag flag table)
  /\ (List.NoDup (map FlagWithContext.id table) ->
      List.NoDup (map FlagWithContext.id (saveFlag flag table))).
Proof.
  split; [apply in_saveFlag; by left|].
  split; [intros row [->|[_ Hne]]%in_saveFlag E; [reflexivity|contradiction]|].
  split.
  { intros row Hne. rewrite in_saveFlag. split.
    - intros [->|[H _]]; [contradiction|exact H].
    - intros H. right. auto. }
  split.
  { unfold saveFlag. rewrite List.filter_app. cbn.
    rewrite String.eqb_refl, length_app. cbn.
    assert (List.filter
              (fun row => String.eqb (FlagWithContext.id row)
                                     (FlagWithContext.id flag))
              (List.filter
                 (fun row => negb (String.eqb (FlagWithContext.id row)
                                              (FlagWithContext.id flag)))
                 table) = []) as ->; [|reflexivity].
    induction table as [|row rest IH]; [reflexivity|]. cbn.
    destruct (String.eqb (FlagWithContext.id row) (FlagWithContext.id flag))
      eqn:E; cbn; [exact IH|]. by rewrite E. }
  split.
  { intros earlier E. unfold saveFlag. rewrite List.filter_app. cbn.
    rewrite E, String.eqb_refl. cbn. rewrite app_nil_r. f_equal.
    induction table as [|row rest IH]; [reflexivity|]. cbn.
    destruct (String.eqb (FlagWithContext.id row) (FlagWithContext.id flag))
      eqn:E'; cbn; [exact IH|]. rewrite E'. cbn. by rewrite IH. }
  intros Hnodup. unfold saveFlag. rewrite map_app. cbn.
  apply NoDup_ListNoDup, NoDup_app. split; [|split].
  - apply NoDup_ListNoDup. revert Hnodup. clear.
    induction table as [|row rest IH]; cbn; intros H; [constructor|].
    inversion H as [|? ? Hfree Hrest]; subst.
    destruct (negb _); [|by apply IH]. cbn. constructor; [|by apply IH].
    intros (r & E & (Hr & _)%filter_In)%in_map_iff. apply Hfree.
    apply in_map_iff. eauto.
  - intros id Hid ->%list_elem_of_singleton.
    apply list_elem_of_In, in_map_iff in Hid as (r & E & (_ & Hr)%filter_In).
    apply negb_true_iff, String.eqb_neq in Hr. contradiction.
  - apply NoDup_singleton.
Qed.

(** X7.  [getFlags()] returns every row of the table, in ascending
    order of timestamp.  [getFlags(sessionId)] returns, in the same
    order, the rows that reference some snapshot of that session; an
    empty session id is no filter. *)
Theorem getFlags_by_session (sessionId : string) (db : SnapshotStorage.t)
  (table : FlagTable) :
  Permutation (getFlags None db table) table
  /\ StronglySorted (keyLe FlagWithContext.timestamp) (getFlags None db table)
  /\ getFlags (Some "") db table = getFlags None db table
  /\ (sessionId <> "" ->
      StronglySorted (keyLe FlagWithContext.timestamp)
                     (getFlags (Some sessionId) db table)
      /\ forall row,
           In row (getFlags (Some sessionId) db table) <->
           In row table
           /\ exists snapshot,
                In snapshot (snapshots db)
                /\ Snapshot.session_id snapshot = sessionId
                /\ In (Snapshot.id snapshot) (FlagWithContext.snapshotIds row)).
Proof.
  split; [apply StorageFacts.orderByKey_perm|].
  split; [apply StorageFacts.orderByKey_sorted|].
  split; [reflexivity|].
  intros Hne. unfold getFlags.
  destruct (String.eqb_spec sessionId ""); [contradiction|]. split.
  - apply StorageFacts.filter_sorted, StorageFacts.orderByKey_sorted.
  - intros row. rewrite filter_In.
    assert (In row (orderByKey FlagWithContext.timestamp table) <-> In row table)
      as ->.
    { split; apply Permutation_in; [|symmetry];
        apply StorageFacts.orderByKey_perm. }
    rewrite existsb_exists. split.
    + intros (Hrow & id & Hid & Hset). split; [exact Hrow|].
      apply existsb_exists in Hset as (id' & Hid' & ->%String.eqb_eq).
      apply in_map_iff in Hid' as (snapshot & <- & (Hs & E)%filter_In).
      apply String.eqb_eq in E. eauto.
    + intros (Hrow & snapshot & Hs & E & Hid). split; [exact Hrow|].
      exists (Snapshot.id snapshot). split; [exact Hid|].
      apply existsb_exists. exists (Snapshot.id snapshot).
      split; [|apply String.eqb_refl]. apply in_map_iff. exists snapshot.
      split; [reflexivity|]. apply filter_In. split; [exact Hs|].
      by apply String.eqb_eq.
Qed.

End FlagTableFacts.

(** ** The engine: ticks, edits, pause, stop *)

Module EngineFacts.
Import Engine EngineSpec EngineProofs.

Section WithPlatform.
Variable P : Platform.

Lemma processSnapshots_unpaused (ed : Editor) (this : SnapshotEngine) :
  isPaused this = false ->
  exists looped,
    processSnapshots P ed this = (Normal tt, set_pendingChanges [] looped)
    /\ looped
       = snd (for_of (pendingChanges this)
                (fun '(filePath, pending) =>
                   try_catch (emitSnapshot P ed filePath pending)
                     (consoleError
                        ("[CodeProof] Error processing snapshot for "
                           +:+ filePath +:+ ":")))
                this)
    /\ (pendingChanges this = [] -> looped = this).
Proof.
  intros Hpaused. unfold processSnapshots, bind, get. rewrite Hpaused.
  cbn [orb].
  destruct (pendingChanges this) as [|entry rest] eqn:Hentries.
  { exists this. cbn. split; [|split; reflexivity].
    f_equal. destruct this. cbn in *. by subst. }
  rewrite len_cons_eqb.
  match goal with
  | |- context [for_of ?xs ?b this] =>
      assert (Hnormal : fst (for_of xs b this) = Normal tt)
        by (apply for_of_normal; intros [f p] s; apply try_catch_logged);
      destruct (for_of xs b this) as [r looped] eqn:Hfor
  end.
  cbn in Hnormal. subst r. exists looped. cbn.
  split; [reflexivity|]. split; [reflexivity|discriminate].
Qed.

(** X8.  A tick of a paused engine does nothing.  A tick of an engine
    that is not paused returns normally, fires one snapshot for each
    pending path whose document is open, differs from its baseline and
    can be diffed, in the order the paths became pending, and fires
    nothing else; afterwards no entry is pending, also for the paths
    that gave no snapshot. *)
Theorem tick_emits_once_per_changed_file (ed : Editor)
  (this : SnapshotEngine) :
  List.NoDup (map fst (pendingChanges this)) ->
  (isPaused this = true -> processSnapshots P ed this = (Normal tt, this))
  /\ (isPaused this = false ->
      fst (processSnapshots P ed this) = Normal tt
      /\ pendingChanges (snd (processSnapshots P ed this)) = []
      /\ exists emitted,
           fired (snd (processSnapshots P ed this)) = fired this ++ emitted
           /\ map Snapshot.filename emitted
              = map (relativeOf P ed)
                    (List.filter (produces P ed this)
                                 (map fst (pendingChanges this)))).
Proof.
  intros Hnodup. split; [apply processSnapshots_paused|].
  intros Hpaused.
  destruct (processSnapshots_unpaused ed this Hpaused)
    as (looped & -> & Hloop & _).
  cbn [fst snd pendingChanges set_pendingChanges fired].
  split; [reflexivity|]. split; [reflexivity|].
  destruct (tick_loop P ed (pendingChanges this) this Hnodup)
    as (emitted & Hfired & Hnames).
  exists emitted. rewrite Hloop. auto.
Qed.

Lemma handleDocumentChange_frame (event : TextDocumentChangeEvent)
  (this : SnapshotEngine) :
  let this' := handleDocumentChange P event this in
  let path := fsPath (uri (document event)) in
  (fired this' = fired this
   /\ storage this' = storage this
   /\ lastChainHash this' = lastChainHash this
   /\ snapshotCount this' = snapshotCount this
   /\ isRunning this' = isRunning this
   /\ isPaused this' = isPaused this
   /\ consoleErrors this' = consoleErrors this)
  /\ (forall other content,
        fileContents this !! other = Some content ->
        fileContents this' !! other = Some content)
  /\ (forall other,
        other <> path ->
        fileContents this' !! other = fileContents this !! other
        /\ OrderedMap.get other (pendingChanges this')
           = OrderedMap.get other (pendingChanges this))
  /\ (delivered P this event = false -> this' = this)
  /\ (delivered P this event = true ->
      is_Some (fileContents this' !! path)
      /\ is_Some (OrderedMap.get path (pendingChanges this'))).
Proof.
  cbv zeta.
  assert (Hpending := handleDocumentChange_pending P event this).
  unfold handleDocumentChange in *. unfold delivered in *.
  destruct (len (contentChanges event) =? 0).
  { cbn. repeat split; auto; discriminate. }
  destruct (String.eqb (scheme (uri (document event))) "file").
  2:{ cbn. repeat split; auto; discriminate. }
  destruct (isExcluded P _ this) eqn:Hex.
  { cbn. repeat split; auto; discriminate. }
  cbn [negb andb] in *.
  set (path := fsPath (uri (document event))) in *.
  destruct (fileContents this !! path) as [recorded|] eqn:Hbase.
  - split.
    { destruct (OrderedMap.get path (pendingChanges this)); cbn; auto 10. }
    split.
    { intros other content H.
      destruct (OrderedMap.get path (pendingChanges this)); exact H. }
    split.
    { intros other Hne. specialize (Hpending other).
      destruct (String.eqb_spec path other); [exfalso; by apply Hne|].
      split; [|exact Hpending].
      destruct (OrderedMap.get path (pendingChanges this)); reflexivity. }
    split; [discriminate|]. intros _. specialize (Hpending path).
    rewrite ?andb_true_r, ?String.eqb_refl in Hpending. split.
    + destruct (OrderedMap.get path (pendingChanges this)); cbn; eauto.
    + rewrite Hpending. unfold accumulate.
      destruct (OrderedMap.get path (pendingChanges this)); eauto.
  - cbn [pendingChanges set_fileContents] in *. split.
    { destruct (OrderedMap.get path (pendingChanges this)); cbn; auto 10. }
    split.
    { intros other content H.
      assert (other <> path) by (intros ->; congruence).
      destruct (OrderedMap.get path (pendingChanges this)); cbn;
        by rewrite lookup_insert_ne. }
    split.
    { intros other Hne. specialize (Hpending other).
      destruct (String.eqb_spec path other); [exfalso; by apply Hne|].
      split; [|exact Hpending].
      destruct (OrderedMap.get path (pendingChanges this)); cbn;
        by rewrite lookup_insert_ne. }
    split; [discriminate|]. intros _. specialize (Hpending path).
    rewrite ?andb_true_r, ?String.eqb_refl in Hpending. split.
    + destruct (OrderedMap.get path (pendingChanges this)); cbn;
        rewrite lookup_insert_eq; eauto.
    + rewrite Hpending. unfold accumulate.
      destruct (OrderedMap.get path (pendingChanges this)); eauto.
Qed.


(** X9.  The change handler only touches the pending entries and the
    baselines.  It fires and stores nothing and leaves the chain
    cursor, the counter and the flags of the engine alone; it never
    replaces a baseline that is recorded; it leaves the entries of
    other paths alone; an event without ranges, of a document that is
    not a file, or of an excluded path changes nothing at all; any
    other event leaves its path with a baseline and a pending entry. *)
Theorem change_handler_only_accumulates (event : TextDocumentChangeEvent)
  (this : SnapshotEngine) :
  let this' := handleDocumentChange P event this in
  let path := fsPath (uri (document event)) in
  (fired this' = fired this
   /\ storage this' = storage this
   /\ lastChainHash this' = lastChainHash this
   /\ snapshotCount this' = snapshotCount this
   /\ isRunning this' = isRunning this
   /\ isPaused this' = isPaused this
   /\ consoleErrors this' = consoleErrors this)
  /\ (forall other content,
        fileContents this !! other = Some content ->
        fileContents this' !! other = Some content)
  /\ (forall other,
        other <> path ->
        fileContents this' !! other = fileContents this !! other
        /\ OrderedMap.get other (pendingChanges this')
           = OrderedMap.get other (pendingChanges this))
  /\ (delivered P this event = false -> this' = this)
  /\ (delivered P this event = true ->
      is_Some (fileContents this' !! path)
      /\ is_Some (OrderedMap.get path (pendingChanges this'))).
Proof. apply handleDocumentChange_frame. Qed.

(** *** Pausing *)

Lemma handleDocumentChange_set_isPaused (event : TextDocumentChangeEvent)
  (paused : bool) (this : SnapshotEngine) :
  handleDocumentChange P event (set_isPaused paused this)
  = set_isPaused paused (handleDocumentChange P event this).
Proof.
  unfold handleDocumentChange.
  destruct (len (contentChanges event) =? 0); [reflexivity|].
  destruct (negb _); [reflexivity|].
  unfold isExcluded. cbn [excludePatterns set_isPaused].
  destruct (existsb _ (excludePatterns this)); [reflexivity|].
  cbn [fileContents set_isPaused].
  destruct (fileContents this !! _); cbn;
    destruct (OrderedMap.get _ (pendingChanges this)); reflexivity.
Qed.

Lemma run_cons (call : Call) (calls : list Call) (this : SnapshotEngine) :
  run P (call :: calls) this = run P calls (step P this call).
Proof. reflexivity. Qed.

Lemma run_while_paused (calls : list Call) (this : SnapshotEngine) :
  forallb isChangeOrTick calls = true ->
  run P calls (set_isPaused true this)
  = set_isPaused true (run P (List.filter isChange calls) this).
Proof.
  revert this. induction calls as [|call rest IH]; intros this Hcalls;
    [reflexivity|].
  cbn [forallb] in Hcalls. apply andb_true_iff in Hcalls as [Hcall Hrest].
  rewrite run_cons. destruct call; try discriminate Hcall.
  - cbn [step List.filter isChange changeListener set_isPaused].
    rewrite run_cons. cbn [step].
    destruct (changeListener this); [|by apply IH].
    rewrite handleDocumentChange_set_isPaused. by apply IH.
  - cbn [step List.filter isChange intervalHandle set_isPaused].
    destruct (intervalHandle this); [|by apply IH].
    rewrite processSnapshots_paused by reflexivity. by apply IH.
Qed.

Lemma run_changes_frame (calls : list Call) (this : SnapshotEngine) :
  forallb isChange calls = true ->
  isRunning (run P calls this) = isRunning this
  /\ isPaused (run P calls this) = isPaused this
  /\ fired (run P calls this) = fired this
  /\ storage (run P calls this) = storage this.
Proof.
  revert this. induction calls as [|call rest IH]; intros this Hcalls;
    [auto|].
  cbn [forallb] in Hcalls. apply andb_true_iff in Hcalls as [Hcall Hrest].
  rewrite run_cons. destruct call; try discriminate Hcall. cbn [step].
  destruct (IH (if changeListener this
                then handleDocumentChange P event this else this) Hrest)
    as (H1 & H2 & H3 & H4).
  rewrite H1, H2, H3, H4.
  destruct (changeListener this); [|auto].
  destruct (handleDocumentChange_frame event this)
    as ((F1 & F2 & _ & _ & F3 & F4 & _) & _). auto.
Qed.

Lemma forallb_filter_isChange (calls : list Call) :
  forallb isChange (List.filter isChange calls) = true.
Proof.
  induction calls as [|call rest IH]; [reflexivity|]. cbn.
  destruct (isChange call) eqn:E; [|exact IH]. cbn. by rewrite E.
Qed.

(** X10.  Pausing loses no edit and hides every tick: for an engine
    that is running, pausing it, delivering any change events and
    timer ticks, and resuming it leaves exactly the engine that the
    change events alone would have left; nothing is fired or stored
    in between. *)
Theorem pause_keeps_edits_and_skips_ticks (calls : list Call)
  (this : SnapshotEngine) :
  isRunning this = true ->
  isPaused this = false ->
  forallb isChangeOrTick calls = true ->
  resume (run P calls (pause this)) = run P (List.filter isChange calls) this
  /\ fired (run P calls (pause this)) = fired this
  /\ storage (run P calls (pause this)) = storage this.
Proof.
  intros Hrun Hpaused Hcalls.
  assert (pause this = set_isPaused true this) as ->.
  { unfold pause. by rewrite Hrun, Hpaused. }
  rewrite run_while_paused by exact Hcalls.
  destruct (run_changes_frame (List.filter isChange calls) this
              (forallb_filter_isChange calls)) as (H1 & H2 & H3 & H4).
  cbn [fired storage set_isPaused]. split; [|auto].
  unfold resume. cbn [isRunning isPaused set_isPaused].
  rewrite H1, Hrun. cbn.
  rewrite Hpaused in H2.
  destruct (run P (List.filter isChange calls) this). cbn in *.
  by subst.
Qed.

(** *** Stopping *)

Lemma stop_releases (ed : Editor) (this : SnapshotEngine) :
  isRunning this = true ->
  let stopped := snd (stop P ed this) in
  isRunning stopped = false
  /\ isPaused stopped = false
  /\ intervalHandle stopped = false
  /\ changeListener stopped = false
  /\ fileContents stopped = ∅
  /\ pendingChanges stopped = [].
Proof.
  intros Hrun. cbv zeta.
  destruct (stop P ed this) as [c final] eqn:E. cbn [snd].
  unfold stop in E. unfold bind at 1 in E. unfold get at 1 in E.
  rewrite Hrun in E. cbn [negb] in E. unfold bind at 1 in E.
  pose proof (processSnapshots_returns P ed this) as Hret.
  destruct (processSnapshots P ed this) as [r ticked]. cbn in Hret.
  subst r.
  destruct (storage this) as [db0|].
  - unfold try_catch, bind, readClock, onStorage, modify in E.
    cbn [storage set_readings] in E.
    destruct (storage ticked) as [db|]; cbn in E;
      injection E as <- <-; cbn; auto 10.
  - cbn in E. injection E as <- <-. cbn. auto 10.
Qed.

Lemma stop_not_running (ed : Editor) (this : SnapshotEngine) :
  isRunning this = false -> stop P ed this = (Normal tt, this).
Proof. intros H. unfold stop, bind, get. by rewrite H. Qed.

(** X11.  Once [stop] has returned, the engine is not running and not
    paused, its timer and its listener are released, and it holds no
    baseline and no pending entry.  It then stays exactly as it is
    under change events, timer ticks, [pause], [resume] and further
    calls of [stop], until [start] is called. *)
Theorem stopped_engine_is_inert (ed : Editor) (this : SnapshotEngine)
  (calls : list Call) :
  isRunning this = true ->
  let stopped := snd (stop P ed this) in
  (isRunning stopped = false
   /\ isPaused stopped = false
   /\ intervalHandle stopped = false
   /\ changeListener stopped = false
   /\ fileContents stopped = ∅
   /\ pendingChanges stopped = [])
  /\ (forallb (fun call => match call with CallStart _ => false | _ => true end)
              calls = true ->
      run P calls stopped = stopped).
Proof.
  intros Hrun. cbv zeta.
  pose proof (stop_releases ed this Hrun) as Hreleased. cbv zeta in Hreleased.
  split; [exact Hreleased|].
  destruct Hreleased as (H1 & H2 & H3 & H4 & _).
  generalize dependent (snd (stop P ed this)). intros stopped H1 H2 H3 H4.
  induction calls as [|call rest IH]; intros Hcalls; [reflexivity|].
  cbn [forallb] in Hcalls. apply andb_true_iff in Hcalls as [Hcall Hrest].
  rewrite run_cons.
  assert (step P stopped call = stopped) as ->; [|by apply IH].
  destruct call; try discriminate Hcall; cbn [step].
  - by rewrite stop_not_running.
  - unfold pause. by rewrite H1.
  - unfold resume. by rewrite H1.
  - by rewrite H4.
  - by rewrite H3.
Qed.

(** *** What [getStats] reports *)

Lemma start_frame (ed : Editor) (this : SnapshotEngine) :
  pendingChanges (snd (start P ed this)) = pendingChanges this
  /\ fileContents (snd (start P ed this)) = fileContents this
  /\ fired (snd (start P ed this)) = fired this
  /\ option_map SnapshotStorage.snapshots (storage (snd (start P ed this)))
     = option_map SnapshotStorage.snapshots (storage this)
  /\ (isRunning this = false ->
      lastChainHash (snd (start P ed this)) = ""
      /\ snapshotCount (snd (start P ed this)) = 0).
Proof.
  unfold start, bind, get, modify, generateUUID, readClock, onStorage.
  destruct (isRunning this); [cbn; repeat split; auto; discriminate|]. cbn.
  destruct (storage this) as [db|] eqn:Hdb; cbn; rewrite ?Hdb;
    [|cbn; auto 10].
  unfold SnapshotStorage.createSession.
  destruct (existsb _ (SnapshotStorage.sessions db)); cbn; rewrite ?Hdb;
    auto 10.
Qed.

Lemma step_pendingTracked (this : SnapshotEngine) (call : Call) :
  pendingTracked this -> pendingTracked (step P this call).
Proof.
  intros [Hnodup Htracked]. destruct call; cbn [step].
  - destruct (start_frame ed this) as (Hp & Hf & _).
    unfold pendingTracked. by rewrite Hp, Hf.
  - destruct (isRunning this) eqn:Hrun.
    + destruct (stop_releases ed this Hrun) as (_ & _ & _ & _ & _ & Hp).
      unfold pendingTracked. rewrite Hp. split; [constructor|intros ? []].
    + by rewrite stop_not_running.
  - unfold pause. by destruct (_ || _).
  - unfold resume. by destruct (_ || _).
  - destruct (changeListener this); [|by split]. split.
    + by apply handleDocumentChange_NoDup.
    + intros path Hpath.
      destruct (handleDocumentChange_frame event this)
        as (_ & Hkeep & Hother & Hignored & Hdelivered).
      destruct (delivered P this event) eqn:Hd.
      2:{ rewrite (Hignored eq_refl) in Hpath |- *. by apply Htracked. }
      destruct (String.eqb_spec path (fsPath (uri (document event))))
        as [->|Hne]; [by apply Hdelivered|].
      destruct (Hother path Hne) as [Hf Hp]. rewrite Hf. apply Htracked.
      clear -Hpath Hp.
      assert (Hkey : forall (m : OrderedMap.t PendingChange),
                In path (map fst m) <-> is_Some (OrderedMap.get path m)).
      { clear. induction m as [|[k v] rest IH]; cbn.
        - split; [intros []|intros [? [=]]].
        - destruct (String.eqb_spec k path) as [->|Hne].
          + split; [eauto|by left].
          + rewrite <- IH. split; [intros [E|H]; [contradiction|exact H]|auto]. }
      apply Hkey. rewrite <- Hp. by apply Hkey.
  - destruct (intervalHandle this); [|by split].
    destruct (isPaused this) eqn:Hpaused.
    + by rewrite processSnapshots_paused.
    + destruct (processSnapshots_unpaused ed this Hpaused)
        as (looped & -> & _). cbn. split; [constructor|intros ? []].
Qed.

(** X12.  Whatever is called on an engine and whatever the editor
    sends it, from its construction on, every pending path is listed
    once and has a baseline; so [getStats] never reports more dirty
    files than tracked files. *)
Theorem getStats_dirty_within_tracked (storage0 : option SnapshotStorage.t)
  (pasteThreshold0 : Z) (excludePatterns0 : list string) (calls : list Call) :
  let this := run P calls (create P storage0 pasteThreshold0 excludePatterns0) in
  pendingTracked this
  /\ 0 <= EngineStats.dirtyFiles (getStats this)
       <= EngineStats.trackedFiles (getStats this).
Proof.
  cbv zeta.
  assert (Htracked : pendingTracked
            (run P calls (create P storage0 pasteThreshold0 excludePatterns0))).
  { assert (H0 : pendingTracked
                   (create P storage0 pasteThreshold0 excludePatterns0))
      by (split; [constructor|intros ? []]).
    revert H0.
    generalize (create P storage0 pasteThreshold0 excludePatterns0) as this.
    induction calls as [|call rest IH]; intros this H0; [exact H0|].
    rewrite run_cons. by apply IH, step_pendingTracked. }
  split; [exact Htracked|].
  destruct Htracked as [Hnodup Hbase]. unfold getStats. cbn. unfold len.
  set (this := run P calls _) in *.
  assert (length (pendingChanges this) <= size (fileContents this))%nat;
    [|lia].
  rewrite <- (length_map fst), <- size_dom.
  rewrite <- (size_list_to_set (C := gset string))
    by (by apply NoDup_ListNoDup).
  apply subseteq_size. intros path Hpath.
  apply elem_of_list_to_set, list_elem_of_In in Hpath.
  apply elem_of_dom. by apply Hbase.
Qed.

End WithPlatform.
End EngineFacts.

(** ** The engine and the store: the chain over a recording *)

Module ChainFacts.
Import Engine EngineSpec EngineProofs SnapshotStorage SnapshotStorageSpec.

Section WithPlatform.
Variable P : Platform.

Lemma cursorAfter_snoc (rows : list Snapshot) (row : Snapshot) :
  cursorAfter (rows ++ [row]) = Snapshot.chain_hash row.
Proof. unfold cursorAfter. by rewrite last_snoc. Qed.

(** One more linked row keeps the rows verified. *)
Lemma verifyRows_snoc (seed : string) (rows : list Snapshot) (row : Snapshot) :
  verifyRows P seed rows = true ->
  Snapshot.chain_hash row
  = sha256 P (default seed (Snapshot.chain_hash <$> last rows)
                +:+ Snapshot.content_hash row +:+ Snapshot.timestamp row) ->
  verifyRows P seed (rows ++ [row]) = true.
Proof.
  revert seed. induction rows as [|first rest IH]; intros seed Hrows Hrow.
  - cbn in *. rewrite <- Hrow. by rewrite String.eqb_refl.
  - cbn in Hrows |- *.
    destruct (negb (String.eqb _ (Snapshot.chain_hash first)));
      [discriminate|].
    apply IH; [exact Hrows|]. rewrite Hrow. f_equal. f_equal.
    destruct rest as [|second more]; [reflexivity|].
    rewrite last_cons_cons.
    destruct (last (second :: more)) eqn:E; [reflexivity|].
    by apply last_None in E.
Qed.

(** A last row that is not linked to the row before it fails the
    verification. *)
Lemma verifyRows_snoc_broken (seed : string) (rows : list Snapshot)
  (previous row : Snapshot) :
  Snapshot.chain_hash row
  <> sha256 P (Snapshot.chain_hash previous
                 +:+ Snapshot.content_hash row +:+ Snapshot.timestamp row) ->
  verifyRows P seed ((rows ++ [previous]) ++ [row]) = false.
Proof.
  intros Hne.
  destruct (verifyRows P seed ((rows ++ [previous]) ++ [row])) eqn:E;
    [|reflexivity].
  exfalso. apply Hne.
  apply SnapshotStorageProofs.verifyRows_linked in E.
  specialize (E (S (length rows)) row).
  rewrite E.
  - cbn. rewrite <- app_assoc. cbn.
    by rewrite list_lookup_middle.
  - rewrite <- app_assoc. cbn.
    replace (S (length rows)) with (length rows + 1)%nat by lia.
    by rewrite lookup_app_r, Nat.add_comm, Nat.add_sub by lia.
Qed.

(** A row that no stored row is later than is sorted last. *)
Lemma insertByTimestamp_before_last (row final : Snapshot)
  (sorted : list Snapshot) :
  timestampLe row final ->
  insertByTimestamp row (sorted ++ [final])
  = insertByTimestamp row sorted ++ [final].
Proof.
  intros Hle. induction sorted as [|other rest IH]; cbn.
  - unfold timestampLe in Hle. by rewrite Hle.
  - destruct (String.leb _ _); [reflexivity|]. by rewrite IH.
Qed.

Lemma orderByTimestamp_snoc (rows : list Snapshot) (final : Snapshot) :
  (forall row, In row rows -> timestampLe row final) ->
  orderByTimestamp (rows ++ [final]) = orderByTimestamp rows ++ [final].
Proof.
  unfold orderByTimestamp. induction rows as [|row rest IH]; intros Hle;
    [reflexivity|].
  cbn. rewrite IH by (intros r Hr; apply Hle; by right).
  apply insertByTimestamp_before_last. apply Hle. by left.
Qed.

(** *** A first recording *)

Lemma inStep_frame (this this' : SnapshotEngine) :
  fired this' = fired this ->
  storage this' = storage this ->
  lastChainHash this' = lastChainHash this ->
  snapshotCount this' = snapshotCount this ->
  inStep P this -> inStep P this'.
Proof. unfold inStep. by intros -> -> -> ->. Qed.

(** One turn of the loop of a tick keeps the engine and the store in
    step, as long as the snapshot ids do not repeat. *)
Lemma emit_inStep (ed : Editor) (filePath : string) (pending : PendingChange)
  (message : string) (this : SnapshotEngine) :
  inStep P this ->
  let this' :=
    snd (try_catch (emitSnapshot P ed filePath pending)
                   (consoleError message) this) in
  (exists more, fired this' = fired this ++ more)
  /\ (List.NoDup (map Snapshot.id (fired this')) -> inStep P this').
Proof.
  intros Hstep. cbv zeta.
  destruct (try_catch (emitSnapshot P ed filePath pending)
              (consoleError message) this) as [r this'] eqn:E.
  cbn [snd]. unfold try_catch in E.
  assert (Hsame : this' = this \/
                  (exists error,
                     this' = set_consoleErrors
                               (consoleErrors this ++ [message +:+ " " +:+ error])
                               this) ->
                  (exists more, fired this' = fired this ++ more)
                  /\ (List.NoDup (map Snapshot.id (fired this')) ->
                      inStep P this')).
  { intros [->|[error ->]]; (split; [exists []; by rewrite app_nil_r|]);
      intros _; [exact Hstep|].
    by apply (inStep_frame this). }
  destruct (openDocument ed filePath) as [document|] eqn:Hdoc.
  2:{ unfold emitSnapshot in E. unfold openDocument in Hdoc.
      rewrite Hdoc in E. cbn in E. injection E as <- <-. auto. }
  destruct (String.eqb_spec (getText document)
              (default "" (fileContents this !! filePath))) as [Heq|Hne].
  { unfold emitSnapshot in E. unfold openDocument in Hdoc.
    rewrite Hdoc in E. unfold bind, get in E.
    rewrite <- Heq, String.eqb_refl in E. cbn in E. injection E as <- <-.
    auto. }
  destruct (createPatch P (asRelativePath P (uri document))
              (default "" (fileContents this !! filePath)) (getText document))
    as [unifiedDiff|error] eqn:Hpatch.
  2:{ unfold emitSnapshot in E. unfold openDocument in Hdoc.
      rewrite Hdoc in E. unfold bind, get in E.
      apply String.eqb_neq in Hne. rewrite Hne, Hpatch in E. cbn in E.
      injection E as <- <-. apply Hsame. right. eauto. }
  clear Hsame.
  rewrite (emitSnapshot_changed P ed filePath pending this document
             unifiedDiff) in E by assumption.
  set (snapshot := snapshotOf P this document filePath pending unifiedDiff)
    in *.
  destruct Hstep as (Hstored & Hverified & Hcursor & Hcount).
  destruct (storage this) as [db|] eqn:Hdb; [|discriminate].
  cbn in Hstored. injection Hstored as Hstored.
  unfold bind, try_catch, onStorage in E.
  cbn [storage set_snapshotCount set_fileContents set_lastChainHash
       set_readings] in E. rewrite Hdb in E.
  unfold saveSnapshot in E. rewrite Hstored in E.
  destruct (existsb _ (fired this)) eqn:Htaken; cbn in E;
    injection E as <- <-; cbn [fired set_fired set_consoleErrors set_storage
                               storage lastChainHash snapshotCount];
    (split; [eauto|]); intros Hnodup.
  - exfalso. rewrite map_app in Hnodup. cbn in Hnodup.
    apply NoDup_ListNoDup, NoDup_app in Hnodup as (_ & Hfresh & _).
    apply StorageFacts.existsb_id_In in Htaken.
    apply (Hfresh (Snapshot.id snapshot)); [by apply list_elem_of_In|].
    by apply list_elem_of_singleton.
  - unfold inStep. cbn. split; [reflexivity|]. split; [|split].
    + apply verifyRows_snoc; [exact Hverified|].
      cbn. rewrite Hcursor. unfold cursorAfter.
      by destruct (last (fired this)).
    + by rewrite cursorAfter_snoc.
    + rewrite Hcount. unfold len. rewrite length_app. cbn. lia.
Qed.

Lemma NoDup_ids_prefix (rows more : list Snapshot) :
  List.NoDup (map Snapshot.id (rows ++ more)) ->
  List.NoDup (map Snapshot.id rows).
Proof.
  rewrite map_app. intros H. apply NoDup_ListNoDup, NoDup_app in H as [H _].
  by apply NoDup_ListNoDup.
Qed.

Lemma loop_appends (ed : Editor) (entries : list (string * PendingChange))
  (this : SnapshotEngine) :
  exists more,
    fired (snd (for_of entries
                  (fun '(filePath, pending) =>
                     try_catch (emitSnapshot P ed filePath pending)
                       (consoleError
                          ("[CodeProof] Error processing snapshot for "
                             +:+ filePath +:+ ":")))
                  this))
    = fired this ++ more.
Proof.
  revert this. induction entries as [|[filePath pending] rest IH];
    intros this.
  - cbn. exists []. by rewrite app_nil_r.
  - rewrite for_of_cons_normal by apply try_catch_logged.
    destruct (emit_step P ed filePath pending
                ("[CodeProof] Error processing snapshot for " +:+ filePath
                   +:+ ":") this) as ((one & Hone & _) & _).
    set (next := snd (try_catch (emitSnapshot P ed filePath pending) _ this))
      in *.
    destruct (IH next) as (more & Hmore).
    exists (one ++ more). by rewrite Hmore, Hone, app_assoc.
Qed.

Lemma loop_inStep (ed : Editor) (entries : list (string * PendingChange))
  (this : SnapshotEngine) :
  inStep P this ->
  List.NoDup
    (map Snapshot.id
       (fired (snd (for_of entries
                      (fun '(filePath, pending) =>
                         try_catch (emitSnapshot P ed filePath pending)
                           (consoleError
                              ("[CodeProof] Error processing snapshot for "
                                 +:+ filePath +:+ ":")))
                      this)))) ->
  inStep P
    (snd (for_of entries
            (fun '(filePath, pending) =>
               try_catch (emitSnapshot P ed filePath pending)
                 (consoleError
                    ("[CodeProof] Error processing snapshot for "
                       +:+ filePath +:+ ":")))
            this)).
Proof.
  revert this. induction entries as [|[filePath pending] rest IH];
    intros this Hstep; [auto|].
  rewrite for_of_cons_normal by apply try_catch_logged.
  destruct (emit_inStep ed filePath pending
              ("[CodeProof] Error processing snapshot for " +:+ filePath
                 +:+ ":") this Hstep) as (_ & Hkeep).
  set (next := snd (try_catch (emitSnapshot P ed filePath pending) _ this))
    in *.
  intros Hnodup. apply IH; [|exact Hnodup]. apply Hkeep.
  destruct (loop_appends ed rest next) as (more & Hmore).
  rewrite Hmore in Hnodup. by apply NoDup_ids_prefix in Hnodup.
Qed.

Lemma step_appends (this : SnapshotEngine) (call : Call) :
  withinSession call = true ->
  exists more, fired (step P this call) = fired this ++ more.
Proof.
  intros Hcall.
  assert (Hsame : forall this', fired this' = fired this ->
                    exists more, fired this' = fired this ++ more).
  { intros this' ->. exists []. by rewrite app_nil_r. }
  destruct call; try discriminate Hcall; cbn [step].
  - apply Hsame. unfold pause. by destruct (_ || _).
  - apply Hsame. unfold resume. by destruct (_ || _).
  - apply Hsame. destruct (changeListener this); [|reflexivity].
    by destruct (EngineFacts.handleDocumentChange_frame P event this)
      as ((H & _) & _).
  - destruct (intervalHandle this); [|by apply Hsame].
    destruct (isPaused this) eqn:Hpaused.
    + rewrite processSnapshots_paused by assumption. by apply Hsame.
    + destruct (EngineFacts.processSnapshots_unpaused P ed this Hpaused)
        as (looped & -> & -> & _). cbn. apply loop_appends.
Qed.

Lemma step_inStep (this : SnapshotEngine) (call : Call) :
  withinSession call = true ->
  inStep P this ->
  List.NoDup (map Snapshot.id (fired (step P this call))) ->
  inStep P (step P this call).
Proof.
  intros Hcall Hstep.
  destruct call; try discriminate Hcall; cbn [step].
  - intros _. unfold pause. destruct (_ || _); [exact Hstep|].
    by apply (inStep_frame this).
  - intros _. unfold resume. destruct (_ || _); [exact Hstep|].
    by apply (inStep_frame this).
  - intros _. destruct (changeListener this); [|exact Hstep].
    destruct (EngineFacts.handleDocumentChange_frame P event this)
      as ((H1 & H2 & H3 & H4 & _) & _).
    by apply (inStep_frame this).
  - destruct (intervalHandle this); [|auto].
    destruct (isPaused this) eqn:Hpaused.
    + rewrite processSnapshots_paused by assumption. auto.
    + destruct (EngineFacts.processSnapshots_unpaused P ed this Hpaused)
        as (looped & -> & -> & _). cbn [snd fired set_pendingChanges].
      intros Hnodup.
      pose proof (loop_inStep ed (pendingChanges this) this Hstep Hnodup)
        as Hlooped.
      revert Hlooped. by apply inStep_frame.
Qed.

Lemma run_appends (calls : list Call) (this : SnapshotEngine) :
  forallb withinSession calls = true ->
  exists more, fired (run P calls this) = fired this ++ more.
Proof.
  revert this. induction calls as [|call rest IH]; intros this Hcalls.
  - exists []. cbn. by rewrite app_nil_r.
  - cbn [forallb] in Hcalls. apply andb_true_iff in Hcalls as [Hcall Hrest].
    rewrite EngineFacts.run_cons.
    destruct (step_appends this call Hcall) as (one & Hone).
    destruct (IH (step P this call) Hrest) as (more & Hmore).
    exists (one ++ more). by rewrite Hmore, Hone, app_assoc.
Qed.

Lemma run_inStep (calls : list Call) (this : SnapshotEngine) :
  forallb withinSession calls = true ->
  inStep P this ->
  List.NoDup (map Snapshot.id (fired (run P calls this))) ->
  inStep P (run P calls this).
Proof.
  revert this. induction calls as [|call rest IH]; intros this Hcalls Hstep;
    [auto|].
  cbn [forallb] in Hcalls. apply andb_true_iff in Hcalls as [Hcall Hrest].
  rewrite EngineFacts.run_cons. intros Hnodup.
  apply IH; [exact Hrest| |exact Hnodup].
  apply step_inStep; [exact Hcall|exact Hstep|].
  destruct (run_appends rest (step P this call) Hrest) as (more & Hmore).
  rewrite Hmore in Hnodup. by apply NoDup_ids_prefix in Hnodup.
Qed.

(** X13.  Take an engine made over a store without snapshots and
    started.  After any change events, timer ticks and calls of
    [pause] and [resume], if the snapshots fired have distinct ids and
    timestamps that do not decrease, then the store holds exactly the
    snapshots fired, in the order fired, [verifyHashChain] returns
    true, the counter of the engine is their number, and the cursor is
    the chain hash of the last one. *)
Theorem first_recording_verifies (ed : Editor) (db0 : SnapshotStorage.t)
  (pasteThreshold0 : Z) (excludePatterns0 : list string) (calls : list Call) :
  snapshots db0 = [] ->
  let started :=
    snd (start P ed (create P (Some db0) pasteThreshold0 excludePatterns0)) in
  let final := run P calls started in
  forallb withinSession calls = true ->
  List.NoDup (map Snapshot.id (fired final)) ->
  StronglySorted timestampLe (fired final) ->
  option_map snapshots (storage final) = Some (fired final)
  /\ option_map (verifyHashChain P) (storage final) = Some true
  /\ snapshotCount final = len (fired final)
  /\ lastChainHash final = cursorAfter (fired final).
Proof.
  intros Hempty started final Hcalls Hnodup Hsorted.
  assert (Hstarted : inStep P started).
  { subst started.
    destruct (EngineFacts.start_frame P ed
                (create P (Some db0) pasteThreshold0 excludePatterns0))
      as (_ & _ & Hfired & Hdb & Hreset).
    destruct (Hreset eq_refl) as [Hcursor Hcount].
    unfold inStep. rewrite Hfired, Hdb, Hcursor, Hcount. cbn.
    by rewrite Hempty. }
  destruct (run_inStep calls started Hcalls Hstarted Hnodup)
    as (Hstored & Hverified & Hcursor & Hcount).
  fold final in Hstored, Hverified, Hcursor, Hcount.
  split; [exact Hstored|]. split; [|auto].
  destruct (storage final) as [db|]; [|discriminate]. cbn in *.
  injection Hstored as Hstored. f_equal.
  unfold verifyHashChain. rewrite Hstored.
  by rewrite StorageFacts.orderByTimestamp_sorted_id.
Qed.

(** *** A later recording *)

(** X14.  [start] resets the chain cursor to the empty string while the
    store keeps the snapshots of earlier recordings, and
    [verifyHashChain] walks them all.  So when an engine is started
    over a store that holds snapshots already, the first snapshot it
    stores, if no stored snapshot is later than it, makes
    [verifyHashChain] return false, unless the digest of its content
    hash and timestamp is the same with and without the last stored
    chain hash in front. *)
Theorem later_recording_breaks_chain (ed0 ed : Editor)
  (this0 : SnapshotEngine) (filePath : string) (pending : PendingChange)
  (document : TextDocument) (unifiedDiff : string) (db : SnapshotStorage.t)
  (rows : list Snapshot) (lastRow : Snapshot) :
  isRunning this0 = false ->
  let this := snd (start P ed0 this0) in
  openDocument ed filePath = Some document ->
  getText document <> default "" (fileContents this !! filePath) ->
  createPatch P (asRelativePath P (uri document))
              (default "" (fileContents this !! filePath)) (getText document)
  = inl unifiedDiff ->
  storage this = Some db ->
  getSnapshots db = rows ++ [lastRow] ->
  let snapshot := snapshotOf P this document filePath pending unifiedDiff in
  (forall row, In row (snapshots db) -> timestampLe row snapshot) ->
  ~ In (Snapshot.id snapshot) (map Snapshot.id (snapshots db)) ->
  sha256 P (Snapshot.chain_hash lastRow +:+ Snapshot.content_hash snapshot
              +:+ Snapshot.timestamp snapshot)
  <> sha256 P (Snapshot.content_hash snapshot +:+ Snapshot.timestamp snapshot) ->
  lastChainHash this = ""
  /\ exists db',
       storage (snd (emitSnapshot P ed filePath pending this)) = Some db'
       /\ snapshots db' = snapshots db ++ [snapshot]
       /\ verifyHashChain P db' = false.
Proof.
  intros Hidle this Hdoc Hne Hpatch Hdb Hrows snapshot Hlast Hfresh Hdigest.
  assert (Hcursor : lastChainHash this = "").
  { subst this. destruct (EngineFacts.start_frame P ed0 this0)
      as (_ & _ & _ & _ & Hreset). by destruct (Hreset Hidle). }
  split; [exact Hcursor|].
  rewrite (emitSnapshot_changed P ed filePath pending this document
             unifiedDiff) by assumption.
  fold snapshot. rewrite Hdb.
  unfold bind, try_catch, onStorage.
  cbn [storage set_snapshotCount set_fileContents set_lastChainHash
       set_readings]. rewrite Hdb. unfold saveSnapshot.
  destruct (existsb _ (snapshots db)) eqn:Htaken.
  { apply StorageFacts.existsb_id_In in Htaken. contradiction. }
  cbn. eexists. split; [reflexivity|]. cbn. split; [reflexivity|].
  unfold verifyHashChain. cbn.
  rewrite orderByTimestamp_snoc by exact Hlast.
  unfold getSnapshots in Hrows. rewrite Hrows.
  apply verifyRows_snoc_broken.
  intros E. apply Hdigest. rewrite <- E. subst snapshot. cbn.
  by rewrite Hcursor.
Qed.

End WithPlatform.
End ChainFacts.
(** ** The flag rules *)

Module AnalyzerFacts.
Import FlagAnalyzer FlagAnalyzerSpec FlagAnalyzerProofs OrderedMapFacts.

Lemma sumZ_app (xs ys : list Z) : sumZ (xs ++ ys) = sumZ xs + sumZ ys.
Proof.
  induction xs as [|x rest IH]; [reflexivity|].
  cbn [app sumZ fold_right]. fold (sumZ (rest ++ ys)). fold (sumZ rest). lia.
Qed.

Lemma ofFile_snoc (filename : string) (snapshots : list Snapshot)
  (snapshot : Snapshot) :
  ofFile filename (snapshots ++ [snapshot])
  = ofFile filename snapshots
    ++ (if String.eqb (Snapshot.filename snapshot) filename
        then [snapshot] else []).
Proof.
  unfold ofFile. rewrite List.filter_app. cbn.
  by destruct (String.eqb _ _).
Qed.

Lemma ofFile_nil_iff (filename : string) (snapshots : list Snapshot) :
  ofFile filename snapshots = []
  <-> existsb (fun other => String.eqb (Snapshot.filename other) filename)
              snapshots = false.
Proof.
  unfold ofFile. induction snapshots as [|s rest IH]; [done|].
  cbn. destruct (String.eqb _ _); cbn; [split; discriminate|exact IH].
Qed.

Lemma ofFile_In (filename : string) (snapshots : list Snapshot)
  (snapshot : Snapshot) :
  In snapshot snapshots -> Snapshot.filename snapshot = filename ->
  ofFile filename snapshots <> [].
Proof.
  intros Hin Hname E.
  assert (Hmine : In snapshot (ofFile filename snapshots)).
  { apply List.filter_In. split; [exact Hin|]. by apply String.eqb_eq. }
  rewrite E in Hmine. destruct Hmine.
Qed.

(** A key bound in a map without repeated keys is what [get] finds. *)
Lemma In_get {V} (k : string) (v : V) (m : OrderedMap.t V) :
  List.NoDup (map fst m) -> In (k, v) m -> OrderedMap.get k m = Some v.
Proof.
  induction m as [|[k' v'] rest IH]; [intros _ []|].
  cbn. intros Hnodup. inversion Hnodup as [|? ? Hfresh Hrest]; subst.
  intros [[= -> ->]|Hin].
  - by rewrite String.eqb_refl.
  - destruct (String.eqb_spec k' k) as [->|_]; [|by apply IH].
    exfalso. apply Hfresh. apply in_map_iff. by exists (k, v).
Qed.

(** A rule that emits at most one flag per key, named after the key,
    never names a file twice. *)
Lemma flat_map_keys_NoDup {V} (emit : string * V -> list Flag)
  (m : OrderedMap.t V) :
  (forall k v flag, In flag (emit (k, v)) ->
     emit (k, v) = [flag] /\ Flag.filename flag = k) ->
  List.NoDup (map fst m) ->
  List.NoDup (map Flag.filename (flat_map emit m)).
Proof.
  intros Hemit. induction m as [|[k v] rest IH]; [constructor|].
  cbn. intros Hnodup. inversion Hnodup as [|? ? Hfresh Hrest]; subst.
  destruct (emit (k, v)) as [|flag more] eqn:E; [by apply IH|].
  destruct (Hemit k v flag) as [Hone Hname]; [rewrite E; by left|].
  rewrite E in Hone. injection Hone as ->. cbn. constructor; [|by apply IH].
  rewrite Hname. intros Hin. apply Hfresh.
  apply in_map_iff in Hin as (other & Hother & Hin).
  apply in_flat_map in Hin as ([k' v'] & Hin & Hflag).
  destruct (Hemit k' v' other Hflag) as [_ Hname'].
  apply in_map_iff. exists (k', v'). split; [cbn; congruence|exact Hin].
Qed.

(** *** No debugging *)

Lemma collectFileStats_snoc (snapshots : list Snapshot) (snapshot : Snapshot) :
  collectFileStats (snapshots ++ [snapshot])
  = match OrderedMap.get (Snapshot.filename snapshot)
                         (collectFileStats snapshots) with
    | Some existing =>
        OrderedMap.set (Snapshot.filename snapshot)
          {| totalAdded :=
               totalAdded existing + Snapshot.lines_added snapshot;
             totalRemoved :=
               totalRemoved existing + Snapshot.lines_removed snapshot;
             snapshotIds := snapshotIds existing ++ [Snapshot.id snapshot];
             firstTimestamp := firstTimestamp existing |}
          (collectFileStats snapshots)
    | None =>
        OrderedMap.set (Snapshot.filename snapshot)
          {| totalAdded := Snapshot.lines_added snapshot;
             totalRemoved := Snapshot.lines_removed snapshot;
             snapshotIds := [Snapshot.id snapshot];
             firstTimestamp := Snapshot.timestamp snapshot |}
          (collectFileStats snapshots)
    end.
Proof. unfold collectFileStats. by rewrite fold_left_app. Qed.

Lemma collectFileStats_NoDup (snapshots : list Snapshot) :
  List.NoDup (map fst (collectFileStats snapshots)).
Proof.
  induction snapshots as [|snapshot snapshots IH] using rev_ind;
    [constructor|].
  rewrite collectFileStats_snoc.
  destruct (OrderedMap.get _ _); by apply set_NoDup.
Qed.

(** What [collectFileStats] holds for a file: the sums, the ids and
    the first timestamp of the file's own snapshots. *)
Lemma collectFileStats_get (snapshots : list Snapshot) (filename : string) :
  OrderedMap.get filename (collectFileStats snapshots)
  = match ofFile filename snapshots with
    | [] => None
    | first :: rest =>
        Some {| totalAdded := sumZ (map Snapshot.lines_added (first :: rest));
                totalRemoved :=
                  sumZ (map Snapshot.lines_removed (first :: rest));
                snapshotIds := map Snapshot.id (first :: rest);
                firstTimestamp := Snapshot.timestamp first |}
    end.
Proof.
  induction snapshots as [|snapshot snapshots IH] using rev_ind;
    [reflexivity|].
  rewrite collectFileStats_snoc, ofFile_snoc.
  destruct (String.eqb_spec (Snapshot.filename snapshot) filename)
    as [->|Hne].
  - rewrite IH. destruct (ofFile filename snapshots) as [|first rest].
    + rewrite get_set_eq. cbn. do 2 f_equal; lia.
    + rewrite get_set_eq. cbn [app].
      change (first :: rest ++ [snapshot]) with ((first :: rest) ++ [snapshot]).
      rewrite !map_app, !sumZ_app. cbn. do 2 f_equal; lia.
  - rewrite app_nil_r.
    destruct (OrderedMap.get (Snapshot.filename snapshot) _);
      by rewrite get_set_ne.
Qed.

(** X15.  [detectNoDebugging] names no file twice, and it flags a file
    exactly when the file's own snapshots add 100 lines or more in
    total and remove none; the flag is of low severity, carries the
    timestamp of the file's first snapshot and lists the ids of all the
    file's snapshots in order. *)
Theorem no_debugging_flags_each_file_once (snapshots : list Snapshot) :
  List.NoDup (map Flag.filename (detectNoDebugging snapshots))
  /\ forall flag,
       In flag (detectNoDebugging snapshots) <->
       exists first rest,
         ofFile (Flag.filename flag) snapshots = first :: rest
         /\ sumZ (map Snapshot.lines_added (first :: rest)) >= 100
         /\ sumZ (map Snapshot.lines_removed (first :: rest)) = 0
         /\ flag = {| Flag.category := no_debugging;
                      Flag.severity := low;
                      Flag.timestamp := Snapshot.timestamp first;
                      Flag.filename := Flag.filename flag;
                      Flag.snapshotIds := map Snapshot.id (first :: rest) |}.
Proof.
  unfold detectNoDebugging, NO_DEBUGGING_LINE_THRESHOLD. split.
  - apply flat_map_keys_NoDup; [|apply collectFileStats_NoDup].
    intros k v flag. destruct (_ && _); [|intros []].
    by intros [<-|[]].
  - intros flag. rewrite in_flat_map. split.
    + intros ([filename stats] & Hin & Hflag).
      destruct (_ && _) eqn:Hcond; [|destruct Hflag].
      destruct Hflag as [<-|[]]. cbn [Flag.filename].
      apply In_get in Hin; [|apply collectFileStats_NoDup].
      rewrite collectFileStats_get in Hin.
      destruct (ofFile filename snapshots) as [|first rest]; [discriminate|].
      injection Hin as <-. cbn [totalAdded totalRemoved] in Hcond.
      apply andb_true_iff in Hcond as [Hadded%Z.geb_le Hremoved%Z.eqb_eq].
      exists first, rest. unfold sumZ in *. cbn in *.
      repeat split; [lia|exact Hremoved].
    + intros (first & rest & Hmine & Hadded & Hremoved & Hflag).
      pose proof (collectFileStats_get snapshots (Flag.filename flag)) as Hget.
      rewrite Hmine in Hget. apply get_In in Hget.
      eexists. split; [exact Hget|]. cbn [totalAdded totalRemoved].
      destruct (Z.geb_spec (sumZ (map Snapshot.lines_added (first :: rest)))
                           100); [|lia].
      rewrite Hremoved. cbn. left. rewrite Hflag. reflexivity.
Qed.

(** *** Fully formed code *)

Lemma detectFullyFormedCode_iff (snapshots : list Snapshot) (flag : Flag) :
  In flag (detectFullyFormedCode snapshots) <->
  exists before snapshot later,
    snapshots = before ++ snapshot :: later
    /\ Snapshot.lines_added snapshot >= 50
    /\ ofFile (Snapshot.filename snapshot) later = []
    /\ flag = {| Flag.category := fully_formed_code;
                 Flag.severity := high;
                 Flag.timestamp := Snapshot.timestamp snapshot;
                 Flag.filename := Snapshot.filename snapshot;
                 Flag.snapshotIds := [Snapshot.id snapshot] |}.
Proof.
  unfold FULLY_FORMED_LINE_THRESHOLD.
  induction snapshots as [|s later IH]; cbn [detectFullyFormedCode].
  - split; [cbn; intros []|]. intros (before & ? & ? & E & _).
    by destruct before.
  - unfold FULLY_FORMED_LINE_THRESHOLD. rewrite in_app_iff, IH. split.
    + intros [Hhead|(before & s' & later' & -> & Hrest)].
      * destruct (Z.ltb_spec (Snapshot.lines_added s) 50);
          [cbn in Hhead; contradiction|].
        destruct (existsb _ later) eqn:Hedited;
          [cbn in Hhead; contradiction|].
        destruct Hhead as [<-|[]]. exists [], s, later.
        repeat split; [lia|by apply ofFile_nil_iff].
      * exists (s :: before), s', later'. by split.
    + intros (before & s' & later' & E & Hlines & Hlast & ->).
      destruct before as [|s0 before]; injection E as -> ->.
      * left. destruct (Z.ltb_spec (Snapshot.lines_added s') 50); [lia|].
        apply ofFile_nil_iff in Hlast. rewrite Hlast. by left.
      * right. exists before, s', later'. by repeat split.
Qed.

(** X16.  [detectFullyFormedCode] names no file twice, and it flags a
    snapshot exactly when the snapshot adds 50 lines or more and no
    later snapshot of the sequence is of the same file; the flag is of
    high severity and keyed to that snapshot alone. *)
Theorem fully_formed_flags_last_snapshot_of_file (snapshots : list Snapshot) :
  List.NoDup (map Flag.filename (detectFullyFormedCode snapshots))
  /\ forall flag,
       In flag (detectFullyFormedCode snapshots) <->
       exists before snapshot later,
         snapshots = before ++ snapshot :: later
         /\ Snapshot.lines_added snapshot >= 50
         /\ ofFile (Snapshot.filename snapshot) later = []
         /\ flag = {| Flag.category := fully_formed_code;
                      Flag.severity := high;
                      Flag.timestamp := Snapshot.timestamp snapshot;
                      Flag.filename := Snapshot.filename snapshot;
                      Flag.snapshotIds := [Snapshot.id snapshot] |}.
Proof.
  split; [|intros flag; apply detectFullyFormedCode_iff].
  induction snapshots as [|s later IH]; [constructor|].
  cbn [detectFullyFormedCode].
  destruct (Snapshot.lines_added s <? _); [exact IH|].
  destruct (existsb _ later) eqn:Hedited; [exact IH|].
  cbn [negb app map Flag.filename]. constructor; [|exact IH].
  intros Hin. apply in_map_iff in Hin as (flag & Hname & Hin).
  apply detectFullyFormedCode_In in Hin as (other & Hother & _ & ->).
  cbn in Hname. apply ofFile_nil_iff in Hedited.
  by apply (ofFile_In _ _ other Hother Hname).
Qed.

(** *** Style inconsistency *)





Section WithPlatform.
Variable P : Platform.

(** *** Windows *)

(** The inner loop of the windowed rules adds up the weights and
    collects the ids of the snapshots of the window. *)
Lemma scanWindow_window (windowEnd : Num.t) (weight : Snapshot -> Z)
  (snapshots : list Snapshot) :
  scanWindow P windowEnd weight snapshots
  = (sumZ (map weight (window P windowEnd snapshots)),
     map Snapshot.id (window P windowEnd snapshots)).
Proof.
  induction snapshots as [|s rest IH]; [reflexivity|].
  cbn [scanWindow window]. unfold timeOf at 1.
  destruct (Num.gtb _ _); [reflexivity|]. by rewrite IH.
Qed.

(** A window whose end is not a number never closes. *)
Lemma window_NaN (snapshots : list Snapshot) :
  window P None snapshots = snapshots.
Proof.
  induction snapshots as [|s rest IH]; [reflexivity|]. cbn.
  destruct (getTime P _); cbn; by rewrite IH.
Qed.

Lemma longGapFrom_iff (previous : Snapshot) (snapshots : list Snapshot)
  (flag : Flag) :
  In flag (longGapFrom P previous snapshots) <->
  exists before earlier current rest,
    previous :: snapshots = before ++ earlier :: current :: rest
    /\ Num.ltb (Num.sub (timeOf P current) (timeOf P earlier))
               (Some LONG_GAP_MS) = false
    /\ let resumed :=
         window P (Num.add (timeOf P current) (Some POST_GAP_WINDOW_MS))
                (current :: rest) in
       sumZ (map Snapshot.lines_added resumed) >= 30
       /\ flag = {| Flag.category := long_gap;
                    Flag.severity := medium;
                    Flag.timestamp := Snapshot.timestamp current;
                    Flag.filename := Snapshot.filename current;
                    Flag.snapshotIds := map Snapshot.id resumed |}.
Proof.
  revert previous. induction snapshots as [|current rest IH]; intros previous.
  - split; [intros []|]. intros (before & ? & ? & ? & E & _).
    destruct before as [|? [|? ?]]; discriminate.
  - cbn [longGapFrom]. rewrite scanWindow_window, in_app_iff, IH.
    unfold POST_GAP_LINE_THRESHOLD. split.
    + intros [Hhead|(before & earlier & current' & rest' & E & Hrest)].
      * destruct (Num.ltb _ _) eqn:Hgap; [destruct Hhead|].
        destruct (Z.geb_spec
                    (sumZ (map Snapshot.lines_added
                             (window P (Num.add (timeOf P current)
                                                (Some POST_GAP_WINDOW_MS))
                                     (current :: rest)))) 30) as [Hlines|];
          [|destruct Hhead].
        destruct Hhead as [<-|[]].
        exists [], previous, current, rest. cbv zeta.
        repeat split; [exact Hgap|lia].
      * exists (previous :: before), earlier, current', rest'.
        split; [by rewrite E|exact Hrest].
    + intros (before & earlier & current' & rest' & E & Hgap & Hlines & ->).
      destruct before as [|first before].
      * injection E as <- <- <-. left. rewrite Hgap.
        cbv zeta in Hlines.
        destruct (Z.geb_spec
                    (sumZ (map Snapshot.lines_added
                             (window P (Num.add (timeOf P current)
                                                (Some POST_GAP_WINDOW_MS))
                                     (current :: rest)))) 30); [|lia].
        by left.
      * injection E as <- E. right.
        exists before, earlier, current', rest'. by repeat split.
Qed.

Lemma detectLongGapThenCompletion_iff (snapshots : list Snapshot)
  (flag : Flag) :
  In flag (detectLongGapThenCompletion P snapshots) <->
  exists before earlier current rest,
    snapshots = before ++ earlier :: current :: rest
    /\ Num.ltb (Num.sub (timeOf P current) (timeOf P earlier))
               (Some LONG_GAP_MS) = false
    /\ let resumed :=
         window P (Num.add (timeOf P current) (Some POST_GAP_WINDOW_MS))
                (current :: rest) in
       sumZ (map Snapshot.lines_added resumed) >= 30
       /\ flag = {| Flag.category := long_gap;
                    Flag.severity := medium;
                    Flag.timestamp := Snapshot.timestamp current;
                    Flag.filename := Snapshot.filename current;
                    Flag.snapshotIds := map Snapshot.id resumed |}.
Proof.
  destruct snapshots as [|first rest]; [|apply longGapFrom_iff].
  split; [intros []|]. intros (before & ? & ? & ? & E & _).
  by destruct before.
Qed.


(** X19.  A timestamp that [Date] cannot parse counts as a long gap:
    the comparison of the gap with two hours is false when the gap is
    not a number, so the rule goes on to the window.  When the
    unparseable timestamp is that of the current snapshot the window
    never closes either, and the flag lists every snapshot from the
    current one to the end of the sequence. *)
Theorem unparseable_timestamp_counts_as_long_gap
  (before rest : list Snapshot) (earlier current : Snapshot) :
  getTime P (Snapshot.timestamp current) = None ->
  sumZ (map Snapshot.lines_added (current :: rest)) >= 30 ->
  In {| Flag.category := long_gap;
        Flag.severity := medium;
        Flag.timestamp := Snapshot.timestamp current;
        Flag.filename := Snapshot.filename current;
        Flag.snapshotIds := map Snapshot.id (current :: rest) |}
     (detectLongGapThenCompletion P (before ++ earlier :: current :: rest)).
Proof.
  intros Htime Hlines. apply detectLongGapThenCompletion_iff.
  exists before, earlier, current, rest. unfold timeOf. rewrite Htime.
  cbn [Num.sub Num.add Num.ltb]. rewrite window_NaN. by repeat split.
Qed.

(** *** Typing speed *)

(** 200 characters a minute over the five minutes of the window are a
    thousand characters. *)
Lemma speed_threshold (totalChars : Z) :
  Qle_bool (inject_Z UNUSUAL_SPEED_CPM)
           (inject_Z totalChars / (inject_Z SPEED_WINDOW_MS / 60000))%Q
  = (totalChars >=? 1000).
Proof.
  unfold UNUSUAL_SPEED_CPM, Qdiv at 1.
  set (perWindow := (/ (inject_Z SPEED_WINDOW_MS / 60000))%Q).
  vm_compute in perWindow. subst perWindow.
  destruct (Z.geb_spec totalChars 1000) as [H|H].
  - apply Qle_bool_iff. unfold Qle. cbn. lia.
  - apply not_true_is_false. intros Hle%Qle_bool_iff.
    unfold Qle in Hle. cbn in Hle. lia.
Qed.

Lemma unusualSpeedFrom_iff (flaggedWindows : gset string)
  (snapshots : list Snapshot) (flag : Flag) :
  List.NoDup (map Snapshot.id snapshots) ->
  (forall snapshot, In snapshot snapshots ->
     Snapshot.id snapshot ∉ flaggedWindows) ->
  In flag (unusualSpeedFrom P flaggedWindows snapshots) <->
  exists before start rest,
    snapshots = before ++ start :: rest
    /\ let fast :=
         window P (Num.add (timeOf P start) (Some SPEED_WINDOW_MS))
                (start :: rest) in
       sumZ (map Snapshot.change_size fast) >= 1000
       /\ (2 <= length fast)%nat
       /\ flag = {| Flag.category := unusual_typing_speed;
                    Flag.severity := low;
                    Flag.timestamp := Snapshot.timestamp start;
                    Flag.filename := Snapshot.filename start;
                    Flag.snapshotIds := map Snapshot.id fast |}.
Proof.
  revert flaggedWindows.
  induction snapshots as [|start rest IH]; intros flaggedWindows Hids Hnew.
  - split; [intros []|]. intros (before & ? & ? & E & _). by destruct before.
  - inversion Hids as [|? ? Hfresh Hrest]; subst.
    assert (Hstep : forall flagged,
              (forall snapshot, In snapshot rest ->
                 Snapshot.id snapshot ∉ flagged) ->
              In flag (unusualSpeedFrom P flagged rest) <->
              exists before start' rest',
                start :: rest = (start :: before) ++ start' :: rest'
                /\ let fast :=
                     window P (Num.add (timeOf P start') (Some SPEED_WINDOW_MS))
                            (start' :: rest') in
                   sumZ (map Snapshot.change_size fast) >= 1000
                   /\ (2 <= length fast)%nat
                   /\ flag = {| Flag.category := unusual_typing_speed;
                                Flag.severity := low;
                                Flag.timestamp := Snapshot.timestamp start';
                                Flag.filename := Snapshot.filename start';
                                Flag.snapshotIds := map Snapshot.id fast |}).
    { intros flagged Hflagged. rewrite (IH flagged Hrest Hflagged).
      split; intros (before & start' & rest' & E & H).
      - exists before, start', rest'. split; [by rewrite E|exact H].
      - injection E as E. by exists before, start', rest'. }
    assert (Hlater : forall flagged,
              (forall snapshot, In snapshot rest ->
                 Snapshot.id snapshot ∉ flagged) ->
              In flag (unusualSpeedFrom P flagged rest) ->
              exists before start' rest',
                start :: rest = before ++ start' :: rest'
                /\ let fast :=
                     window P (Num.add (timeOf P start') (Some SPEED_WINDOW_MS))
                            (start' :: rest') in
                   sumZ (map Snapshot.change_size fast) >= 1000
                   /\ (2 <= length fast)%nat
                   /\ flag = {| Flag.category := unusual_typing_speed;
                                Flag.severity := low;
                                Flag.timestamp := Snapshot.timestamp start';
                                Flag.filename := Snapshot.filename start';
                                Flag.snapshotIds := map Snapshot.id fast |}).
    { intros flagged Hflagged Hin.
      apply (Hstep flagged Hflagged) in Hin
        as (before & start' & rest' & E & H).
      by exists (start :: before), start', rest'. }
    assert (Hrest_new : forall snapshot, In snapshot rest ->
              Snapshot.id snapshot ∉ flaggedWindows).
    { intros snapshot Hin. apply Hnew. by right. }
    assert (Hrest_new' : forall snapshot, In snapshot rest ->
              Snapshot.id snapshot ∉ ({[Snapshot.id start]} ∪ flaggedWindows
                                        : gset string)).
    { intros snapshot Hin [Hsame%elem_of_singleton|Hold]%elem_of_union.
      - apply Hfresh. apply in_map_iff. by exists snapshot.
      - by apply (Hrest_new snapshot). }
    cbn [unusualSpeedFrom]. rewrite scanWindow_window, speed_threshold.
    set (fast := window P (Num.add (timeOf P start) (Some SPEED_WINDOW_MS))
                        (start :: rest)).
    assert (Hlen : (len (map Snapshot.id fast) >=? 2)
                   = bool_decide (2 <= length fast)%nat).
    { unfold len. rewrite length_map.
      destruct (Z.geb_spec (Z.of_nat (length fast)) 2);
        [rewrite bool_decide_eq_true_2|rewrite bool_decide_eq_false_2];
        (done || lia). }
    rewrite Hlen.
    rewrite (bool_decide_eq_false_2 (Snapshot.id start ∈ flaggedWindows))
      by (apply Hnew; by left).
    split.
    + intros Hin.
      destruct (Z.geb_spec (sumZ (map Snapshot.change_size fast)) 1000)
        as [Hchars|]; [|by apply (Hlater flaggedWindows)].
      destruct (bool_decide_reflect (2 <= length fast)%nat) as [Htwo|];
        [|by apply (Hlater flaggedWindows)].
      cbn [andb] in Hin. destruct Hin as [<-|Hin].
      * exists [], start, rest. fold fast. by repeat split; [lia|].
      * by apply (Hlater ({[Snapshot.id start]} ∪ flaggedWindows)).
    + intros (before & start' & rest' & E & Hchars & Htwo & Hflag).
      destruct before as [|first before].
      * injection E as <- <-. fold fast in Hchars, Htwo, Hflag.
        destruct (Z.geb_spec (sumZ (map Snapshot.change_size fast)) 1000);
          [|lia].
        rewrite (bool_decide_eq_true_2 _ Htwo). cbn [andb]. by left.
      * injection E as <- E.
        assert (Hback : forall flagged,
                  (forall snapshot, In snapshot rest ->
                     Snapshot.id snapshot ∉ flagged) ->
                  In flag (unusualSpeedFrom P flagged rest)).
        { intros flagged Hflagged. apply (Hstep flagged Hflagged).
          exists before, start', rest'. split; [by rewrite E|by repeat split]. }
        destruct (_ && _); [right|]; by apply Hback.
Qed.

(** X20.  When no two snapshots share an id, [detectUnusualSpeed] flags
    a snapshot exactly when the snapshots from it on, up to the first
    one that is more than five minutes later than it, are two or more
    and change a thousand characters or more in total (200 a minute);
    the set of flagged windows suppresses nothing, so overlapping
    windows are each flagged. *)
Theorem unusual_speed_flags_every_fast_window (snapshots : list Snapshot)
  (flag : Flag) :
  List.NoDup (map Snapshot.id snapshots) ->
  In flag (detectUnusualSpeed P snapshots) <->
  exists before start rest,
    snapshots = before ++ start :: rest
    /\ let fast :=
         window P (Num.add (timeOf P start) (Some SPEED_WINDOW_MS))
                (start :: rest) in
       sumZ (map Snapshot.change_size fast) >= 1000
       /\ (2 <= length fast)%nat
       /\ flag = {| Flag.category := unusual_typing_speed;
                    Flag.severity := low;
                    Flag.timestamp := Snapshot.timestamp start;
                    Flag.filename := Snapshot.filename start;
                    Flag.snapshotIds := map Snapshot.id fast |}.
Proof.
  intros Hids. apply unusualSpeedFrom_iff; [exact Hids|].
  intros snapshot _. apply not_elem_of_empty.
Qed.

(** *** Severities *)

Lemma unusualSpeedFrom_severity (flaggedWindows : gset string)
  (snapshots : list Snapshot) (flag : Flag) :
  In flag (unusualSpeedFrom P flaggedWindows snapshots) ->
  Flag.category flag = unusual_typing_speed /\ Flag.severity flag = low.
Proof.
  revert flaggedWindows. induction snapshots as [|start rest IH];
    intros flaggedWindows; [intros []|].
  cbn [unusualSpeedFrom].
  destruct (scanWindow P _ Snapshot.change_size (start :: rest))
    as [totalChars windowSnapshotIds].
  destruct (_ && _); [|apply IH].
  destruct (bool_decide _); [apply IH|].
  intros [<-|Hin]; [by split|by apply IH in Hin].
Qed.

Lemma detectStyleInconsistency_severity (snapshots : list Snapshot)
  (flag : Flag) :
  In flag (detectStyleInconsistency snapshots) ->
  Flag.category flag = style_inconsistency /\ Flag.severity flag = medium.
Proof.
  unfold detectStyleInconsistency. rewrite in_flat_map.
  intros ([filename fileSnaps] & _ & Hflag).
  destruct (len fileSnaps <? 2); [destruct Hflag|].
  destruct (detectNamingConvention (take _ fileSnaps)); [|destruct Hflag].
  destruct (detectNamingConvention (drop _ fileSnaps)); [|destruct Hflag].
  destruct (drop _ fileSnaps); [destruct Hflag|].
  destruct (negb _); [|destruct Hflag]. by destruct Hflag as [<-|[]].
Qed.

Lemma detectNoDebugging_severity (snapshots : list Snapshot) (flag : Flag) :
  In flag (detectNoDebugging snapshots) ->
  Flag.category flag = no_debugging /\ Flag.severity flag = low.
Proof.
  unfold detectNoDebugging. rewrite in_flat_map.
  intros ([filename stats] & _ & Hflag).
  destruct (_ && _); [|destruct Hflag]. by destruct Hflag as [<-|[]].
Qed.

Lemma detectRapidCompletion_severity (snapshots : list Snapshot)
  (flag : Flag) :
  In flag (detectRapidCompletion P snapshots) ->
  Flag.category flag = rapid_completion /\ Flag.severity flag = low.
Proof.
  unfold detectRapidCompletion.
  destruct (len snapshots <? 2); [intros []|].
  destruct (snapshots !! 0%nat); [|intros []].
  destruct (snapshots !! _); [|intros []].
  destruct (_ && _); [|intros []]. by intros [<-|[]].
Qed.

(** X21.  The severity of a flag that [analyze] returns is fixed by its
    category: high for fully formed code; medium for a large paste, a
    long gap and a style inconsistency; low for no debugging, unusual
    typing speed and rapid completion.  No rule uses the severity
    [info]. *)
Theorem analyze_severity_by_category (snapshots : list Snapshot)
  (flag : Flag) :
  In flag (analyze P snapshots) ->
  Flag.severity flag = severityOf (Flag.category flag)
  /\ Flag.severity flag <> info.
Proof.
  unfold analyze. destruct (len snapshots =? 0); [intros []|].
  rewrite !in_app_iff.
  assert (Hfixed : forall category severity,
            Flag.category flag = category /\ Flag.severity flag = severity ->
            severity = severityOf category -> severity <> info ->
            Flag.severity flag = severityOf (Flag.category flag)
            /\ Flag.severity flag <> info).
  { intros category severity [-> ->] -> Hinfo. by split. }
  intros [H|[H|[H|[H|[H|[H|H]]]]]].
  - apply detectLargePaste_In in H as (s & _ & _ & _ & ->). by split.
  - apply detectFullyFormedCode_In in H as (s & _ & _ & ->). by split.
  - apply detectLongGapThenCompletion_iff in H
      as (? & ? & ? & ? & _ & _ & _ & ->). by split.
  - by apply (Hfixed _ _ (detectStyleInconsistency_severity _ _ H)).
  - by apply (Hfixed _ _ (detectNoDebugging_severity _ _ H)).
  - by apply (Hfixed _ _ (unusualSpeedFrom_severity _ _ _ H)).
  - by apply (Hfixed _ _ (detectRapidCompletion_severity _ _ H)).
Qed.

End WithPlatform.

End AnalyzerFacts.
(** ** The replay recorder *)

Module ReplayFacts.
Import ReplayRecorder ReplaySpec ReplayProofs.

Lemma append_assoc (a b c : string) : (a +:+ b) +:+ c = a +:+ (b +:+ c).
Proof.
  induction a as [|x a IH]; [reflexivity|].
  change (String x ((a +:+ b) +:+ c) = String x (a +:+ (b +:+ c))).
  by rewrite IH.
Qed.

Lemma append_nil_r (a : string) : a +:+ "" = a.
Proof.
  induction a as [|x a IH]; [reflexivity|].
  change (String x (a +:+ "") = String x a). by rewrite IH.
Qed.

Lemma textOf_app (xs ys : list ReplayChange) :
  textOf (xs ++ ys) = textOf xs +:+ textOf ys.
Proof.
  unfold textOf. induction xs as [|x rest IH]; [reflexivity|].
  cbn [app map fold_right]. by rewrite IH, append_assoc.
Qed.

Lemma insertedText_app (xs ys : list ReplayEvent) :
  insertedText (xs ++ ys) = insertedText xs +:+ insertedText ys.
Proof. unfold insertedText. by rewrite flat_map_app, textOf_app. Qed.

Lemma len_one {A} (xs : list A) : len xs = 1 -> exists x, xs = [x].
Proof.
  unfold len. destruct xs as [|x [|y rest]]; cbn; intros H; try lia.
  by exists x.
Qed.

Lemma nonempty_snoc {A} (xs : list A) :
  (len xs =? 0) = false -> exists init final, xs = init ++ [final].
Proof.
  intros Hlen. destruct xs as [|x rest] using rev_ind; [discriminate|].
  by exists rest, x.
Qed.

(** [tryCoalesce] either leaves the buffer as it is and returns false,
    or every one of its conditions holds and the last buffered event is
    replaced by the merged one. *)
Lemma tryCoalesce_cases (newEvent : ReplayEvent) (buffer : list ReplayEvent) :
  tryCoalesce newEvent buffer = (false, buffer)
  \/ exists earlierEvents lastEvent lastChange newChange,
       buffer = earlierEvents ++ [lastEvent]
       /\ ReplayEvent.changes lastEvent = [lastChange]
       /\ ReplayEvent.changes newEvent = [newChange]
       /\ ReplayEvent.filename lastEvent = ReplayEvent.filename newEvent
       /\ ReplayEvent.timestamp newEvent - ReplayEvent.timestamp lastEvent
          <= 500
       /\ ReplayChange.rangeLength lastChange = 0
       /\ ReplayChange.rangeLength newChange = 0
       /\ line (ReplayChange.rangeStart lastChange)
          = line (ReplayChange.rangeStart newChange)
       /\ character (ReplayChange.rangeStart newChange)
          = character (ReplayChange.rangeStart lastChange)
            + strlen (ReplayChange.text lastChange)
       /\ strlen (ReplayChange.text newChange) = 1
       /\ tryCoalesce newEvent buffer
          = (true,
             earlierEvents
             ++ [ {| ReplayEvent.timestamp := ReplayEvent.timestamp lastEvent;
                     ReplayEvent.filename := ReplayEvent.filename lastEvent;
                     ReplayEvent.changes :=
                       [ {| ReplayChange.rangeStart :=
                              ReplayChange.rangeStart lastChange;
                            ReplayChange.rangeEnd :=
                              ReplayChange.rangeEnd newChange;
                            ReplayChange.text :=
                              ReplayChange.text lastChange
                                +:+ ReplayChange.text newChange;
                            ReplayChange.rangeLength := 0 |} ] |} ]).
Proof.
  unfold tryCoalesce, COALESCE_WINDOW_MS.
  destruct (len buffer =? 0) eqn:Hlen; [by left|].
  destruct (nonempty_snoc buffer Hlen) as (earlierEvents & lastEvent & ->).
  rewrite lookup_last_snoc.
  destruct (String.eqb_spec (ReplayEvent.filename lastEvent)
                            (ReplayEvent.filename newEvent)) as [Hfile|];
    [|by left].
  cbn [negb].
  destruct (Z.gtb_spec (ReplayEvent.timestamp newEvent
                        - ReplayEvent.timestamp lastEvent) 500) as [|Hwindow];
    [by left|].
  destruct (Z.eqb_spec (len (ReplayEvent.changes lastEvent)) 1) as [Hone|];
    [|by left].
  destruct (Z.eqb_spec (len (ReplayEvent.changes newEvent)) 1) as [Hone'|];
    [|by left].
  cbn [negb orb].
  destruct (len_one _ Hone) as [lastChange HlastChange].
  destruct (len_one _ Hone') as [newChange HnewChange].
  rewrite HlastChange, HnewChange.
  destruct (Z.eqb_spec (ReplayChange.rangeLength lastChange) 0) as [Hpure|];
    [|by left].
  destruct (Z.eqb_spec (ReplayChange.rangeLength newChange) 0) as [Hpure'|];
    [|by left].
  cbn [negb orb].
  destruct (Z.eqb_spec (line (ReplayChange.rangeStart lastChange))
                       (line (ReplayChange.rangeStart newChange)))
    as [Hline|]; [|by left].
  cbn [negb].
  destruct (Z.eqb_spec (character (ReplayChange.rangeStart newChange))
                       (character (ReplayChange.rangeStart lastChange)
                        + strlen (ReplayChange.text lastChange)))
    as [Hchar|]; [|by left].
  cbn [negb].
  destruct (Z.eqb_spec (strlen (ReplayChange.text newChange)) 1)
    as [Hsingle|]; [|by left].
  cbn [negb]. right.
  exists earlierEvents, lastEvent, lastChange, newChange.
  rewrite insert_last_snoc, position_eta, Hpure.
  by repeat split.
Qed.

Section WithPlatform.
Variable P : Platform.

(** The handler on an event it takes into account. *)
Lemma handleDocumentChange_recorded (event : TextDocumentChangeEvent)
  (now : Z) (this : ReplayRecorder.t) :
  recorded P this event = true ->
  handleDocumentChange P event now this
  = let (coalesced, buffer') :=
      tryCoalesce (eventOf P event now) (buffer this) in
    if coalesced then set_buffer buffer' this
    else set_buffer (buffer' ++ [eventOf P event now]) this.
Proof.
  unfold recorded, handleDocumentChange.
  intros [[Hsome%negb_true_iff Hfile]%andb_true_iff Hinc%negb_true_iff]
           %andb_true_iff.
  rewrite Hsome, Hfile, Hinc. cbn [negb].
  replace (map _ (contentChanges event))
    with (map changeOf (contentChanges event)); [reflexivity|].
  apply map_ext. intros change. unfold changeOf.
  by rewrite !position_eta.
Qed.

Lemma handleDocumentChange_ignored (event : TextDocumentChangeEvent)
  (now : Z) (this : ReplayRecorder.t) :
  recorded P this event = false ->
  handleDocumentChange P event now this = this.
Proof.
  unfold recorded, handleDocumentChange. intros Hignored.
  destruct (len (contentChanges event) =? 0); [reflexivity|].
  destruct (String.eqb _ "file"); [|reflexivity].
  destruct (isExcluded P _ this); [reflexivity|discriminate].
Qed.

(** What the handler does to the buffer with an event it takes into
    account: it appends the event as it is, or, when every condition
    of [tryCoalesce] holds, merges it into the last buffered event. *)
Lemma handleDocumentChange_cases (event : TextDocumentChangeEvent)
  (now : Z) (this : ReplayRecorder.t) :
  recorded P this event = true ->
  buffer (handleDocumentChange P event now this)
  = buffer this ++ [eventOf P event now]
  \/ exists earlierEvents lastEvent lastChange change,
       buffer this = earlierEvents ++ [lastEvent]
       /\ ReplayEvent.changes lastEvent = [lastChange]
       /\ contentChanges event = [change]
       /\ ReplayEvent.filename lastEvent
          = asRelativePath P (uri (document event))
       /\ now - ReplayEvent.timestamp lastEvent <= 500
       /\ ReplayChange.rangeLength lastChange = 0
       /\ rangeLength change = 0
       /\ line (ReplayChange.rangeStart lastChange)
          = line (range_start (range change))
       /\ character (range_start (range change))
          = character (ReplayChange.rangeStart lastChange)
            + strlen (ReplayChange.text lastChange)
       /\ strlen (text change) = 1
       /\ buffer (handleDocumentChange P event now this)
          = earlierEvents ++ [merged lastEvent lastChange change].
Proof.
  intros Hrecorded. rewrite handleDocumentChange_recorded by exact Hrecorded.
  destruct (tryCoalesce_cases (eventOf P event now) (buffer this))
    as [->|(earlierEvents & lastEvent & lastChange & newChange & Hbuffer
            & Hlast & Hnew & Hfile & Hwindow & Hpure & Hpure' & Hline
            & Hchar & Hsingle & ->)]; [by left|].
  right. cbn [eventOf ReplayEvent.changes ReplayEvent.filename
              ReplayEvent.timestamp] in *.
  destruct (contentChanges event) as [|change [|? ?]]; try discriminate.
  injection Hnew as <-. cbn [changeOf ReplayChange.rangeStart
    ReplayChange.rangeEnd ReplayChange.text ReplayChange.rangeLength] in *.
  exists earlierEvents, lastEvent, lastChange, change.
  by repeat split.
Qed.

(** X22.  Recording loses no text.  After the handler has run, the
    text inserted by the buffered events, read in order, is what it was
    before followed by the texts of the event's changes; this holds
    whether the event was appended or merged into the last buffered
    one.  An event without changes, of a document that is not a file,
    or of an excluded path leaves the recorder as it was. *)
Theorem replay_buffer_keeps_all_text (event : TextDocumentChangeEvent)
  (now : Z) (this : ReplayRecorder.t) :
  (recorded P this event = true ->
     insertedText (buffer (handleDocumentChange P event now this))
     = insertedText (buffer this)
       +:+ textOf (map changeOf (contentChanges event)))
  /\ (recorded P this event = false ->
        handleDocumentChange P event now this = this).
Proof.
  split; [|apply handleDocumentChange_ignored].
  intros Hrecorded.
  destruct (handleDocumentChange_cases event now this Hrecorded)
    as [->|(earlierEvents & lastEvent & lastChange & change & Hbuffer
            & Hlast & Hone & _ & _ & _ & _ & _ & _ & _ & ->)].
  - rewrite insertedText_app. unfold insertedText at 2. cbn.
    rewrite app_nil_r. reflexivity.
  - rewrite Hbuffer, Hone, !insertedText_app, append_assoc. f_equal.
    unfold insertedText. cbn. rewrite Hlast. unfold textOf. cbn.
    by rewrite !append_nil_r.
Qed.

(** The handler on adjacent keystrokes: the two are merged. *)
Lemma handleDocumentChange_merges (event : TextDocumentChangeEvent)
  (now : Z) (this : ReplayRecorder.t) (earlierEvents : list ReplayEvent)
  (lastEvent : ReplayEvent) (lastChange : ReplayChange)
  (change : ContentChange) :
  recorded P this event = true ->
  adjacentKeystroke P (buffer this) event now earlierEvents lastEvent
                    lastChange change ->
  buffer (handleDocumentChange P event now this)
  = earlierEvents ++ [merged lastEvent lastChange change].
Proof.
  intros Hrecorded (Hbuffer & Hlast & Hone & Hfile & Hwindow & Hpure & Hpure'
                    & Hline & Hchar & Hsingle).
  rewrite handleDocumentChange_recorded by exact Hrecorded.
  unfold eventOf. rewrite Hone. cbn [map]. unfold changeOf.
  unfold tryCoalesce. rewrite Hbuffer, len_snoc_eqb, lookup_last_snoc.
  cbn [ReplayEvent.filename ReplayEvent.timestamp ReplayEvent.changes].
  rewrite Hfile, String.eqb_refl. cbn [negb].
  unfold COALESCE_WINDOW_MS.
  destruct (Z.gtb_spec (now - ReplayEvent.timestamp lastEvent) 500); [lia|].
  rewrite Hlast. cbn -[Z.add strlen insert].
  rewrite Hpure, Hpure', Hline, Hchar, Hsingle, !Z.eqb_refl.
  cbn -[Z.add strlen insert].
  rewrite insert_last_snoc, position_eta.
  unfold merged. by rewrite Hfile.
Qed.

(** X23.  Exactly the adjacent keystrokes are merged.  Take an event
    that the handler takes into account.  If it has exactly one change,
    which removes nothing and inserts exactly one character right
    after the text of the last buffered event, and that event is a
    single pure insert of the same file and line, buffered at most
    500 ms before, then the two are merged: the buffer keeps its
    length, and its last event has the concatenated text and the end
    position of the new insert.  And in every other case the event is
    appended to the buffer as an event of its own, with all its changes
    as they are: the buffer is either the old one followed by the
    event, or the conditions hold and it is the merged one. *)
Theorem only_adjacent_keystrokes_are_merged (event : TextDocumentChangeEvent)
  (now : Z) (this : ReplayRecorder.t) :
  recorded P this event = true ->
  (forall earlierEvents lastEvent lastChange change,
     adjacentKeystroke P (buffer this) event now earlierEvents lastEvent
                       lastChange change ->
     buffer (handleDocumentChange P event now this)
     = earlierEvents ++ [merged lastEvent lastChange change])
  /\ (buffer (handleDocumentChange P event now this)
      = buffer this ++ [eventOf P event now]
      \/ exists earlierEvents lastEvent lastChange change,
           adjacentKeystroke P (buffer this) event now earlierEvents
                             lastEvent lastChange change
           /\ buffer (handleDocumentChange P event now this)
              = earlierEvents ++ [merged lastEvent lastChange change]).
Proof.
  intros Hrecorded. split.
  - intros earlierEvents lastEvent lastChange change Hadjacent.
    by apply handleDocumentChange_merges.
  - destruct (handleDocumentChange_cases event now this Hrecorded)
      as [Happended|(earlierEvents & lastEvent & lastChange & change & Hbuffer
                     & Hlast & Hone & Hfile & Hwindow & Hpure & Hpure' & Hline
                     & Hchar & Hsingle & Hmerged)]; [by left|].
    right. exists earlierEvents, lastEvent, lastChange, change.
    split; [|exact Hmerged]. unfold adjacentKeystroke. auto 12.
Qed.

(** X24.  The window of a run of keystrokes is measured from its first
    keystroke.  A merged event keeps the timestamp of the buffered
    event, so once an event has been merged into the last buffered
    event, an event that arrives more than 500 ms after that buffered
    event's timestamp starts an event of its own, however short the
    time since the keystroke before it. *)
Theorem coalescing_window_starts_at_first_keystroke
  (event1 event2 : TextDocumentChangeEvent) (now1 now2 : Z)
  (this : ReplayRecorder.t) (lastEvent : ReplayEvent) :
  last (buffer this) = Some lastEvent ->
  recorded P this event1 = true ->
  recorded P this event2 = true ->
  let merged1 := handleDocumentChange P event1 now1 this in
  length (buffer merged1) = length (buffer this) ->
  now2 - ReplayEvent.timestamp lastEvent > 500 ->
  buffer (handleDocumentChange P event2 now2 merged1)
  = buffer merged1 ++ [eventOf P event2 now2].
Proof.
  intros Hlast Hrecorded1 Hrecorded2 merged1 Hlength Hlate.
  assert (Hpatterns : excludePatterns merged1 = excludePatterns this).
  { subst merged1. rewrite handleDocumentChange_recorded by exact Hrecorded1.
    destruct (tryCoalesce _ _) as [[|] ?]; reflexivity. }
  assert (Hrecorded2' : recorded P merged1 event2 = true).
  { revert Hrecorded2. unfold recorded, isExcluded. by rewrite Hpatterns. }
  assert (Hkept : exists final,
            last (buffer merged1) = Some final
            /\ ReplayEvent.timestamp final = ReplayEvent.timestamp lastEvent).
  { destruct (handleDocumentChange_cases event1 now1 this Hrecorded1)
      as [Happended|(earlierEvents & lastEvent' & lastChange & change
                     & Hbuffer & _ & _ & _ & _ & _ & _ & _ & _ & _ & Hmerged)].
    - fold merged1 in Happended. rewrite Happended, length_app in Hlength.
      cbn in Hlength. lia.
    - fold merged1 in Hmerged. rewrite Hmerged, last_snoc.
      rewrite Hbuffer, last_snoc in Hlast. injection Hlast as ->.
      by eexists. }
  destruct Hkept as (final & Hfinal & Htime).
  destruct (handleDocumentChange_cases event2 now2 merged1 Hrecorded2')
    as [Happended|(earlierEvents & lastEvent' & ? & ? & Hbuffer & _ & _ & _
                   & Hwindow & _)]; [exact Happended|].
  rewrite Hbuffer, last_snoc in Hfinal. injection Hfinal as ->. lia.
Qed.

End WithPlatform.
End ReplayFacts.
(** ** A whole recording *)

Module SessionFacts.
Import Engine EngineSpec EngineProofs SnapshotStorage SnapshotStorageSpec.

Section WithPlatform.
Variable P : Platform.

Lemma filter_Forall {A} (f : A -> bool) (xs : list A) :
  Forall (fun x => f x = true) xs -> List.filter f xs = xs.
Proof.
  induction 1 as [|x rest Hx _ IH]; [reflexivity|]. cbn. by rewrite Hx, IH.
Qed.

Lemma recording_frame (rows : list Session) (sid : string)
  (this this' : SnapshotEngine) :
  isRunning this' = isRunning this ->
  sessionId this' = sessionId this ->
  storage this' = storage this ->
  fired this' = fired this ->
  recording rows sid this -> recording rows sid this'.
Proof. unfold recording. by intros -> -> -> ->. Qed.

(** One turn of the loop of a tick stays within the session. *)
Lemma emit_recording (ed : Editor) (filePath : string)
  (pending : PendingChange) (message : string) (rows : list Session)
  (sid : string) (this : SnapshotEngine) :
  recording rows sid this ->
  recording rows sid
    (snd (try_catch (emitSnapshot P ed filePath pending)
                    (consoleError message) this)).
Proof.
  intros Hrec.
  destruct (try_catch (emitSnapshot P ed filePath pending)
              (consoleError message) this) as [r this'] eqn:E.
  cbn [snd]. unfold try_catch in E.
  destruct (openDocument ed filePath) as [document|] eqn:Hdoc.
  2:{ unfold emitSnapshot in E. unfold openDocument in Hdoc.
      rewrite Hdoc in E. cbn in E. by injection E as <- <-. }
  destruct (String.eqb_spec (getText document)
              (default "" (fileContents this !! filePath))) as [Heq|Hne].
  { unfold emitSnapshot in E. unfold openDocument in Hdoc.
    rewrite Hdoc in E. unfold bind, get in E.
    rewrite <- Heq, String.eqb_refl in E. cbn in E.
    by injection E as <- <-. }
  destruct (createPatch P (asRelativePath P (uri document))
              (default "" (fileContents this !! filePath)) (getText document))
    as [unifiedDiff|error] eqn:Hpatch.
  2:{ unfold emitSnapshot in E. unfold openDocument in Hdoc.
      rewrite Hdoc in E. unfold bind, get in E.
      apply String.eqb_neq in Hne. rewrite Hne, Hpatch in E. cbn in E.
      injection E as <- <-. by apply (recording_frame rows sid this). }
  rewrite (emitSnapshot_changed P ed filePath pending this document
             unifiedDiff) in E by assumption.
  set (snapshot := snapshotOf P this document filePath pending unifiedDiff)
    in *.
  destruct Hrec as (Hrun & Hsid & Hrows & Hfired).
  assert (Hall : Forall (fun s => Snapshot.session_id s = sid)
                        (fired this ++ [snapshot])).
  { apply Forall_app. split; [exact Hfired|]. by repeat constructor. }
  destruct (storage this) as [db|] eqn:Hdb; [|discriminate].
  unfold bind, try_catch, onStorage in E.
  cbn [storage set_snapshotCount set_fileContents set_lastChainHash
       set_readings] in E. rewrite Hdb in E.
  unfold saveSnapshot in E.
  destruct (existsb _ (snapshots db)); cbn in E; injection E as <- <-;
    unfold recording; cbn; by rewrite ?Hdb.
Qed.

Lemma loop_recording (ed : Editor) (entries : list (string * PendingChange))
  (rows : list Session) (sid : string) (this : SnapshotEngine) :
  recording rows sid this ->
  recording rows sid
    (snd (for_of entries
            (fun '(filePath, pending) =>
               try_catch (emitSnapshot P ed filePath pending)
                 (consoleError
                    ("[CodeProof] Error processing snapshot for "
                       +:+ filePath +:+ ":")))
            this)).
Proof.
  revert this. induction entries as [|[filePath pending] rest IH];
    intros this Hrec; [exact Hrec|].
  rewrite for_of_cons_normal by apply try_catch_logged.
  by apply IH, emit_recording.
Qed.

Lemma tick_recording (ed : Editor) (rows : list Session) (sid : string)
  (this : SnapshotEngine) :
  recording rows sid this ->
  recording rows sid (snd (processSnapshots P ed this)).
Proof.
  intros Hrec. destruct (isPaused this) eqn:Hpaused.
  - by rewrite processSnapshots_paused.
  - destruct (EngineFacts.processSnapshots_unpaused P ed this Hpaused)
      as (looped & -> & -> & _). cbn [snd].
    pose proof (loop_recording ed (pendingChanges this) rows sid this Hrec)
      as Hlooped.
    revert Hlooped. by apply recording_frame.
Qed.

Lemma tick_inStep (ed : Editor) (this : SnapshotEngine) :
  inStep P this ->
  List.NoDup (map Snapshot.id (fired (snd (processSnapshots P ed this)))) ->
  inStep P (snd (processSnapshots P ed this)).
Proof.
  intros Hstep. destruct (isPaused this) eqn:Hpaused.
  - by rewrite processSnapshots_paused.
  - destruct (EngineFacts.processSnapshots_unpaused P ed this Hpaused)
      as (looped & -> & -> & _). cbn [snd fired set_pendingChanges].
    intros Hnodup.
    pose proof (ChainFacts.loop_inStep P ed (pendingChanges this) this
                  Hstep Hnodup) as Hlooped.
    revert Hlooped. by apply ChainFacts.inStep_frame.
Qed.

Lemma handleDocumentChange_sessionId (event : TextDocumentChangeEvent)
  (this : SnapshotEngine) :
  sessionId (handleDocumentChange P event this) = sessionId this.
Proof.
  unfold handleDocumentChange.
  destruct (len (contentChanges event) =? 0); [reflexivity|].
  destruct (negb _); [reflexivity|].
  destruct (isExcluded P _ this); [reflexivity|].
  destruct (fileContents this !! _);
    cbn [pendingChanges set_fileContents];
    by destruct (OrderedMap.get _ (pendingChanges this)).
Qed.

Lemma step_recording (rows : list Session) (sid : string)
  (this : SnapshotEngine) (call : Call) :
  withinSession call = true ->
  recording rows sid this -> recording rows sid (step P this call).
Proof.
  intros Hcall Hrec. destruct call; try discriminate Hcall; cbn [step].
  - unfold pause. destruct (_ || _); [exact Hrec|].
    by apply (recording_frame rows sid this).
  - unfold resume. destruct (_ || _); [exact Hrec|].
    by apply (recording_frame rows sid this).
  - destruct (changeListener this); [|exact Hrec].
    destruct (EngineFacts.handleDocumentChange_frame P event this)
      as ((Hfired & Hdb & _ & _ & Hrun & _) & _).
    apply (recording_frame rows sid this); auto.
    apply handleDocumentChange_sessionId.
  - destruct (intervalHandle this); [|exact Hrec]. by apply tick_recording.
Qed.

Lemma run_recording (rows : list Session) (sid : string)
  (calls : list Call) (this : SnapshotEngine) :
  forallb withinSession calls = true ->
  recording rows sid this -> recording rows sid (run P calls this).
Proof.
  revert this. induction calls as [|call rest IH]; intros this Hcalls Hrec;
    [exact Hrec|].
  cbn [forallb] in Hcalls. apply andb_true_iff in Hcalls as [Hcall Hrest].
  rewrite EngineFacts.run_cons. by apply IH, step_recording.
Qed.

(** [start] on an engine that is not running, over a store that has no
    session of the id drawn. *)
Lemma start_creates (ed : Editor) (this : SnapshotEngine)
  (db0 : SnapshotStorage.t) :
  isRunning this = false ->
  storage this = Some db0 ->
  ~ In (randomUUID P (readings this)) (map Session.id (sessions db0)) ->
  let started := snd (start P ed this) in
  isRunning started = true
  /\ sessionId started = randomUUID P (readings this)
  /\ storage started
     = Some {| snapshots := snapshots db0;
               sessions :=
                 sessions db0
                 ++ [ {| Session.id := randomUUID P (readings this);
                         Session.started_at :=
                           toISOString P (S (readings this));
                         Session.ended_at := "";
                         Session.project_name :=
                           hd "unknown" (workspaceFolders ed);
                         Session.files_touched := [];
                         Session.total_snapshots := 0 |} ] |}
  /\ fired started = fired this
  /\ lastChainHash started = ""
  /\ snapshotCount started = 0.
Proof.
  intros Hidle Hdb Hfresh. cbv zeta.
  unfold start, bind, get, modify, generateUUID, readClock, onStorage.
  rewrite Hidle. cbn. rewrite Hdb. cbn. rewrite Hdb.
  unfold createSession.
  destruct (existsb _ (sessions db0)) eqn:Htaken.
  { exfalso. apply Hfresh. apply existsb_exists in Htaken as (row & Hrow & E).
    apply String.eqb_eq in E. apply in_map_iff. by exists row. }
  cbn. auto 10.
Qed.

(** [stop] on a running engine with a store: the tick, then the end of
    the session. *)
Lemma stop_closes (ed : Editor) (this : SnapshotEngine)
  (db : SnapshotStorage.t) :
  isRunning this = true ->
  is_Some (storage this) ->
  let ticked := snd (processSnapshots P ed this) in
  storage ticked = Some db ->
  let stopped := snd (stop P ed this) in
  storage stopped
  = Some (snd (endSession (sessionId this)
                 (toISOString P (readings ticked)) db))
  /\ fired stopped = fired ticked
  /\ snapshotCount stopped = snapshotCount ticked
  /\ sessionId stopped = sessionId ticked.
Proof.
  intros Hrun [db0 Hdb0]. cbv zeta.
  destruct (stop P ed this) as [c final] eqn:E. cbn [snd].
  unfold stop in E. unfold bind at 1 in E. unfold get at 1 in E.
  rewrite Hrun in E. cbn [negb] in E. unfold bind at 1 in E.
  pose proof (processSnapshots_returns P ed this) as Hret.
  destruct (processSnapshots P ed this) as [r ticked]. cbn in Hret.
  subst r. cbn [snd]. intros Hdb. rewrite Hdb0 in E.
  unfold try_catch, bind, readClock, onStorage, modify in E.
  cbn [storage set_readings] in E. rewrite Hdb in E. cbn in E.
  injection E as <- <-. cbn. auto.
Qed.

(** X25.  A whole recording.  Take an engine made over a store without
    snapshots and without a session of the id that [start] draws;
    start it, let any change events, timer ticks and calls of [pause]
    and [resume] follow, and stop it.  If the snapshots fired have
    distinct ids, the store then holds exactly the snapshots fired and
    one more session, the one of this recording: every snapshot carries
    its id, its [total_snapshots] is the number of snapshots fired,
    which is also the counter of the engine, and its [files_touched]
    are their file names, each once. *)
Theorem recording_closes_its_session (ed ed' : Editor)
  (db0 : SnapshotStorage.t) (pasteThreshold0 : Z)
  (excludePatterns0 : list string) (calls : list Call) :
  snapshots db0 = [] ->
  ~ In (randomUUID P 1) (map Session.id (sessions db0)) ->
  let started :=
    snd (start P ed (create P (Some db0) pasteThreshold0 excludePatterns0)) in
  let stopped := snd (stop P ed' (run P calls started)) in
  forallb withinSession calls = true ->
  List.NoDup (map Snapshot.id (fired stopped)) ->
  exists db closed,
    storage stopped = Some db
    /\ snapshots db = fired stopped
    /\ sessions db = sessions db0 ++ [closed]
    /\ Session.id closed = randomUUID P 1
    /\ Session.project_name closed = hd "unknown" (workspaceFolders ed)
    /\ Session.total_snapshots closed = len (fired stopped)
    /\ Session.total_snapshots closed
       = EngineStats.snapshotCount (getStats stopped)
    /\ Session.files_touched closed
       = distinct [] (map Snapshot.filename (fired stopped))
    /\ Forall (fun snapshot =>
                 Snapshot.session_id snapshot = Session.id closed)
              (fired stopped).
Proof.
  intros Hempty Hfresh started stopped Hcalls Hnodup.
  set (engine := create P (Some db0) pasteThreshold0 excludePatterns0) in *.
  destruct (start_creates ed engine db0 eq_refl eq_refl Hfresh)
    as (Hrun & Hsid & Hdb & Hfired & Hcursor & Hcount).
  fold started in Hrun, Hsid, Hdb, Hfired, Hcursor, Hcount.
  change (readings engine) with 1%nat in *.
  set (opened := {| Session.id := randomUUID P 1;
                    Session.started_at := toISOString P 2;
                    Session.ended_at := "";
                    Session.project_name := hd "unknown" (workspaceFolders ed);
                    Session.files_touched := [];
                    Session.total_snapshots := 0 |}) in *.
  set (final := run P calls started) in *.
  set (ticked := snd (processSnapshots P ed' final)).
  assert (Hstep0 : inStep P started).
  { unfold inStep. rewrite Hfired, Hdb, Hcursor, Hcount. cbn.
    by rewrite Hempty. }
  assert (Hrec0 : recording (sessions db0 ++ [opened]) (randomUUID P 1)
                            started).
  { unfold recording. rewrite Hrun, Hsid, Hdb, Hfired. cbn.
    repeat split. constructor. }
  pose proof (run_recording _ _ calls started Hcalls Hrec0) as Hrec.
  fold final in Hrec.
  pose proof (tick_recording ed' _ _ final Hrec) as Hrec'.
  fold ticked in Hrec'.
  destruct Hrec as (Hrunning & Hsession & Hrows & _).
  assert (His : is_Some (storage final)).
  { destruct (storage final); [eauto|discriminate]. }
  destruct Hrec' as (_ & Hsession' & Hrows' & Hall).
  destruct (storage ticked) as [db|] eqn:Hticked; [|discriminate].
  destruct (stop_closes ed' final db Hrunning His Hticked)
    as (Hstored & Hsame & Hcounter & Hsid').
  fold stopped in Hstored, Hsame, Hcounter, Hsid'. fold ticked in Hsame.
  rewrite Hsame in Hnodup.
  assert (Hstep : inStep P ticked).
  { apply tick_inStep; [|exact Hnodup].
    apply ChainFacts.run_inStep; [exact Hcalls|exact Hstep0|].
    destruct (ChainFacts.loop_appends P ed' [] final) as (? & _).
    assert (Hprefix : exists more, fired ticked = fired final ++ more).
    { subst ticked. destruct (isPaused final) eqn:Hpaused.
      - rewrite processSnapshots_paused by exact Hpaused.
        exists []. by rewrite app_nil_r.
      - destruct (EngineFacts.processSnapshots_unpaused P ed' final Hpaused)
          as (looped & -> & -> & _). cbn. apply ChainFacts.loop_appends. }
    destruct Hprefix as (more & Hmore). rewrite Hmore in Hnodup.
    by apply ChainFacts.NoDup_ids_prefix in Hnodup. }
  destruct Hstep as (Hsnapshots & _ & _ & Hcounted).
  rewrite Hticked in Hsnapshots. cbn in Hsnapshots, Hrows'.
  injection Hsnapshots as Hsnapshots. injection Hrows' as Hrows'.
  assert (Hmine : List.filter
                    (fun row => String.eqb (Snapshot.session_id row)
                                           (randomUUID P 1))
                    (snapshots db) = fired ticked).
  { rewrite Hsnapshots. apply filter_Forall.
    apply List.Forall_forall. intros row Hrow.
    apply String.eqb_eq. revert row Hrow. by apply List.Forall_forall. }
  set (closed :=
         {| Session.id := randomUUID P 1;
            Session.started_at := toISOString P 2;
            Session.ended_at := toISOString P (readings ticked);
            Session.project_name := hd "unknown" (workspaceFolders ed);
            Session.files_touched :=
              distinct [] (map Snapshot.filename (fired ticked));
            Session.total_snapshots := len (fired ticked) |}).
  exists (snd (endSession (sessionId final)
                 (toISOString P (readings ticked)) db)), closed.
  split; [exact Hstored|].
  unfold endSession. cbn [snd snapshots sessions]. rewrite Hsession, Hmine.
  rewrite Hrows'. unfold updateSession. rewrite map_app.
  split; [by rewrite Hsame|]. split.
  { f_equal.
    - apply StorageFacts.updateSession_other. intros row Hrow E.
      apply Hfresh. apply in_map_iff. by exists row.
    - cbn. by rewrite String.eqb_refl. }
  cbn [Session.id Session.project_name Session.total_snapshots
       Session.files_touched closed getStats EngineStats.snapshotCount].
  rewrite Hsame, Hcounter. fold ticked. rewrite Hcounted. by repeat split.
Qed.

End WithPlatform.
End SessionFacts.
(** ** Counting the lines of a diff *)

Module DiffFacts.
Import Engine EngineSpec.

Lemma append_nil_l (s : string) : "" +:+ s = s.
Proof. reflexivity. Qed.

Lemma append_cons (c : ascii) (a b : string) :
  String c a +:+ b = String c (a +:+ b).
Proof. reflexivity. Qed.

Lemma splitLines_line (s : string) :
  noNewline s = true -> splitLines s = [s].
Proof.
  induction s as [|c rest IH]; [reflexivity|]. cbn [noNewline splitLines].
  intros [Hc Hrest]%andb_true_iff. apply negb_true_iff in Hc.
  by rewrite Hc, IH.
Qed.

Lemma splitLines_cons_line (line rest : string) :
  noNewline line = true ->
  splitLines (line +:+ String "010"%char rest) = line :: splitLines rest.
Proof.
  induction line as [|c line IH]; [reflexivity|]. cbn [noNewline].
  intros [Hc Hline]%andb_true_iff. apply negb_true_iff in Hc.
  rewrite append_cons. cbn [splitLines]. by rewrite Hc, IH.
Qed.

(** Splitting at line feeds gives back the lines that were joined. *)
Lemma splitLines_joinLines (lines : list string) :
  lines <> [] ->
  Forall (fun line => noNewline line = true) lines ->
  splitLines (joinLines lines) = lines.
Proof.
  induction lines as [|line rest IH]; [done|]. intros _ Hlines.
  apply Forall_cons_1 in Hlines as [Hline Hrest].
  destruct rest as [|next rest]; [by apply splitLines_line|].
  change (joinLines (line :: next :: rest))
    with (line +:+ String "010"%char (joinLines (next :: rest))).
  rewrite splitLines_cons_line by exact Hline.
  by rewrite IH.
Qed.

Lemma prefix_nil (s : string) : String.prefix "" s = true.
Proof. by destruct s. Qed.

Lemma prefix_cons (a b : ascii) (s t : string) :
  String.prefix (String a s) (String b t)
  = if ascii_dec a b then String.prefix s t else false.
Proof. reflexivity. Qed.

Lemma plus_is_not_minus (line : string) :
  startsWith line "+" = true -> startsWith line "-" = false.
Proof.
  unfold startsWith. destruct line as [|c rest]; [discriminate|].
  rewrite !prefix_cons.
  destruct (ascii_dec "+" c) as [<-|]; [|discriminate]. reflexivity.
Qed.

(** The loop of [countDiffLines] counts the lines of each kind. *)
Lemma countDiffLines_loop (lines : list string) (linesAdded linesRemoved : Z) :
  fold_left
    (fun '(linesAdded, linesRemoved) line =>
       if startsWith line "+" && negb (startsWith line "+++")
       then (linesAdded + 1, linesRemoved)
       else if startsWith line "-" && negb (startsWith line "---")
            then (linesAdded, linesRemoved + 1)
            else (linesAdded, linesRemoved))
    lines (linesAdded, linesRemoved)
  = (linesAdded
     + len (List.filter
              (fun line => startsWith line "+" && negb (startsWith line "+++"))
              lines),
     linesRemoved
     + len (List.filter
              (fun line => startsWith line "-" && negb (startsWith line "---"))
              lines)).
Proof.
  revert linesAdded linesRemoved.
  induction lines as [|line rest IH]; intros linesAdded linesRemoved.
  - unfold len. cbn. f_equal; lia.
  - cbn [fold_left List.filter].
    destruct (startsWith line "+") eqn:Hplus.
    + rewrite (plus_is_not_minus line Hplus). cbn [andb].
      destruct (negb (startsWith line "+++")); rewrite IH; unfold len;
        cbn [length]; f_equal; lia.
    + cbn [andb].
      destruct (startsWith line "-" && negb (startsWith line "---"));
        rewrite IH; unfold len; cbn [length]; f_equal; lia.
Qed.

Lemma added_line (content : string) :
  startsWith ("+" +:+ content) "+" = true
  /\ startsWith ("+" +:+ content) "+++" = startsWith content "++"
  /\ startsWith ("+" +:+ content) "-" = false.
Proof.
  unfold startsWith. rewrite append_cons, append_nil_l, !prefix_cons.
  cbn. by rewrite prefix_nil.
Qed.

Lemma removed_line (content : string) :
  startsWith ("-" +:+ content) "-" = true
  /\ startsWith ("-" +:+ content) "---" = startsWith content "--"
  /\ startsWith ("-" +:+ content) "+" = false.
Proof.
  unfold startsWith. rewrite append_cons, append_nil_l, !prefix_cons.
  cbn. by rewrite prefix_nil.
Qed.

Lemma countDiffLines_joined (before after : list string) (line : string) :
  Forall (fun line => noNewline line = true) (before ++ line :: after) ->
  countDiffLines (joinLines (before ++ line :: after))
  = (len (List.filter
            (fun line => startsWith line "+" && negb (startsWith line "+++"))
            (before ++ after))
     + (if startsWith line "+" && negb (startsWith line "+++")
        then 1 else 0),
     len (List.filter
            (fun line => startsWith line "-" && negb (startsWith line "---"))
            (before ++ after))
     + (if startsWith line "-" && negb (startsWith line "---")
        then 1 else 0)).
Proof.
  intros Hlines. unfold countDiffLines.
  rewrite splitLines_joinLines; [|by destruct before|exact Hlines].
  rewrite countDiffLines_loop, !List.filter_app. cbn [List.filter].
  unfold len.
  destruct (startsWith line "+" && negb (startsWith line "+++"));
    destruct (startsWith line "-" && negb (startsWith line "---"));
    rewrite !length_app; cbn [length]; f_equal; lia.
Qed.

(** X26.  [countDiffLines] counts an added line once, unless the text
    of the line itself begins with [++]: the line of the diff then
    begins with [+++], which the count takes for the header of the
    patch, and the line is not counted.  Likewise a removed line whose
    text begins with [--] is not counted.  The counts are compared with
    those of the same diff with an empty line in the place of the
    line. *)
Theorem countDiffLines_skips_lines_that_look_like_headers
  (before after : list string) (content : string) :
  Forall (fun line => noNewline line = true) (before ++ content :: after) ->
  let counted :=
    fun line => countDiffLines (joinLines (before ++ line :: after)) in
  counted ("+" +:+ content)
  = (fst (counted "") + (if startsWith content "++" then 0 else 1),
     snd (counted ""))
  /\ counted ("-" +:+ content)
     = (fst (counted ""),
        snd (counted "") + (if startsWith content "--" then 0 else 1)).
Proof.
  intros Hlines. cbv beta zeta.
  assert (Hwith : forall line, noNewline line = true ->
            Forall (fun line => noNewline line = true)
                   (before ++ line :: after)).
  { intros line Hline. apply Forall_app in Hlines as [Hbefore Hafter].
    apply Forall_cons_1 in Hafter as [Hcontent Hafter].
    apply Forall_app. split; [exact Hbefore|]. by constructor. }
  assert (Hcontent : noNewline content = true).
  { apply Forall_app in Hlines as [_ Hafter].
    by apply Forall_cons_1 in Hafter as [Hcontent _]. }
  rewrite !countDiffLines_joined
    by (apply Hwith; first [exact Hcontent|reflexivity]).
  destruct (added_line content) as (-> & -> & ->).
  destruct (removed_line content) as (-> & -> & ->).
  change (startsWith "" "+") with false. change (startsWith "" "-") with false.
  cbn [andb negb fst snd].
  split; [destruct (startsWith content "++")
         |destruct (startsWith content "--")]; cbn [negb]; f_equal; lia.
Qed.

End DiffFacts.

(** ** The paste threshold *)

Module ThresholdFacts.
Import Engine EngineSpec EngineProofs.

Lemma strlen_nonneg (s : string) : 0 <= strlen s.
Proof. unfold strlen. lia. Qed.

Lemma detect_nonpositive_threshold (pasteThreshold : Z)
  (event : TextDocumentChangeEvent) (change : ContentChange) :
  pasteThreshold <= 0 ->
  contentChanges event = [change] ->
  ChangeDetector.detect pasteThreshold event = Paste.
Proof.
  intros Hthreshold Hone. unfold ChangeDetector.detect. rewrite Hone. cbn.
  pose proof (strlen_nonneg (text change)).
  destruct (Z.geb_spec (strlen (text change)) pasteThreshold);
    [reflexivity|lia].
Qed.

Section WithPlatform.
Variable P : Platform.

(** X27.  The paste threshold is taken from the configuration as it
    is.  When it is zero or negative, every event with a single change
    is classified as a paste, a pure deletion included, and since a
    paste has the highest priority the pending entry of the file is a
    paste after any such event that the handler takes into account,
    whatever was pending before. *)
Theorem nonpositive_threshold_makes_every_edit_a_paste
  (event : TextDocumentChangeEvent) (change : ContentChange)
  (this : SnapshotEngine) :
  pasteThreshold this <= 0 ->
  contentChanges event = [change] ->
  ChangeDetector.detect (pasteThreshold this) event = Paste
  /\ (delivered P this event = true ->
      exists entry,
        OrderedMap.get (fsPath (uri (document event)))
                       (pendingChanges (handleDocumentChange P event this))
        = Some entry
        /\ PendingChange.changeType entry = Paste).
Proof.
  intros Hthreshold Hone.
  pose proof (detect_nonpositive_threshold _ event change Hthreshold Hone)
    as Hpaste.
  split; [exact Hpaste|]. intros Hdelivered.
  rewrite handleDocumentChange_pending, Hdelivered, String.eqb_refl.
  cbn [andb]. unfold accumulate. rewrite Hpaste.
  destruct (OrderedMap.get _ (pendingChanges this)) as [existing|];
    eexists; (split; [reflexivity|]); cbn; [|reflexivity].
  by destruct (PendingChange.changeType existing).
Qed.

End WithPlatform.
End ThresholdFacts.
(** ** The further properties on the recording of [a.py] *)

Module FurtherExamples.
Import Demo Scenario.

Lemma tick_emits_once_per_changed_file_witness :
  let this := recorded SnapshotStorage.empty in
  let ticked := snd (Engine.processSnapshots platform (editor "hello") this) in
  List.NoDup (map fst (pendingChanges this))
  /\ pendingChanges ticked = []
  /\ map Snapshot.filename (fired ticked) = ["a.py"].
Proof.
  cbv zeta.
  assert (Hnodup : List.NoDup
            (map fst (pendingChanges (recorded SnapshotStorage.empty)))).
  { apply NoDup_ListNoDup. compute_done. }
  split; [exact Hnodup|].
  destruct (EngineFacts.tick_emits_once_per_changed_file platform
              (editor "hello") (recorded SnapshotStorage.empty) Hnodup)
    as [_ Hrun].
  destruct (Hrun eq_refl) as (_ & Hpending & emitted & Hfired & Hnames).
  split; [exact Hpending|]. rewrite Hfired, map_app, Hnames.
  vm_compute. reflexivity.
Defined.

Lemma pause_keeps_edits_and_skips_ticks_witness :
  let this := started SnapshotStorage.empty in
  let calls :=
    [EngineSpec.Change (edit "hello" (insertion 0 0 "hello"));
     EngineSpec.Tick (editor "hello")] in
  let resumed :=
    Engine.resume (EngineSpec.run platform calls (Engine.pause this)) in
  fired resumed = [] /\ pendingChanges resumed = [(pathA, pendingA)].
Proof.
  cbv zeta.
  destruct (EngineFacts.pause_keeps_edits_and_skips_ticks platform
              [EngineSpec.Change (edit "hello" (insertion 0 0 "hello"));
               EngineSpec.Tick (editor "hello")]
              (started SnapshotStorage.empty) eq_refl eq_refl eq_refl)
    as (Hresumed & _ & _).
  rewrite Hresumed. by vm_compute.
Defined.

Lemma stopped_engine_is_inert_witness :
  let stopped :=
    snd (Engine.stop platform (editor "hello")
           (recorded SnapshotStorage.empty)) in
  let calls :=
    [EngineSpec.Change (edit "hello!" (insertion 0 5 "!"));
     EngineSpec.Tick (editor "hello!");
     EngineSpec.CallPause;
     EngineSpec.CallStop (editor "hello!")] in
  isRunning stopped = false
  /\ EngineSpec.run platform calls stopped = stopped.
Proof.
  cbv zeta.
  destruct (EngineFacts.stopped_engine_is_inert platform (editor "hello")
              (recorded SnapshotStorage.empty)
              [EngineSpec.Change (edit "hello!" (insertion 0 5 "!"));
               EngineSpec.Tick (editor "hello!");
               EngineSpec.CallPause;
               EngineSpec.CallStop (editor "hello!")] eq_refl)
    as ((Hidle & _) & Hinert).
  split; [exact Hidle|]. by apply Hinert.
Defined.

Lemma first_recording_verifies_witness :
  let calls :=
    [EngineSpec.Change (edit "hello" (insertion 0 0 "hello"));
     EngineSpec.Tick (editor "hello")] in
  let final := EngineSpec.run platform calls (started SnapshotStorage.empty) in
  option_map (SnapshotStorage.verifyHashChain platform) (storage final)
  = Some true
  /\ snapshotCount final = 1.
Proof.
  cbv zeta.
  destruct (ChainFacts.first_recording_verifies platform (editor "")
              SnapshotStorage.empty 50 []
              [EngineSpec.Change (edit "hello" (insertion 0 0 "hello"));
               EngineSpec.Tick (editor "hello")] eq_refl eq_refl)
    as (_ & Hverified & Hcount & _).
  - apply NoDup_ListNoDup. vm_compute. apply NoDup_singleton.
  - vm_compute. repeat constructor.
  - split; [exact Hverified|]. etransitivity; [exact Hcount|].
    vm_compute. reflexivity.
Defined.

Lemma later_recording_breaks_chain_witness :
  let db :=
    {| SnapshotStorage.snapshots := [snapshotA Typing 1];
       SnapshotStorage.sessions := [] |} in
  let this :=
    snd (Engine.start platform (editor "")
           (Engine.create platform (Some db) 50 [])) in
  exists db',
    storage (snd (Engine.emitSnapshot platform (editor "hello") pathA pendingA
                    this))
    = Some db'
    /\ SnapshotStorage.verifyHashChain platform db' = false.
Proof.
  cbv zeta.
  destruct (ChainFacts.later_recording_breaks_chain platform
              (editor "") (editor "hello")
              (Engine.create platform
                 (Some {| SnapshotStorage.snapshots := [snapshotA Typing 1];
                          SnapshotStorage.sessions := [] |}) 50 [])
              pathA pendingA (docA "hello") patchA
              {| SnapshotStorage.snapshots := [snapshotA Typing 1];
                 SnapshotStorage.sessions :=
                   [ {| Session.id := randomUUID 1;
                        Session.started_at := toISOString 2;
                        Session.ended_at := "";
                        Session.project_name := "coursework";
                        Session.files_touched := [];
                        Session.total_snapshots := 0 |} ] |}
              [] (snapshotA Typing 1))
    as (_ & db' & Hstored & _ & Hbroken).
  - reflexivity.
  - reflexivity.
  - by vm_compute.
  - reflexivity.
  - reflexivity.
  - reflexivity.
  - intros row [<-|[]]. by vm_compute.
  - vm_compute. intros [H|[]]. discriminate H.
  - by vm_compute.
  - by exists db'.
Defined.

Lemma unparseable_timestamp_counts_as_long_gap_witness :
  let undated := snapshotAt 8 "yesterday" 30 5 in
  exists flag,
    In flag (FlagAnalyzer.detectLongGapThenCompletion platform
               [snapshotA Typing 1; undated])
    /\ Flag.category flag = long_gap
    /\ Flag.snapshotIds flag = [Snapshot.id undated].
Proof.
  cbv zeta. eexists. split.
  - apply (AnalyzerFacts.unparseable_timestamp_counts_as_long_gap platform
             [] [] (snapshotA Typing 1) (snapshotAt 8 "yesterday" 30 5));
      by vm_compute.
  - by split.
Defined.

Lemma unusual_speed_flags_every_fast_window_witness :
  let first := snapshotAt 1 (toISOString 0) 1 600 in
  let second := snapshotAt 2 (toISOString 60) 1 600 in
  exists flag,
    In flag (FlagAnalyzer.detectUnusualSpeed platform [first; second])
    /\ Flag.snapshotIds flag = [Snapshot.id first; Snapshot.id second].
Proof.
  cbv zeta. eexists. split.
  - eapply (proj2 (AnalyzerFacts.unusual_speed_flags_every_fast_window
                     platform
                     [snapshotAt 1 (toISOString 0) 1 600;
                      snapshotAt 2 (toISOString 60) 1 600] _ _)).
    exists [], (snapshotAt 1 (toISOString 0) 1 600),
           [snapshotAt 2 (toISOString 60) 1 600].
    split; [reflexivity|]. cbv zeta. split; [by vm_compute|].
    split; [vm_compute; lia|reflexivity].
  - by vm_compute.
  Unshelve. apply NoDup_ListNoDup. vm_compute. compute_done.
Defined.

Lemma analyze_severity_by_category_witness :
  let flag :=
    {| Flag.category := large_paste;
       Flag.severity := medium;
       Flag.timestamp := toISOString 0;
       Flag.filename := "a.py";
       Flag.snapshotIds := [randomUUID 7] |} in
  In flag (FlagAnalyzer.analyze platform [snapshotA Paste 42])
  /\ Flag.severity flag = FlagAnalyzerSpec.severityOf (Flag.category flag)
  /\ Flag.severity flag <> info.
Proof.
  cbv zeta.
  assert (Hin : In {| Flag.category := large_paste;
                      Flag.severity := medium;
                      Flag.timestamp := toISOString 0;
                      Flag.filename := "a.py";
                      Flag.snapshotIds := [randomUUID 7] |}
                   (FlagAnalyzer.analyze platform [snapshotA Paste 42])).
  { by left. }
  split; [exact Hin|].
  exact (AnalyzerFacts.analyze_severity_by_category platform _ _ Hin).
Defined.

Lemma only_adjacent_keystrokes_are_merged_witness :
  let typed := edit "ab" (insertion 0 1 "b") in
  let pasted := edit "abc" (insertion 0 1 "bc") in
  ReplayRecorder.buffer
    (ReplayRecorder.handleDocumentChange platform typed 1100 recorder)
  = [ReplaySpec.merged keyEvent keyChange (insertion 0 1 "b")]
  /\ ReplayRecorder.buffer
       (ReplayRecorder.handleDocumentChange platform pasted 1100 recorder)
     = [keyEvent; ReplaySpec.eventOf platform pasted 1100].
Proof.
  cbv zeta. split.
  - apply (proj1 (ReplayFacts.only_adjacent_keystrokes_are_merged platform
                    (edit "ab" (insertion 0 1 "b")) 1100 recorder eq_refl)
                 [] keyEvent keyChange (insertion 0 1 "b")).
    unfold ReplaySpec.adjacentKeystroke.
    repeat split; try reflexivity. vm_compute. discriminate.
  - destruct (proj2 (ReplayFacts.only_adjacent_keystrokes_are_merged platform
                       (edit "abc" (insertion 0 1 "bc")) 1100 recorder
                       eq_refl))
      as [Happended|(? & ? & ? & change & Hadjacent & _)]; [exact Happended|].
    destruct Hadjacent as (_ & _ & Hone & _ & _ & _ & _ & _ & _ & Hsingle).
    injection Hone as <-. discriminate Hsingle.
Defined.

Lemma coalescing_window_starts_at_first_keystroke_witness :
  let second := edit "ab" (insertion 0 1 "b") in
  let third := edit "abc" (insertion 0 2 "c") in
  map ReplayEvent.timestamp
      (ReplayRecorder.buffer
         (ReplayRecorder.handleDocumentChange platform third 1600
            (ReplayRecorder.handleDocumentChange platform second 1400
               recorder)))
  = [1000; 1600].
Proof.
  cbv zeta.
  rewrite (ReplayFacts.coalescing_window_starts_at_first_keystroke platform
             (edit "ab" (insertion 0 1 "b")) (edit "abc" (insertion 0 2 "c"))
             1400 1600 recorder keyEvent eq_refl eq_refl eq_refl eq_refl
             eq_refl).
  by vm_compute.
Defined.

Lemma recording_closes_its_session_witness :
  let started := started SnapshotStorage.empty in
  let calls := [EngineSpec.Change (edit "hello" (insertion 0 0 "hello"))] in
  let stopped :=
    snd (Engine.stop platform (editor "hello")
           (EngineSpec.run platform calls started)) in
  exists db closed,
    storage stopped = Some db
    /\ SnapshotStorage.sessions db = [closed]
    /\ Session.total_snapshots closed = 1
    /\ Session.files_touched closed = ["a.py"].
Proof.
  cbv zeta.
  destruct (SessionFacts.recording_closes_its_session platform
              (editor "") (editor "hello") SnapshotStorage.empty 50 []
              [EngineSpec.Change (edit "hello" (insertion 0 0 "hello"))]
              eq_refl)
    as (db & closed & Hstored & _ & Hsessions & _ & _ & Htotal & _ & Hfiles
        & _).
  - intros [].
  - reflexivity.
  - apply NoDup_ListNoDup. vm_compute. apply NoDup_singleton.
  - exists db, closed. split; [exact Hstored|]. split; [exact Hsessions|].
    rewrite Htotal, Hfiles. by vm_compute.
Defined.

Lemma countDiffLines_skips_lines_that_look_like_headers_witness :
  let header := ["--- a.py"; "+++ a.py"] in
  Engine.countDiffLines (EngineSpec.joinLines (header ++ ["+" +:+ "++i;"]))
  = (0, 0)
  /\ Engine.countDiffLines (EngineSpec.joinLines (header ++ ["+" +:+ "i++;"]))
     = (1, 0).
Proof.
  cbv zeta. split.
  - destruct (DiffFacts.countDiffLines_skips_lines_that_look_like_headers
                ["--- a.py"; "+++ a.py"] [] "++i;") as [Hadded _].
    + by repeat constructor.
    + cbv beta zeta in Hadded. rewrite Hadded. by vm_compute.
  - destruct (DiffFacts.countDiffLines_skips_lines_that_look_like_headers
                ["--- a.py"; "+++ a.py"] [] "i++;") as [Hadded _].
    + by repeat constructor.
    + cbv beta zeta in Hadded. rewrite Hadded. by vm_compute.
Defined.

Lemma nonpositive_threshold_makes_every_edit_a_paste_witness :
  let this :=
    snd (Engine.start platform (editor "hello")
           (Engine.create platform (Some SnapshotStorage.empty) 0 [])) in
  let deletion := edit "" (removal 5) in
  ChangeDetector.detect (pasteThreshold this) deletion = Paste
  /\ map (fun entry => PendingChange.changeType (snd entry))
         (pendingChanges (Engine.handleDocumentChange platform deletion this))
     = [Paste].
Proof.
  cbv zeta.
  destruct (ThresholdFacts.nonpositive_threshold_makes_every_edit_a_paste
              platform (edit "" (removal 5)) (removal 5)
              (snd (Engine.start platform (editor "hello")
                      (Engine.create platform (Some SnapshotStorage.empty)
                                     0 []))))
    as [Hpaste _].
  - by vm_compute.
  - reflexivity.
  - split; [exact Hpaste|]. by vm_compute.
Defined.

End FurtherExamples.
